(** * Response curation of the FMP tool server

    A shallow embedding of the twelve tool handlers registered in the
    server module (search_symbol ... dividend_calendar) and of the part of
    the JavaScript runtime they rely on.  Each handler is a function from
    its validated arguments and the outcome of its upstream request(s) to
    the result object handed to the transport.  Request construction (URL
    assembly, the HTTP client) is outside the embedding: a handler receives,
    as [response], the outcome of its code up to and including
    [await axios.get(url)], either the parsed body [response.data] or the
    error that was thrown.  Arguments that only shape the request (query,
    from, to, timeseries, the fetch limits) are therefore no parameters of
    the embedded handlers. *)

From Stdlib Require Import List String Ascii Bool Arith ZArith Lia.
From Stdlib Require Import Permutation Sorted.
From Stdlib Require Import PrimFloat SpecFloat FloatOps FloatClass DecimalString.
From Stdlib Require Uint63.
Import ListNotations.
Local Open Scope string_scope.
Local Open Scope list_scope.

(** ** The JavaScript values and builtins the handlers use *)
Module Js.

(** A parsed JSON document, plus [undefined] (the result of reading a
    property that is not there).  Numbers are IEEE binary64.  An object is
    its own enumerable properties in insertion order; keys are distinct, as
    JSON.parse leaves them.  Members inherited from the builtin prototypes
    are not modelled: the handlers read data fields only, but for
    technical_indicator, which reads a key made from the caller's indicator
    type (see [inherited] and [data_key] below). *)
#[warnings="-register-all"]
Inductive value : Type :=
| VUndefined
| VNull
| VBool (b : bool)
| VNum (x : float)
| VStr (s : string)
| VArr (items : list value)
| VObj (props : list (string * value)).

(** A thrown error: [error.message], and [error.response.data] where the
    HTTP client attached a response ([VUndefined] otherwise). *)
Record js_error : Type := mk_error { message : string; response_data : value }.

Definition TypeError (msg : string) : js_error :=
  {| message := msg; response_data := VUndefined |}.

(** Computations that may throw. *)
Inductive exc (A : Type) : Type :=
| Ret (a : A)
| Throw (e : js_error).
Arguments Ret {A} a.
Arguments Throw {A} e.

Definition bind {A B : Type} (m : exc A) (k : A -> exc B) : exc B :=
  match m with
  | Ret a => k a
  | Throw e => Throw e
  end.

Notation "x <- m ;; k" := (bind m (fun x => k))
  (at level 61, m at next level, right associativity).

(** Builtins whose result depends on text parsing or printing of numbers
    and dates are taken from the runtime. *)
Record runtime : Type := mk_runtime {
  (** time value of [new Date(v)] in milliseconds; [None] is Invalid Date *)
  Date_time : value -> option Z;
  (** Number::toString *)
  Number_toString : float -> string;
  (** StringToNumber *)
  String_toNumber : string -> float
}.

(** Template literals. *)
Definition tpl (parts : list string) : string := String.concat "" parts.

(** Decimal digits of a natural number. *)
Definition dec (n : nat) : string := NilZero.string_of_uint (Nat.to_uint n).

Definition num_of_Z (z : Z) : float := PrimFloat.of_uint63 (Uint63.of_Z z).
Definition num_of_nat (n : nat) : float := num_of_Z (Z.of_nat n).

(** ToBoolean *)
Definition truthy (v : value) : bool :=
  match v with
  | VUndefined | VNull => false
  | VBool b => b
  | VNum x => negb (PrimFloat.eqb x 0 || PrimFloat.is_nan x)
  | VStr s => negb (String.eqb s "")
  | VArr _ | VObj _ => true
  end.

(** [a || b] *)
Definition or_else (a b : value) : value := if truthy a then a else b.

Fixpoint lookup (k : string) (props : list (string * value)) : option value :=
  match props with
  | [] => None
  | (k', v) :: rest => if String.eqb k k' then Some v else lookup k rest
  end.

(** [obj.hasOwnProperty(k)] and [obj[k]] on an object's own properties *)
Definition has_own (props : list (string * value)) (k : string) : bool :=
  match lookup k props with Some _ => true | None => false end.

Definition own (props : list (string * value)) (k : string) : value :=
  match lookup k props with Some v => v | None => VUndefined end.

Fixpoint nat_of_digits (cs : list ascii) (acc : nat) : option nat :=
  match cs with
  | [] => Some acc
  | c :: rest =>
      let n := nat_of_ascii c in
      if ((48 <=? n) && (n <=? 57))%nat then nat_of_digits rest (acc * 10 + (n - 48))
      else None
  end.

(** The array index a property key denotes, if any: a canonical decimal
    numeral below the length. *)
Definition index_of_key (k : string) (n : nat) : option nat :=
  match nat_of_digits (list_ascii_of_string k) 0 with
  | Some i => if (String.eqb (dec i) k && (i <? n)%nat)%bool then Some i else None
  | None => None
  end.

Definition chars (s : string) : list value :=
  map (fun c => VStr (String c EmptyString)) (list_ascii_of_string s).

(** The names every object inherits from Object.prototype.  Read on an
    object that has no own property of that name, such a key yields the
    inherited built-in (a function, or the prototype object), which is no
    value of this model. *)
Definition Object_prototype_members : list string :=
  ["constructor"; "__proto__"; "hasOwnProperty"; "isPrototypeOf"; "propertyIsEnumerable";
   "toLocaleString"; "toString"; "valueOf"; "__defineGetter__"; "__defineSetter__";
   "__lookupGetter__"; "__lookupSetter__"].

Definition inherited (k : string) : bool :=
  existsb (String.eqb k) Object_prototype_members.

(** [v[k]], [v.k]: the own properties (and [length] and the indices of
    arrays and strings).  It is the language's read for every key that is
    not the name of an inherited member; the keys the handlers write out
    ([date], [symbol], ...) are none. *)
Definition get (v : value) (k : string) : exc value :=
  match v with
  | VUndefined =>
      Throw (TypeError (tpl ["Cannot read properties of undefined (reading '"; k; "')"]))
  | VNull =>
      Throw (TypeError (tpl ["Cannot read properties of null (reading '"; k; "')"]))
  | VObj props => Ret (own props k)
  | VArr items =>
      if String.eqb k "length" then Ret (VNum (num_of_nat (List.length items)))
      else match index_of_key k (List.length items) with
           | Some i => Ret (nth i items VUndefined)
           | None => Ret VUndefined
           end
  | VStr s =>
      if String.eqb k "length" then Ret (VNum (num_of_nat (String.length s)))
      else match index_of_key k (String.length s) with
           | Some i => Ret (nth i (chars s) VUndefined)
           | None => Ret VUndefined
           end
  | VBool _ | VNum _ => Ret VUndefined
  end.

Definition join (sep : string) (parts : list string) : string := String.concat sep parts.

(** ToString *)
Fixpoint ToString (rt : runtime) (v : value) : string :=
  match v with
  | VUndefined => "undefined"
  | VNull => "null"
  | VBool b => if b then "true" else "false"
  | VNum x => Number_toString rt x
  | VStr s => s
  | VArr items =>
      join "," (map (fun x => match x with
                              | VUndefined | VNull => ""
                              | _ => ToString rt x
                              end) items)
  | VObj _ => "[object Object]"
  end.

(** ToNumber *)
Definition ToNumber (rt : runtime) (v : value) : float :=
  match v with
  | VUndefined => nan
  | VNull => 0%float
  | VBool b => if b then 1%float else 0%float
  | VNum x => x
  | VStr s => String_toNumber rt s
  | VArr _ => String_toNumber rt (ToString rt v)
  | VObj _ => nan
  end.

(** [x.length]: a natural number on arrays and strings, and whatever a
    property of that name holds on anything else. *)
Inductive jslen : Type :=
| LenNat (n : nat)
| LenVal (v : value).

Definition get_length (v : value) : exc jslen :=
  match v with
  | VUndefined =>
      Throw (TypeError "Cannot read properties of undefined (reading 'length')")
  | VNull =>
      Throw (TypeError "Cannot read properties of null (reading 'length')")
  | VArr items => Ret (LenNat (List.length items))
  | VStr s => Ret (LenNat (String.length s))
  | VObj props => Ret (LenVal (own props "length"))
  | VBool _ | VNum _ => Ret (LenVal VUndefined)
  end.

(** [len === n], [len > n] and [`${len}`] for an integer [n]; [undefined]
    converts to NaN, which compares false. *)
Definition len_is (l : jslen) (n : nat) : bool :=
  match l with
  | LenNat m => (m =? n)%nat
  | LenVal (VNum x) => PrimFloat.eqb x (num_of_nat n)
  | LenVal _ => false
  end.

Definition len_gt (rt : runtime) (l : jslen) (n : nat) : bool :=
  match l with
  | LenNat m => (n <? m)%nat
  | LenVal VUndefined => false
  | LenVal v => PrimFloat.ltb (num_of_nat n) (ToNumber rt v)
  end.

Definition len_show (rt : runtime) (l : jslen) : string :=
  match l with
  | LenNat m => dec m
  | LenVal v => ToString rt v
  end.

(** [Array.isArray(d) ? d[0] : d] *)
Definition first_if_array (d : value) : value :=
  match d with
  | VArr items => nth 0 items VUndefined
  | _ => d
  end.

(** [Object.keys(v)] *)
Definition Object_keys (v : value) : exc (list string) :=
  match v with
  | VUndefined | VNull =>
      Throw (TypeError "Cannot convert undefined or null to object")
  | VObj props => Ret (map fst props)
  | VArr items => Ret (map dec (seq 0 (List.length items)))
  | VStr s => Ret (map dec (seq 0 (String.length s)))
  | VBool _ | VNum _ => Ret []
  end.

(** [Object.values(v)] *)
Definition Object_values (v : value) : exc (list value) :=
  match v with
  | VUndefined | VNull =>
      Throw (TypeError "Cannot convert undefined or null to object")
  | VObj props => Ret (map snd props)
  | VArr items => Ret items
  | VStr s => Ret (chars s)
  | VBool _ | VNum _ => Ret []
  end.

(** [arr.flat()] *)
Definition flat (l : list value) : list value :=
  flat_map (fun v => match v with VArr inner => inner | _ => [v] end) l.

Fixpoint mapM {A B : Type} (f : A -> exc B) (l : list A) : exc (list B) :=
  match l with
  | [] => Ret []
  | x :: xs => y <- f x ;; ys <- mapM f xs ;; Ret (y :: ys)
  end.

(** [arr.sort(cmp)].  The comparator yields a number, [None] standing for
    NaN; SortCompare reads NaN as +0 and places [undefined] last.  The sort
    is stable; it is written as an insertion sort, which any stable sort
    agrees with when the comparator is consistent.  With an inconsistent
    comparator (some date invalid) the language leaves the order to the
    implementation: what is proved of such inputs below holds of any
    permutation. *)
Section Sort.
Variable cmp : value -> value -> exc (option Z).

Definition SortCompare (x y : value) : exc Z :=
  match x, y with
  | VUndefined, VUndefined => Ret 0%Z
  | VUndefined, _ => Ret 1%Z
  | _, VUndefined => Ret (-1)%Z
  | _, _ => v <- cmp x y ;; Ret (match v with Some z => z | None => 0%Z end)
  end.

Fixpoint insert (x : value) (sorted : list value) : exc (list value) :=
  match sorted with
  | [] => Ret [x]
  | y :: ys =>
      c <- SortCompare x y ;;
      if (0 <? c)%Z then rest <- insert x ys ;; Ret (y :: rest)
      else Ret (x :: y :: ys)
  end.

Fixpoint sort (l : list value) : exc (list value) :=
  match l with
  | [] => Ret []
  | x :: xs => s <- sort xs ;; insert x s
  end.
End Sort.

(** [new Date(b.date) - new Date(a.date)]: the difference of two time
    values has the sign of the integer difference, NaN if either date is
    invalid. *)
Definition date_diff (rt : runtime) (later earlier : value) : exc (option Z) :=
  dl <- get later "date" ;;
  de <- get earlier "date" ;;
  Ret (match Date_time rt dl, Date_time rt de with
       | Some tl, Some te => Some (tl - te)%Z
       | _, _ => None
       end).

(** [(a, b) => new Date(b.date) - new Date(a.date)]: newest first *)
Definition newest_first (rt : runtime) (a b : value) : exc (option Z) :=
  date_diff rt b a.

(** [(a, b) => new Date(a.date) - new Date(b.date)]: oldest first *)
Definition oldest_first (rt : runtime) (a b : value) : exc (option Z) :=
  date_diff rt a b.

(** [s.toLowerCase()], [s.toUpperCase()] on the ASCII letters (indicator
    names are ASCII); other characters are left as they are. *)
Definition lower_char (c : ascii) : ascii :=
  let n := nat_of_ascii c in
  if ((65 <=? n) && (n <=? 90))%nat then ascii_of_nat (n + 32) else c.

Definition upper_char (c : ascii) : ascii :=
  let n := nat_of_ascii c in
  if ((97 <=? n) && (n <=? 122))%nat then ascii_of_nat (n - 32) else c.

Definition toLowerCase (s : string) : string :=
  string_of_list_ascii (map lower_char (list_ascii_of_string s)).

Definition toUpperCase (s : string) : string :=
  string_of_list_ascii (map upper_char (list_ascii_of_string s)).

Definition is_ascii (s : string) : bool :=
  forallb (fun c => (nat_of_ascii c <? 128)%nat) (list_ascii_of_string s).

(** A string that can be lower- and upper-cased into the key of a record
    field: it is ASCII, so that the two case conversions above are the
    language's, and neither case form names an inherited member, so that
    [get] is the language's read of it. *)
Definition data_key (s : string) : bool :=
  is_ascii s && negb (inherited (toLowerCase s)) && negb (inherited (toUpperCase s)).

(** *** Number formatting *)

(** The integer nearest to [m * 2^e * 100], the larger one on a tie. *)
Definition scaled_round (m : positive) (e : Z) : Z :=
  if (0 <=? e)%Z then (Zpos m * 2 ^ e * 100)%Z
  else ((Zpos m * 200 + 2 ^ (- e)) / 2 ^ (- e + 1))%Z.

(** [2^p <= m * 2^e] *)
Definition at_least_pow2 (p : Z) (m : positive) (e : Z) : bool :=
  if (0 <=? e)%Z then (2 ^ p <=? Zpos m * 2 ^ e)%Z
  else (2 ^ (p - e) <=? Zpos m)%Z.

(** [10^21 <= m * 2^e] *)
Definition at_least_1e21 (m : positive) (e : Z) : bool :=
  if (0 <=? e)%Z then (10 ^ 21 <=? Zpos m * 2 ^ e)%Z else false.

(** Decimal digits of a non-negative integer. *)
Definition dec_Z (z : Z) : string := NilZero.string_of_uint (N.to_uint (Z.to_N z)).

Definition two_digits (n : Z) : string :=
  if (n <? 10)%Z then tpl ["0"; dec_Z n] else dec_Z n.

(** [x.toFixed(2)] *)
Definition toFixed2 (rt : runtime) (x : float) : string :=
  match Prim2SF x with
  | S754_nan => "NaN"
  | S754_infinity s => if s then "-Infinity" else "Infinity"
  | S754_zero _ => "0.00"
  | S754_finite s m e =>
      if at_least_1e21 m e then Number_toString rt x
      else
        let n := scaled_round m e in
        tpl [if s then "-" else ""; dec_Z (n / 100); ".";
             two_digits (n mod 100)]
  end.

(** [parseFloat(x.toFixed(2))]: the double nearest to the two-decimal
    numeral.  From 2^46 on, doubles are more than 0.01 apart and the numeral
    reads back as [x]; below, the scaled integer is exact and one correctly
    rounded division by 100 gives the nearest double. *)
Definition round2 (rt : runtime) (x : float) : float :=
  match Prim2SF x with
  | S754_nan => nan
  | S754_infinity _ => x
  | S754_zero _ => 0%float
  | S754_finite s m e =>
      if at_least_1e21 m e then String_toNumber rt (Number_toString rt x)
      else if at_least_pow2 46 m e then x
      else
        let q := (num_of_Z (scaled_round m e) / 100)%float in
        if s then (- q)%float else q
  end.

Definition is_neg_zero (x : float) : bool :=
  match PrimFloat.classify x with NZero => true | _ => false end.

(** [Math.max(...xs)], [Math.min(...xs)] on numbers already converted *)
Definition max2 (a b : float) : float :=
  if PrimFloat.is_nan a || PrimFloat.is_nan b then nan
  else if PrimFloat.ltb a b then b
  else if PrimFloat.ltb b a then a
  else if is_neg_zero a then b else a.

Definition min2 (a b : float) : float :=
  if PrimFloat.is_nan a || PrimFloat.is_nan b then nan
  else if PrimFloat.ltb a b then a
  else if PrimFloat.ltb b a then b
  else if is_neg_zero a then a else b.

Definition Math_max (rt : runtime) (args : list value) : float :=
  fold_left max2 (map (ToNumber rt) args) neg_infinity.

Definition Math_min (rt : runtime) (args : list value) : float :=
  fold_left min2 (map (ToNumber rt) args) infinity.

(** [[...v]]: arrays and strings are iterable. *)
Definition spread (v : value) : exc (list value) :=
  match v with
  | VArr items => Ret items
  | VStr s => Ret (chars s)
  | VUndefined => Throw (TypeError "undefined is not iterable")
  | VNull => Throw (TypeError "null is not iterable")
  | _ => Throw (TypeError "value is not iterable")
  end.

(** The receiver of [v.slice(0, n).map(f)]: on anything but an array the
    chain throws, at [slice] or, for a string, at [map], whatever [n]. *)
Definition sliceable (v : value) : exc (list value) :=
  match v with
  | VArr items => Ret items
  | VStr _ => Throw (TypeError "map is not a function")
  | VUndefined => Throw (TypeError "Cannot read properties of undefined (reading 'slice')")
  | VNull => Throw (TypeError "Cannot read properties of null (reading 'slice')")
  | _ => Throw (TypeError "slice is not a function")
  end.

(** [obj[k] = v] on the property list: a new key goes last. *)
Fixpoint obj_set (props : list (string * value)) (k : string) (v : value)
  : list (string * value) :=
  match props with
  | [] => [(k, v)]
  | (k', v') :: rest =>
      if String.eqb k k' then (k', v) :: rest else (k', v') :: obj_set rest k v
  end.

(** [v.hasOwnProperty(k)]: a data property of that name shadows the
    method, and calling it throws. *)
Definition hasOwnProperty (v : value) (k : string) : exc bool :=
  match v with
  | VUndefined =>
      Throw (TypeError "Cannot read properties of undefined (reading 'hasOwnProperty')")
  | VNull =>
      Throw (TypeError "Cannot read properties of null (reading 'hasOwnProperty')")
  | VObj props =>
      if has_own props "hasOwnProperty"
      then Throw (TypeError "hasOwnProperty is not a function")
      else Ret (has_own props k)
  | VArr items =>
      Ret (String.eqb k "length"
           || match index_of_key k (List.length items) with Some _ => true | None => false end)
  | VStr s =>
      Ret (String.eqb k "length"
           || match index_of_key k (String.length s) with Some _ => true | None => false end)
  | VBool _ | VNum _ => Ret false
  end.

(** The object literal [{ k1: src.f1, ..., kn: src.fn }], as pairs
    (output key, source field). *)
Definition picks (fields : list (string * string)) (src : value)
  : exc (list (string * value)) :=
  mapM (fun kf => v <- get src (snd kf) ;; Ret (fst kf, v)) fields.

Definition pick (fields : list (string * string)) (src : value) : exc value :=
  ps <- picks fields src ;; Ret (VObj ps).

Definition same_name (names : list string) : list (string * string) :=
  map (fun n => (n, n)) names.

End Js.

(** ** Tool results and handlers *)
Module Tools.
Import Js.

(** The text of a content item: a plain sentence, or the document
    [JSON.stringify(payload, null, 2)], kept as the payload it prints. *)
Inductive text_body : Type :=
| Plain (sentence : string)
| Stringified (payload : value).

Record content_item : Type := mk_item { type : string; text : text_body }.

(** What a handler returns to the transport: [{ content: [...] }]. *)
Record tool_result : Type := mk_result { content : list content_item }.

(** [{ content: [{ type: "text", text: t }] }] *)
Definition reply (t : text_body) : tool_result :=
  {| content := [ {| type := "text"; text := t |} ] |}.

Definition say (sentence : string) : tool_result := reply (Plain sentence).
Definition json (payload : value) : tool_result := reply (Stringified payload).

(** [try { body } catch (error) { handler }] *)
Definition try_catch (body : exc tool_result) (handler : js_error -> tool_result)
  : tool_result :=
  match body with
  | Ret r => r
  | Throw error => handler error
  end.

Inductive DetailTier : Type := summary | full.

Definition is_full (detail : DetailTier) : bool :=
  match detail with full => true | summary => false end.

Definition default {A : Type} (d : A) (arg : option A) : A :=
  match arg with Some a => a | None => d end.

(** [!x || x.length === 0] *)
Definition missing_or_empty (x : value) : exc bool :=
  if negb (truthy x) then Ret true
  else len <- get_length x ;; Ret (len_is len 0).

(** [!x || Object.keys(x).length === 0] *)
Definition missing_or_no_keys (x : value) : exc bool :=
  if negb (truthy x) then Ret true
  else keys <- Object_keys x ;; Ret (List.length keys =? 0)%nat.

(** [t && t.length > maxLen ? t.substring(0, maxLen) + marker : t], the
    expression both company_profile (300, "... (truncated)") and stock_news
    (200, "...") apply to a free-text field. *)
Definition truncated (rt : runtime) (maxLen : nat) (marker : string) (t : value)
  : exc value :=
  if negb (truthy t) then Ret t
  else
    len <- get_length t ;;
    if len_gt rt len maxLen then
      match t with
      | VStr s => Ret (VStr (substring 0 maxLen s ++ marker)%string)
      | _ => Throw (TypeError "substring is not a function")
      end
    else Ret t.

(** *** search_symbol *)
Definition search_symbol (response : exc value) : tool_result :=
  try_catch
    (results <- response ;;
     none <- missing_or_empty results ;;
     if none then Ret (say "No symbols found matching your query.")
     else
       let MAX_RESULTS_TO_LLM := 5 in
       items <- sliceable results ;;
       summarizedResults <-
         mapM (pick (same_name ["symbol"; "name"; "currency"; "exchangeShortName"]))
              (firstn MAX_RESULTS_TO_LLM items) ;;
       if (MAX_RESULTS_TO_LLM <? List.length items)%nat then
         Ret (json (VObj
           [("message", VStr (tpl ["Displaying top "; dec MAX_RESULTS_TO_LLM; " of ";
                                   dec (List.length items);
                                   " symbols fetched. Be more specific if your target is not listed."]));
            ("matches", VArr summarizedResults)]))
       else Ret (json (VArr summarizedResults)))
    (fun error => say (tpl ["Error in search_symbol: "; message error])).

(** *** company_profile *)
Definition company_profile (rt : runtime) (response : exc value) : tool_result :=
  try_catch
    (data <- response ;;
     let profileData := first_if_array data in
     none <- missing_or_no_keys profileData ;;
     if none then Ret (say "No company profile data found for the symbol.")
     else
       before <- picks (same_name ["symbol"; "companyName"; "price"; "currency";
                                   "exchangeShortName"; "industry"; "sector"; "website"])
                       profileData ;;
       raw_description <- get profileData "description" ;;
       description <- truncated rt 300 "... (truncated)" raw_description ;;
       after <- picks [("ceo", "ceo"); ("marketCap", "mktCap"); ("beta", "beta");
                       ("volAvg", "volAvg"); ("lastDiv", "lastDiv"); ("range", "range");
                       ("isActivelyTrading", "isActivelyTrading")]
                      profileData ;;
       let summarizedProfile := VObj (before ++ [("description", description)] ++ after) in
       Ret (json summarizedProfile))
    (fun error => say (tpl ["Error in company_profile: "; message error])).

(** *** quote *)
Definition quote (response : exc value) : tool_result :=
  try_catch
    (data <- response ;;
     let quoteData := first_if_array data in
     none <- missing_or_no_keys quoteData ;;
     if none then Ret (say "No quote data found for the symbol.")
     else
       summarizedQuote <-
         pick (same_name ["symbol"; "name"; "price"; "changesPercentage"; "change";
                          "dayLow"; "dayHigh"; "yearHigh"; "yearLow"; "marketCap";
                          "priceAvg50"; "priceAvg200"; "volume"; "avgVolume"; "open";
                          "previousClose"; "eps"; "pe"; "timestamp"])
              quoteData ;;
       Ret (json summarizedQuote))
    (fun error => say (tpl ["Error in quote: "; message error])).

(** *** historical_stock_data *)
Definition POINTS_THRESHOLD_FOR_SUMMARY : nat := 60.
Definition RECENT_POINTS_TO_SHOW_WITH_SUMMARY : nat := 5.
Definition MAX_POINTS_FOR_FULL_DETAIL : nat := 150.

(** [(p) => ({ date: p.date, open: p.open, ..., volume: p.volume })] *)
Definition ohlcv (p : value) : exc value :=
  pick (same_name ["date"; "open"; "high"; "low"; "close"; "volume"]) p.

(** The guard on [history] that leads to the first no-data sentence. *)
Definition history_missing (history : value) : exc bool :=
  if negb (truthy history) then Ret true
  else match history with
       | VArr [] => Ret true
       | VArr _ | VObj _ => keys <- Object_keys history ;; Ret (List.length keys =? 0)%nat
       | _ => Ret false
       end.

(** [priceChangePercent] of the digest *)
Definition priceChangePercent (rt : runtime) (first_close last_close : value) : value :=
  if truthy last_close && truthy first_close
  then VNum (((ToNumber rt last_close - ToNumber rt first_close)
              / ToNumber rt first_close) * 100)%float
  else VNull.

(** The handler from the sorted [dataPoints] on: the capped full window,
    the digest, or all points. *)
Definition summarize_points (rt : runtime) (detail : DetailTier) (dataPoints : list value)
  : exc tool_result :=
  if (List.length dataPoints =? 0)%nat
  then Ret (say "No historical data points found after processing.")
  else if is_full detail then
    limitedDetailedData <- mapM ohlcv (firstn MAX_POINTS_FOR_FULL_DETAIL dataPoints) ;;
    Ret (json (VObj
      [("message", VStr (tpl ["Showing "; dec (List.length limitedDetailedData); " of ";
                              dec (List.length dataPoints);
                              " fetched data points (full detail requested, capped at ";
                              dec MAX_POINTS_FOR_FULL_DETAIL; ")."]));
       ("data", VArr limitedDetailedData)]))
  else if (POINTS_THRESHOLD_FOR_SUMMARY <? List.length dataPoints)%nat then
    chronologicalPoints <- sort (oldest_first rt) dataPoints ;;
    let chronologicalFirst := nth 0 chronologicalPoints VUndefined in
    let chronologicalLast :=
      nth (List.length chronologicalPoints - 1) chronologicalPoints VUndefined in
    highs <- mapM (fun p => get p "high") chronologicalPoints ;;
    lows <- mapM (fun p => get p "low") chronologicalPoints ;;
    first_date <- get chronologicalFirst "date" ;;
    last_date <- get chronologicalLast "date" ;;
    first_close <- get chronologicalFirst "close" ;;
    last_close <- get chronologicalLast "close" ;;
    recentData <- mapM ohlcv (firstn RECENT_POINTS_TO_SHOW_WITH_SUMMARY dataPoints) ;;
    let summarizedHistory := VObj
      [("message", VStr (tpl ["Summarized "; dec (List.length dataPoints);
                              " data points from "; ToString rt first_date; " to ";
                              ToString rt last_date; ". Showing ";
                              dec RECENT_POINTS_TO_SHOW_WITH_SUMMARY;
                              " most recent points. Request 'full' detail for more data points (up to ";
                              dec MAX_POINTS_FOR_FULL_DETAIL; ")."]));
       ("periodStartDate", first_date);
       ("periodEndDate", last_date);
       ("startPrice", first_close);
       ("endPrice", last_close);
       ("periodHigh", VNum (Math_max rt highs));
       ("periodLow", VNum (Math_min rt lows));
       ("priceChangePercent", priceChangePercent rt first_close last_close);
       ("recentData", VArr recentData)] in
    Ret (json summarizedHistory)
  else
    allAvailableData <- mapM ohlcv dataPoints ;;
    Ret (json (VObj
      [("message", VStr (tpl ["Showing all "; dec (List.length allAvailableData);
                              " fetched data points (below summary threshold)."]));
       ("data", VArr allAvailableData)])).

Definition historical_stock_data (rt : runtime) (detail : option DetailTier)
  (response : exc value) : tool_result :=
  let detail := default summary detail in
  try_catch
    (data <- response ;;
     historical <- get data "historical" ;;
     let history := or_else historical data in
     none <- history_missing history ;;
     if none then Ret (say "No historical data found for the given parameters.")
     else
       points <- (match history with
                  | VArr items => Ret items
                  | _ => vals <- Object_values history ;; Ret (flat vals)
                  end) ;;
       dataPoints <- sort (newest_first rt) points ;;
       summarize_points rt detail dataPoints)
    (fun error => say (tpl ["Error fetching historical_stock_data: "; message error])).

(** *** technical_indicator

    [period] is a positive integer (below 10^21, where a template prints
    its decimal digits).  The two computed reads [val[type.toLowerCase()]]
    and [val[type.toUpperCase()]] are the language's when [data_key
    indicator_type] holds. *)
Definition technical_indicator (rt : runtime) (symbol interval indicator_type : string)
  (period : nat) (response : exc value) : tool_result :=
  try_catch
    (indicatorData <- response ;;
     let none := negb (truthy indicatorData)
                 || match indicatorData with VArr [] => true | _ => false end in
     if none then
       Ret (say (tpl ["No "; indicator_type; " data found for "; symbol; " with period ";
                      dec period; " on "; interval; " interval."]))
     else
       summarizedIndicator <-
         (match indicatorData with
          | VArr items =>
              let RECENT_VALUES_COUNT := 3 in
              recentValues <-
                mapM (fun val =>
                        date <- get val "date" ;;
                        lower <- get val (toLowerCase indicator_type) ;;
                        upper <- get val (toUpperCase indicator_type) ;;
                        indicatorValue <- get val "indicatorValue" ;;
                        value <- get val "value" ;;
                        Ret (VObj (obj_set [("date", date)] (toLowerCase indicator_type)
                                     (or_else lower (or_else upper
                                        (or_else indicatorValue value))))))
                     (firstn RECENT_VALUES_COUNT items) ;;
              if (List.length items <=? RECENT_VALUES_COUNT)%nat
              then Ret (VArr recentValues)
              else Ret (VObj
                [("message", VStr (tpl ["Showing "; dec (List.length recentValues);
                                        " most recent "; indicator_type; " values of ";
                                        dec (List.length items);
                                        " fetched. Full series available via API."]));
                 ("indicator", VStr indicator_type);
                 ("values", VArr recentValues)])
          | _ => Ret indicatorData
          end) ;;
       Ret (json summarizedIndicator))
    (fun error => say (tpl ["Error in technical_indicator: "; message error])).

(** *** analyst_estimates: two requests, awaited one after the other *)
Definition analyst_estimates (rt : runtime) (symbol : string)
  (estimatesResponse priceTargetResponse : exc value) : tool_result :=
  try_catch
    (estimatesData <- estimatesResponse ;;
     priceTarget <- priceTargetResponse ;;
     let priceTargetData := first_if_array priceTarget in
     no_estimates <- missing_or_empty estimatesData ;;
     if no_estimates && negb (truthy priceTargetData) then
       Ret (say "No analyst estimates or price target data found for the symbol.")
     else
       let summary0 :=
         [("symbol", VStr symbol);
          ("sourceMessage",
           VStr "Summarized analyst estimates. More historical/detailed data might be available via direct API.")] in
       summary1 <-
         (if truthy priceTargetData then
            priceTargetSummary <-
              pick (same_name ["lastUpdated"; "targetHigh"; "targetLow"; "targetConsensus";
                               "targetMedian"; "numberOfAnalysts"])
                   priceTargetData ;;
            Ret (obj_set summary0 "priceTargetSummary" priceTargetSummary)
          else Ret summary0) ;;
       has_estimates <-
         (if truthy estimatesData
          then len <- get_length estimatesData ;; Ret (len_gt rt len 0)
          else Ret false) ;;
       summary2 <-
         (if has_estimates then
            items <- sliceable estimatesData ;;
            recentEstimates <-
              mapM (pick (same_name ["date"; "estimatedRevenueAvg"; "estimatedEpsAvg"]))
                   (firstn 2 items) ;;
            Ret (obj_set (obj_set summary1 "recentEstimates" (VArr recentEstimates))
                   "recommendationInfo"
                   (VStr "Detailed buy/hold/sell counts not directly available in this summary. FMP has separate recommendation endpoints."))
          else Ret summary1) ;;
       Ret (json (VObj summary2)))
    (fun error => say (tpl ["Error in analyst_estimates: "; message error])).

(** *** stock_news *)
Definition ARTICLES_FOR_SUMMARY : nat := 3.
Definition ARTICLES_FOR_FULL_DETAIL : nat := 10.

Definition article_summary (rt : runtime) (article : value) : exc value :=
  head <- picks (same_name ["title"; "publishedDate"; "site"; "url"]) article ;;
  body <- get article "text" ;;
  snippet <- truncated rt 200 "..." body ;;
  Ret (VObj (head ++ [("snippet", snippet)])).

Definition stock_news (rt : runtime) (detail : option DetailTier) (response : exc value)
  : tool_result :=
  let detail := default summary detail in
  try_catch
    (articles <- response ;;
     none <- missing_or_empty articles ;;
     if none then Ret (say "No news found for the given symbol(s).")
     else
       items <- sliceable articles ;;
       let articlesToShowCount :=
         if is_full detail then Nat.min (List.length items) ARTICLES_FOR_FULL_DETAIL
         else Nat.min (List.length items) ARTICLES_FOR_SUMMARY in
       summarizedArticles <- mapM (article_summary rt) (firstn articlesToShowCount items) ;;
       let messagePrefix :=
         if is_full detail then
           tpl ["Displaying "; dec (List.length summarizedArticles); " of ";
                dec (List.length items);
                " fetched articles (full detail requested, capped at ";
                dec ARTICLES_FOR_FULL_DETAIL; "):"]
         else
           tpl ["Displaying summaries for the "; dec (List.length summarizedArticles);
                " most recent of "; dec (List.length items);
                " articles fetched. Request 'full' detail for more."] in
       if (List.length summarizedArticles <? List.length items)%nat
          || (is_full detail && (articlesToShowCount <=? List.length items)%nat)
       then Ret (json (VObj [("message", VStr messagePrefix);
                             ("articles", VArr summarizedArticles)]))
       else Ret (json (VArr summarizedArticles)))
    (fun error => say (tpl ["Error fetching stock_news: "; message error])).

(** *** earnings_calendar *)
Definition earnings_calendar (rt : runtime) (symbol : option string)
  (response : exc value) : tool_result :=
  try_catch
    (earningsData <- response ;;
     none <- missing_or_empty earningsData ;;
     if none then Ret (say "No earnings calendar data found for the given parameters.")
     else
       let MAX_RESULTS_TO_LLM := 10 in
       let no_symbol := negb (truthy (match symbol with
                                      | Some s => VStr s
                                      | None => VUndefined
                                      end)) in
       len <- get_length earningsData ;;
       if no_symbol && len_gt rt len MAX_RESULTS_TO_LLM then
         items <- sliceable earningsData ;;
         summarizedData <-
           mapM (pick (same_name ["date"; "symbol"; "epsEstimated"; "time"]))
                (firstn MAX_RESULTS_TO_LLM items) ;;
         Ret (json (VObj
           [("message", VStr (tpl ["Displaying first "; dec MAX_RESULTS_TO_LLM; " of ";
                                   dec (List.length items);
                                   " earnings events. Specify a symbol or a tighter date range for more targeted results."]));
            ("earningsEvents", VArr summarizedData)]))
       else
         items <- sliceable earningsData ;;
         relevantData <-
           mapM (pick (same_name ["date"; "symbol"; "eps"; "epsEstimated"; "revenue";
                                  "revenueEstimated"; "time"; "fiscalDateEnding"]))
                (firstn MAX_RESULTS_TO_LLM items) ;;
         Ret (json (VArr relevantData)))
    (fun error => say (tpl ["Error in earnings_calendar: "; message error])).

(** *** financial_ratios_ttm and key_metrics_ttm *)
Definition keyRatioNames : list string :=
  ["peRatioTTM"; "priceToSalesRatioTTM"; "priceToBookRatioTTM";
   "priceEarningsToGrowthRatioTTM"; "currentRatioTTM"; "quickRatioTTM";
   "debtToEquityTTM"; "debtToAssetsTTM"; "returnOnEquityTTM"; "returnOnAssetsTTM";
   "grossProfitMarginTTM"; "operatingProfitMarginTTM"; "netProfitMarginTTM";
   "dividendYieldTTM"; "payoutRatioTTM"; "assetTurnoverTTM"; "inventoryTurnoverTTM"].

Definition keyMetricNames : list string :=
  ["revenuePerShareTTM"; "netIncomePerShareTTM"; "operatingCashFlowPerShareTTM";
   "freeCashFlowPerShareTTM"; "marketCapTTM"; "enterpriseValueTTM"; "peRatioTTM";
   "priceToSalesRatioTTM"; "pocfratioTTM"; "pfcfRatioTTM"; "pbRatioTTM"; "ptbRatioTTM";
   "evToSalesTTM"; "enterpriseValueOverEBITDATTM"; "debtToEquityTTM"; "debtToAssetsTTM";
   "netDebtToEBITDATTM"; "currentRatioTTM"; "dividendYieldTTM"; "payoutRatioTTM";
   "roeTTM"; "roicTTM"].

Definition is_nullish (v : value) : bool :=
  match v with VNull | VUndefined => true | _ => false end.

(** The loop [for (const key of names) if (src.hasOwnProperty(key) &&
    src[key] !== null && src[key] !== undefined) out[key] = src[key]] *)
Fixpoint copy_present (src : value) (names : list string) (out : list (string * value))
  : exc (list (string * value)) :=
  match names with
  | [] => Ret out
  | key :: rest =>
      present <- hasOwnProperty src key ;;
      v <- get src key ;;
      if present && negb (is_nullish v)
      then copy_present src rest (obj_set out key v)
      else copy_present src rest out
  end.

(** [if (src.extra) out.extra = src.extra] *)
Definition copy_if_truthy (src : value) (extra : string) (out : list (string * value))
  : exc (list (string * value)) :=
  v <- get src extra ;;
  Ret (if truthy v then obj_set out extra v else out).

Definition financial_ratios_ttm (symbol : string) (response : exc value) : tool_result :=
  try_catch
    (data <- response ;;
     let allRatios := first_if_array data in
     none <- missing_or_no_keys allRatios ;;
     if none then Ret (say "No TTM financial ratios found for the symbol.")
     else
       own_symbol <- get allRatios "symbol" ;;
       date <- get allRatios "date" ;;
       keys <- Object_keys allRatios ;;
       ratios <- copy_present allRatios keyRatioNames [] ;;
       ratios <- copy_if_truthy allRatios "priceFairValueTTM" ratios ;;
       let summarizedRatios := VObj
         [("symbol", or_else own_symbol (VStr symbol));
          ("date", date);
          ("sourceMessage",
           VStr (tpl ["Showing a curated list of TTM financial ratios. ";
                      dec (List.length keys); " total ratios fetched."]));
          ("ratios", VObj ratios)] in
       Ret (json summarizedRatios))
    (fun error => say (tpl ["Error in financial_ratios_ttm: "; message error])).

Definition key_metrics_ttm (symbol : string) (response : exc value) : tool_result :=
  try_catch
    (data <- response ;;
     let allMetrics := first_if_array data in
     none <- missing_or_no_keys allMetrics ;;
     if none then Ret (say "No TTM key metrics found for the symbol.")
     else
       own_symbol <- get allMetrics "symbol" ;;
       date <- get allMetrics "date" ;;
       keys <- Object_keys allMetrics ;;
       metrics <- copy_present allMetrics keyMetricNames [] ;;
       metrics <- copy_if_truthy allMetrics "bookValuePerShareTTM" metrics ;;
       let summarizedMetrics := VObj
         [("symbol", or_else own_symbol (VStr symbol));
          ("date", date);
          ("sourceMessage",
           VStr (tpl ["Showing a curated list of TTM key metrics. ";
                      dec (List.length keys); " total metrics fetched."]));
          ("metrics", VObj metrics)] in
       Ret (json summarizedMetrics))
    (fun error => say (tpl ["Error in key_metrics_ttm: "; message error])).

(** *** dcf_valuation *)

(** [potentialUpsidePercent] before rounding: [None] is [null]. *)
Definition potentialUpside (rt : runtime) (stockPrice dcfValue : value) : option float :=
  if truthy stockPrice && truthy dcfValue && PrimFloat.ltb 0 (ToNumber rt stockPrice)
  then Some (((ToNumber rt dcfValue - ToNumber rt stockPrice)
              / ToNumber rt stockPrice) * 100)%float
  else None.

(** The [potentialUpsidePercent] field *)
Definition upside_field (rt : runtime) (potentialUpsidePercent : option float) : value :=
  match potentialUpsidePercent with
  | Some p => if truthy (VNum p) then VNum (round2 rt p) else VNull
  | None => VNull
  end.

(** The [message] field *)
Definition upside_message (rt : runtime) (potentialUpsidePercent : option float) : string :=
  match potentialUpsidePercent with
  | Some p =>
      if PrimFloat.ltb 0 p
      then tpl ["DCF suggests a potential upside of "; toFixed2 rt p; "%."]
      else tpl ["DCF suggests a potential downside of "; toFixed2 rt (PrimFloat.abs p); "%."]
  | None => "Could not calculate potential upside."
  end.

Definition dcf_valuation (rt : runtime) (symbol : string) (response : exc value)
  : tool_result :=
  try_catch
    (data <- response ;;
     let dcfData := first_if_array data in
     no_keys <- missing_or_no_keys dcfData ;;
     none <- (if no_keys then Ret true
              else dcf <- get dcfData "dcf" ;; Ret (negb (truthy dcf))) ;;
     if none then
       Ret (say (tpl ["No DCF valuation data found for "; symbol;
                      ". This might be due to data availability or the company type."]))
     else
       spaced <- get dcfData "Stock Price" ;;
       plain <- get dcfData "stockPrice" ;;
       let stockPrice := or_else spaced plain in
       dcfValue <- get dcfData "dcf" ;;
       let potentialUpsidePercent := potentialUpside rt stockPrice dcfValue in
       own_symbol <- get dcfData "symbol" ;;
       date <- get dcfData "date" ;;
       let summarizedDcf := VObj
         [("symbol", or_else own_symbol (VStr symbol));
          ("date", date);
          ("stockPrice", stockPrice);
          ("dcfValue", dcfValue);
          ("currency", VStr "USD");
          ("potentialUpsidePercent", upside_field rt potentialUpsidePercent);
          ("message", VStr (upside_message rt potentialUpsidePercent))] in
       Ret (json summarizedDcf))
    (fun error =>
       let body := response_data error in
       let provider_message :=
         if truthy body
         then match get body "Error Message" with Ret m => m | Throw _ => VUndefined end
         else VUndefined in
       if truthy provider_message then
         say (tpl ["Error fetching DCF for "; symbol; ": "; ToString rt provider_message])
       else
         say (tpl ["Error in dcf_valuation for "; symbol; ": "; message error;
                   ". This could be due to data unavailability for the symbol (e.g., non-US stock, financial institution, or new IPO)."])).

(** *** dividend_calendar

    [limit] is a positive integer, 10 when not given. *)
Definition dividend_calendar (rt : runtime) (symbol : string) (limit : option nat)
  (response : exc value) : tool_result :=
  let limit := default 10 limit in
  try_catch
    (data <- response ;;
     dividends <- get data "historical" ;;
     none <- missing_or_empty dividends ;;
     if none then
       Ret (say (tpl ["No dividend data found for "; symbol;
                      ". The company may not pay dividends or data may be unavailable."]))
     else
       copy <- spread dividends ;;
       sortedDividends <- sort (newest_first rt) copy ;;
       recentDividends <-
         mapM (pick (same_name ["date"; "label"; "dividend"; "adjDividend"; "recordDate";
                                "paymentDate"; "declarationDate"]))
              (firstn limit sortedDividends) ;;
       len <- get_length dividends ;;
       if len_gt rt len (List.length recentDividends) then
         Ret (json (VObj
           [("message", VStr (tpl ["Displaying "; dec (List.length recentDividends);
                                   " most recent of "; len_show rt len;
                                   " dividend records fetched for "; symbol; "."]));
            ("dividends", VArr recentDividends)]))
       else
         Ret (json (VObj
           [("message", VStr (tpl ["Found "; len_show rt len; " dividend records for ";
                                   symbol; "."]));
            ("dividends", VArr recentDividends)])))
    (fun error =>
       let body := response_data error in
       let provider_message :=
         if truthy body
         then match get body "Error Message" with Ret m => m | Throw _ => VUndefined end
         else VUndefined in
       if truthy provider_message then
         say (tpl ["Error fetching dividend data for "; symbol; ": ";
                   ToString rt provider_message])
       else
         say (tpl ["Error fetching dividend data for "; symbol; ": "; message error])).

End Tools.

(** ** Records and pure counterparts of the handlers' steps *)
Module Curated.
Import Js Tools.

(** A raw record: the own properties of one upstream object. *)
Abbreviation record := (list (string * value)) (only parsing).

(** An upstream array of records. *)
Definition records (recs : list record) : value := VArr (map VObj recs).

(** The value of the object literal [{ k: r.f, ... }] on a record. *)
Definition project (fields : list (string * string)) (r : record) : value :=
  VObj (map (fun kf => (fst kf, own r (snd kf))) fields).

(** Insertion sort by an integer key, ascending and stable. *)
Section ByKey.
Variable key : value -> Z.

Fixpoint insert_by (x : value) (s : list value) : list value :=
  match s with
  | [] => [x]
  | y :: ys => if (0 <? key x - key y)%Z then y :: insert_by x ys else x :: y :: ys
  end.

Fixpoint sort_by (l : list value) : list value :=
  match l with
  | [] => []
  | x :: xs => insert_by x (sort_by xs)
  end.

Definition key_le (a b : value) : Prop := (key a <= key b)%Z.
End ByKey.

(** The time value of a record's [date], where it is a valid date. *)
Definition stamp (rt : runtime) (v : value) : Z :=
  match v with
  | VObj r => match Date_time rt (own r "date") with Some t => t | None => 0%Z end
  | _ => 0%Z
  end.

Definition valid_date (rt : runtime) (r : record) : Prop :=
  Date_time rt (own r "date") <> None.

(** What a JSON parser reads back from [JSON.stringify(v)]: properties
    holding [undefined] are left out, [undefined] array entries and
    non-finite numbers print as [null], and -0 prints as 0. *)
Fixpoint printed (v : value) : value :=
  match v with
  | VNum x =>
      if PrimFloat.is_finite x then (if is_neg_zero x then VNum 0 else v) else VNull
  | VArr items =>
      VArr (map (fun x => match x with VUndefined => VNull | _ => printed x end) items)
  | VObj props =>
      VObj ((fix go (ps : list (string * value)) : list (string * value) :=
               match ps with
               | [] => []
               | (_, VUndefined) :: rest => go rest
               | (k, x) :: rest => (k, printed x) :: go rest
               end) props)
  | _ => v
  end.

(** The payload printed by a result, if its one item is a JSON document. *)
Definition payload_of (r : tool_result) : option value :=
  match content r with
  | [ {| type := _; text := Stringified payload |} ] => Some payload
  | _ => None
  end.

(** The [message] of an envelope; a bare array has none. *)
Definition message_of (payload : value) : option value :=
  match payload with
  | VObj props => lookup "message" props
  | _ => None
  end.

(** A property of an object payload ([undefined] elsewhere). *)
Definition field (payload : value) (k : string) : value :=
  match payload with
  | VObj props => own props k
  | _ => VUndefined
  end.

Fixpoint contains (needle hay : string) : bool :=
  match hay with
  | EmptyString => String.eqb needle EmptyString
  | String _ rest => String.prefix needle hay || contains needle rest
  end.

(** The text carries the phrase, letter case aside. *)
Definition mentions (phrase text : string) : bool :=
  contains (toLowerCase phrase) (toLowerCase text).

(** A record as the data model has it: every field holds a scalar. *)
Definition is_scalar (v : value) : bool :=
  match v with
  | VArr _ | VObj _ => false
  | _ => true
  end.

Definition scalar_record (r : record) : Prop :=
  Forall (fun kv => is_scalar (snd kv) = true) r.

(** The text truncator as the design states it: null and undefined pass
    through, a text of at most [maxLen] characters is unchanged, a longer
    one is cut to its first [maxLen] characters and the marker appended. *)
Definition truncate (maxLen : nat) (marker : string) (t : value) : value :=
  match t with
  | VStr s =>
      if (maxLen <? String.length s)%nat
      then VStr (substring 0 maxLen s ++ marker)%string
      else t
  | _ => t
  end.

(** The records a payload lists: the array under [k] of an envelope, or
    the bare array. *)
Definition listing (k : string) (payload : value) : list value :=
  match payload with
  | VArr items => items
  | VObj props => match lookup k props with Some (VArr items) => items | _ => [] end
  | _ => []
  end.

(** [article_summary] on a record *)
Definition article_record (a : record) : value :=
  VObj (map (fun kf => (fst kf, own a (snd kf)))
            (same_name ["title"; "publishedDate"; "site"; "url"])
        ++ [("snippet", truncate 200 "..." (own a "text"))]).

(** The twelve registered tools, each with its arguments and the outcome
    of its upstream request(s). *)
Inductive invocation : Type :=
| call_search_symbol (response : exc value)
| call_company_profile (response : exc value)
| call_quote (response : exc value)
| call_historical_stock_data (detail : option DetailTier) (response : exc value)
| call_technical_indicator (symbol interval indicator_type : string) (period : nat)
    (response : exc value)
| call_analyst_estimates (symbol : string) (estimatesResponse priceTargetResponse : exc value)
| call_stock_news (detail : option DetailTier) (response : exc value)
| call_earnings_calendar (symbol : option string) (response : exc value)
| call_financial_ratios_ttm (symbol : string) (response : exc value)
| call_key_metrics_ttm (symbol : string) (response : exc value)
| call_dcf_valuation (symbol : string) (response : exc value)
| call_dividend_calendar (symbol : string) (limit : option nat) (response : exc value).

Definition run (rt : runtime) (i : invocation) : tool_result :=
  match i with
  | call_search_symbol r => search_symbol r
  | call_company_profile r => company_profile rt r
  | call_quote r => quote r
  | call_historical_stock_data detail r => historical_stock_data rt detail r
  | call_technical_indicator symbol interval indicator_type period r =>
      technical_indicator rt symbol interval indicator_type period r
  | call_analyst_estimates symbol e p => analyst_estimates rt symbol e p
  | call_stock_news detail r => stock_news rt detail r
  | call_earnings_calendar symbol r => earnings_calendar rt symbol r
  | call_financial_ratios_ttm symbol r => financial_ratios_ttm symbol r
  | call_key_metrics_ttm symbol r => key_metrics_ttm symbol r
  | call_dcf_valuation symbol r => dcf_valuation rt symbol r
  | call_dividend_calendar symbol limit r => dividend_calendar rt symbol limit r
  end.

(** The same call when the provider answers every request with [[]]. *)
Definition with_empty_upstream (i : invocation) : invocation :=
  let empty := Ret (VArr []) in
  match i with
  | call_search_symbol _ => call_search_symbol empty
  | call_company_profile _ => call_company_profile empty
  | call_quote _ => call_quote empty
  | call_historical_stock_data detail _ => call_historical_stock_data detail empty
  | call_technical_indicator symbol interval indicator_type period _ =>
      call_technical_indicator symbol interval indicator_type period empty
  | call_analyst_estimates symbol _ _ => call_analyst_estimates symbol empty empty
  | call_stock_news detail _ => call_stock_news detail empty
  | call_earnings_calendar symbol _ => call_earnings_calendar symbol empty
  | call_financial_ratios_ttm symbol _ => call_financial_ratios_ttm symbol empty
  | call_key_metrics_ttm symbol _ => call_key_metrics_ttm symbol empty
  | call_dcf_valuation symbol _ => call_dcf_valuation symbol empty
  | call_dividend_calendar symbol limit _ => call_dividend_calendar symbol limit empty
  end.

(** The no-data sentence of each tool. *)
Definition no_data_sentence (i : invocation) : string :=
  match i with
  | call_search_symbol _ => "No symbols found matching your query."
  | call_company_profile _ => "No company profile data found for the symbol."
  | call_quote _ => "No quote data found for the symbol."
  | call_historical_stock_data _ _ => "No historical data found for the given parameters."
  | call_technical_indicator symbol interval indicator_type period _ =>
      tpl ["No "; indicator_type; " data found for "; symbol; " with period ";
           dec period; " on "; interval; " interval."]
  | call_analyst_estimates _ _ _ =>
      "No analyst estimates or price target data found for the symbol."
  | call_stock_news _ _ => "No news found for the given symbol(s)."
  | call_earnings_calendar _ _ => "No earnings calendar data found for the given parameters."
  | call_financial_ratios_ttm _ _ => "No TTM financial ratios found for the symbol."
  | call_key_metrics_ttm _ _ => "No TTM key metrics found for the symbol."
  | call_dcf_valuation symbol _ =>
      tpl ["No DCF valuation data found for "; symbol;
           ". This might be due to data availability or the company type."]
  | call_dividend_calendar symbol _ _ =>
      tpl ["No dividend data found for "; symbol;
           ". The company may not pay dividends or data may be unavailable."]
  end.

(** Exactly one content item, of text kind. *)
Definition one_text (r : tool_result) : Prop :=
  exists t, content r = [ {| type := "text"; text := t |} ].

(** A handler body either throws or returns such a result. *)
Definition settles (b : exc tool_result) : Prop :=
  match b with
  | Ret r => one_text r
  | Throw _ => True
  end.

(** *** Price series *)
Definition ohlcv_point (p : record) : value :=
  project (same_name ["date"; "open"; "high"; "low"; "close"; "volume"]) p.

(** The two shapes a price series is fetched in: the bare array of
    points, or the array under [historical] of a wrapper object. *)
Definition fetched_series (data : value) (recs : list record) : Prop :=
  data = records recs
  \/ exists props, data = VObj props /\ lookup "historical" props = Some (records recs).

(** The fields only the statistical digest has. *)
Definition digest_fields : list string :=
  ["periodStartDate"; "periodEndDate"; "startPrice"; "endPrice"; "periodHigh";
   "periodLow"; "priceChangePercent"; "recentData"].

(** *** Indicator values, news, earnings events, dividends *)

(** One entry of [recentValues]: [{ date, [type.toLowerCase()]: ... }] *)
Definition indicator_value (indicator_type : string) (val : record) : value :=
  VObj (obj_set [("date", own val "date")] (toLowerCase indicator_type)
          (or_else (own val (toLowerCase indicator_type))
             (or_else (own val (toUpperCase indicator_type))
                (or_else (own val "indicatorValue") (own val "value"))))).

(** The articles stock_news surfaces: the first [min(N, tier)] in the
    order received. *)
Definition news_count (detail : DetailTier) (n : nat) : nat :=
  Nat.min n (if is_full detail then ARTICLES_FOR_FULL_DETAIL else ARTICLES_FOR_SUMMARY).

Definition news_shown (detail : DetailTier) (articles : list record) : list value :=
  map article_record (firstn (news_count detail (List.length articles)) articles).

Definition news_message (detail : DetailTier) (shown fetched : nat) : string :=
  match detail with
  | full =>
      tpl ["Displaying "; dec shown; " of "; dec fetched;
           " fetched articles (full detail requested, capped at "; dec 10; "):"]
  | summary =>
      tpl ["Displaying summaries for the "; dec shown; " most recent of "; dec fetched;
           " articles fetched. Request 'full' detail for more."]
  end.

Definition news_payload (detail : DetailTier) (articles : list record) : value :=
  let shown := news_shown detail articles in
  if (List.length shown <? List.length articles)%nat || is_full detail
  then VObj [("message",
              VStr (news_message detail (List.length shown) (List.length articles)));
             ("articles", VArr shown)]
  else VArr shown.

Definition symbol_given (symbol : option string) : bool :=
  truthy (match symbol with Some s => VStr s | None => VUndefined end).

Definition earnings_brief (item : record) : value :=
  project (same_name ["date"; "symbol"; "epsEstimated"; "time"]) item.

Definition earnings_detail (item : record) : value :=
  project (same_name ["date"; "symbol"; "eps"; "epsEstimated"; "revenue";
                      "revenueEstimated"; "time"; "fiscalDateEnding"]) item.

Definition earnings_payload (symbol : option string) (items : list record) : value :=
  if negb (symbol_given symbol) && (10 <? List.length items)%nat
  then VObj [("message",
              VStr (tpl ["Displaying first "; dec 10; " of "; dec (List.length items);
                         " earnings events. Specify a symbol or a tighter date range for more targeted results."]));
             ("earningsEvents", VArr (map earnings_brief (firstn 10 items)))]
  else VArr (map earnings_detail (firstn 10 items)).

Definition dividend_record (d : record) : value :=
  project (same_name ["date"; "label"; "dividend"; "adjDividend"; "recordDate";
                      "paymentDate"; "declarationDate"]) d.

Definition dividend_payload (symbol : string) (limit : nat) (fetched : nat)
  (sorted : list record) : value :=
  let recent := map dividend_record (firstn limit sorted) in
  VObj [("message",
         VStr (if (List.length recent <? fetched)%nat
               then tpl ["Displaying "; dec (List.length recent); " most recent of ";
                         dec fetched; " dividend records fetched for "; symbol; "."]
               else tpl ["Found "; dec fetched; " dividend records for "; symbol; "."]));
        ("dividends", VArr recent)].

(** Newest first: every record is at least as recent as those after it. *)
Definition newest_first_order (rt : runtime) (sorted : list record) : Prop :=
  StronglySorted (fun a b => (stamp rt (VObj b) <= stamp rt (VObj a))%Z) sorted.

Definition has_date (rt : runtime) (r : record) : bool :=
  match Date_time rt (own r "date") with Some _ => true | None => false end.

(** *** Dictionaries of ratios and metrics *)

(** The value a record holds under [k], if it has the key with a value
    other than null and undefined. *)
Definition present (r : record) (k : string) : option value :=
  match lookup k r with
  | Some v => if is_nullish v then None else Some v
  | None => None
  end.

Definition mem (k : string) (names : list string) : bool := existsb (String.eqb k) names.

(** [copy_present] on a record *)
Fixpoint curated_entries (r : record) (names : list string) (out : list (string * value))
  : list (string * value) :=
  match names with
  | [] => out
  | key :: rest =>
      match present r key with
      | Some v => curated_entries r rest (obj_set out key v)
      | None => curated_entries r rest out
      end
  end.

(** The dictionary of a TTM tool: the allow-listed entries, then the one
    extra key when its value is truthy. *)
Definition curated_dictionary (r : record) (names : list string) (extra : string)
  : list (string * value) :=
  let out := curated_entries r names [] in
  if truthy (own r extra) then obj_set out extra (own r extra) else out.

(** The fields company_profile copies, as (output key, source field);
    [description] is the one field it truncates. *)
Definition profile_copied : list (string * string) :=
  same_name ["symbol"; "companyName"; "price"; "currency"; "exchangeShortName";
             "industry"; "sector"; "website"]
  ++ [("ceo", "ceo"); ("marketCap", "mktCap"); ("beta", "beta"); ("volAvg", "volAvg");
      ("lastDiv", "lastDiv"); ("range", "range");
      ("isActivelyTrading", "isActivelyTrading")].

Definition quote_copied : list (string * string) :=
  same_name ["symbol"; "name"; "price"; "changesPercentage"; "change"; "dayLow";
             "dayHigh"; "yearHigh"; "yearLow"; "marketCap"; "priceAvg50"; "priceAvg200";
             "volume"; "avgVolume"; "open"; "previousClose"; "eps"; "pe"; "timestamp"].

(** A property of the payload a result prints ([undefined] when the
    result is a plain sentence). *)
Definition field_of (r : tool_result) (k : string) : value :=
  match payload_of r with
  | Some payload => field payload k
  | None => VUndefined
  end.

(** *** Analyst estimates *)

(** A sub-source that is absent: the provider answered with an empty
    array or with null. *)
Definition absent (data : value) : Prop := data = VArr [] \/ data = VNull.

Definition price_target_summary (target : record) : value :=
  project (same_name ["lastUpdated"; "targetHigh"; "targetLow"; "targetConsensus";
                      "targetMedian"; "numberOfAnalysts"]) target.

Definition estimate_summary (est : record) : value :=
  project (same_name ["date"; "estimatedRevenueAvg"; "estimatedEpsAvg"]) est.

Definition analyst_header (symbol : string) : list (string * value) :=
  [("symbol", VStr symbol);
   ("sourceMessage",
    VStr "Summarized analyst estimates. More historical/detailed data might be available via direct API.")].

Definition recommendation_note : value :=
  VStr "Detailed buy/hold/sell counts not directly available in this summary. FMP has separate recommendation endpoints.".

End Curated.

(** ** A runtime for worked examples

    It reads calendar dates written YYYY-MM-DD (UTC midnight, as a
    date-only form is), whole-number time values, and prints and reads whole
    numbers; the worked examples use nothing else. *)
Module Sample.
Import Js.

Definition digit (c : ascii) : option Z :=
  let n := nat_of_ascii c in
  if ((48 <=? n) && (n <=? 57))%nat then Some (Z.of_nat (n - 48)) else None.

Fixpoint digits (cs : list ascii) (acc : Z) : option Z :=
  match cs with
  | [] => Some acc
  | c :: rest =>
      match digit c with
      | Some d => digits rest (acc * 10 + d)%Z
      | None => None
      end
  end.

(** Days since 1970-01-01 of a proleptic Gregorian date. *)
Definition days_from_civil (y m d : Z) : Z :=
  let y' := if (m <=? 2)%Z then (y - 1)%Z else y in
  let era := (y' / 400)%Z in
  let yoe := (y' - era * 400)%Z in
  let mp := if (2 <? m)%Z then (m - 3)%Z else (m + 9)%Z in
  let doy := ((153 * mp + 2) / 5 + d - 1)%Z in
  let doe := (yoe * 365 + yoe / 4 - yoe / 100 + doy)%Z in
  (era * 146097 + doe - 719468)%Z.

Definition days_in_month (y m : Z) : Z :=
  if (m =? 2)%Z then
    if ((y mod 4 =? 0) && (negb (y mod 100 =? 0) || (y mod 400 =? 0)))%Z then 29%Z else 28%Z
  else if ((m =? 4) || (m =? 6) || (m =? 9) || (m =? 11))%Z then 30%Z
  else 31%Z.

Definition iso_date (s : string) : option Z :=
  match list_ascii_of_string s with
  | [y1; y2; y3; y4; "-"%char; m1; m2; "-"%char; d1; d2] =>
      match digits [y1; y2; y3; y4] 0, digits [m1; m2] 0, digits [d1; d2] 0 with
      | Some y, Some m, Some d =>
          if ((1 <=? m) && (m <=? 12) && (1 <=? d) && (d <=? days_in_month y m))%Z
          then Some (days_from_civil y m d * 86400000)%Z
          else None
      | _, _, _ => None
      end
  | _ => None
  end.

(** A finite number with its fraction dropped. *)
Definition whole_part (x : float) : option Z :=
  match Prim2SF x with
  | S754_zero _ => Some 0%Z
  | S754_finite s m e =>
      let a := if (0 <=? e)%Z then (Zpos m * 2 ^ e)%Z else (Zpos m / 2 ^ (- e))%Z in
      Some (if s then (- a)%Z else a)
  | _ => None
  end.

Definition is_whole (x : float) : bool :=
  match Prim2SF x with
  | S754_zero _ => true
  | S754_finite _ m e => (0 <=? e)%Z || (Zpos m mod 2 ^ (- e) =? 0)%Z
  | _ => false
  end.

Definition date_time (v : value) : option Z :=
  match v with
  | VStr s => iso_date s
  | VNull => Some 0%Z
  | VBool b => Some (if b then 1%Z else 0%Z)
  | VNum x =>
      match whole_part x with
      | Some t => if (Z.abs t <=? 8640000000000000)%Z then Some t else None
      | None => None
      end
  | _ => None
  end.

Definition number_toString (x : float) : string :=
  match Prim2SF x with
  | S754_nan => "NaN"
  | S754_infinity s => if s then "-Infinity" else "Infinity"
  | S754_zero _ => "0"
  | S754_finite s _ _ =>
      if is_whole x then
        match whole_part x with
        | Some z => tpl [if s then "-" else ""; dec_Z (Z.abs z)]
        | None => ""
        end
      else ""
  end.

Definition string_toNumber (s : string) : float :=
  match list_ascii_of_string s with
  | [] => 0%float
  | cs =>
      if (List.length cs <=? 15)%nat then
        match digits cs 0 with
        | Some z => num_of_Z z
        | None => nan
        end
      else nan
  end.

Definition rt : runtime :=
  {| Date_time := date_time;
     Number_toString := number_toString;
     String_toNumber := string_toNumber |}.

End Sample.

(** ** Worked inputs *)
Module Examples.
Import Js Tools Curated.

(** A daily bar. *)
Definition bar (date : string) (close : float) : record :=
  [("date", VStr date); ("open", VNum close); ("high", VNum (close + 1));
   ("low", VNum (close - 1)); ("close", VNum close); ("volume", VNum 1000);
   ("vwap", VNum close)].

Definition three_bars : list record :=
  [bar "2024-01-02" 10; bar "2024-01-04" 12; bar "2024-01-03" 11].

(** Sixty-one bars, one for each January 1st from 1960 to 2020, oldest
    first; the bar of year 1960 + i closes at [first_close + i]. *)
Definition yearly_bars (first_close : float) : list record :=
  map (fun i => bar (tpl [dec (1960 + i); "-01-01"]) (first_close + num_of_nat i))
      (seq 0 61).

Definition article (published title body : string) : record :=
  [("symbol", VStr "AAPL"); ("publishedDate", VStr published); ("title", VStr title);
   ("site", VStr "example.com"); ("url", VStr "https://example.com/a");
   ("text", VStr body)].

Definition monday : record := article "2024-01-01" "Monday" "Shares opened flat.".
Definition tuesday : record := article "2024-01-02" "Tuesday" "Shares rose.".
Definition wednesday : record := article "2024-01-03" "Wednesday" "Shares fell.".
Definition thursday : record := article "2024-01-04" "Thursday" "Record close.".

(** Four articles as an upstream that lists the oldest first sends them. *)
Definition four_articles : list record := [monday; tuesday; wednesday; thursday].
Definition two_articles : list record := [tuesday; monday].

Definition published (a : record) : option Z := Sample.date_time (own a "publishedDate").

Definition sma_point (date : string) (sma : float) : record :=
  [("date", VStr date); ("close", VNum sma); ("sma", VNum sma)].

Definition four_sma_points : list record :=
  [sma_point "2024-01-04" 12; sma_point "2024-01-03" 11; sma_point "2024-01-02" 10;
   sma_point "2024-01-01" 9].

Definition dividend (date : string) (amount : float) : record :=
  [("date", VStr date); ("label", VStr date); ("adjDividend", VNum amount);
   ("dividend", VNum amount)].

(** Dividends as the provider wraps them, oldest first. *)
Definition three_dividends : list record :=
  [dividend "2023-05-12" 0.25; dividend "2023-08-11" 0.25; dividend "2023-11-10" 0.5].

Definition dividend_body : list (string * value) :=
  [("symbol", VStr "AAPL"); ("historical", records three_dividends)].

Definition earnings_event (date symbol : string) : record :=
  [("date", VStr date); ("symbol", VStr symbol); ("eps", VNull); ("epsEstimated", VNum 1);
   ("time", VStr "amc")].

Definition two_events : list record :=
  [earnings_event "2024-02-01" "AAPL"; earnings_event "2024-02-01" "AMZN"].

(** The summary digest of sixty-one yearly bars that start from a close
    of 0. *)
Definition flat_start_digest : value :=
  Eval vm_compute in
    match payload_of (historical_stock_data Sample.rt (Some summary)
                        (Ret (records (yearly_bars 0)))) with
    | Some payload => payload
    | None => VUndefined
    end.

(** A profile whose [ceo] the provider reports as null. *)
Definition profile_without_ceo : record :=
  [("symbol", VStr "AAPL"); ("companyName", VStr "Apple Inc."); ("price", VNum 190);
   ("ceo", VNull); ("description", VStr "Designs phones.")].

Definition some_ratios : record :=
  [("symbol", VStr "AAPL"); ("peRatioTTM", VNum 30); ("quickRatioTTM", VNull);
   ("cashRatioTTM", VNum 1)].

Definition some_quote : record :=
  [("symbol", VStr "AAPL"); ("price", VNum 190); ("pe", VNull)].

Definition some_dcf : record :=
  [("symbol", VStr "AAPL"); ("date", VStr "2024-01-02"); ("dcf", VNum 150);
   ("Stock Price", VNum 100)].

Definition price_target : record :=
  [("symbol", VStr "AAPL"); ("lastUpdated", VStr "2024-01-02"); ("targetHigh", VNum 250);
   ("targetLow", VNum 160); ("targetConsensus", VNum 205); ("targetMedian", VNum 210)].

Definition estimate (date : string) (eps : float) : record :=
  [("symbol", VStr "AAPL"); ("date", VStr date); ("estimatedRevenueAvg", VNum 90000000000);
   ("estimatedEpsAvg", VNum eps)].

Definition three_estimates : list record :=
  [estimate "2025-09-30" 7; estimate "2024-09-30" 6; estimate "2023-09-30" 5].

(** The error the HTTP client throws on a 500 response with no body. *)
Definition server_error : js_error :=
  {| message := "Request failed with status code 500"; response_data := VUndefined |}.

(** A long company description: four hundred letters. *)
Definition long_description : string :=
  String.concat "" (repeat "abcdefghij" 40).

Definition long_profile : record :=
  [("symbol", VStr "AAPL"); ("description", VStr long_description)].

End Examples.

(** ** Requests: URL assembly, and the two raw dispatchers

    The curated server assembles the request of historical_stock_data from
    several optional arguments.  The repository also carries two earlier
    servers that answer a tool call with the provider's body as it came:
    a table-driven one (25 tools) and a three-tool one. *)
Module Requests.
Import Js Tools Curated.

Definition BASE_URL : string := "https://financialmodelingprep.com/api/v3".

(** [process.env.FMP_API_KEY || "e8ae..."] *)
Definition resolve_key (env : option string) : string :=
  match env with
  | Some k => if String.eqb k "" then "e8ae18df38837f283f9bb1684f21788f" else k
  | None => "e8ae18df38837f283f9bb1684f21788f"
  end.

(** *** encodeURIComponent

    Characters stand for the code units U+0000 to U+00FF.  The unreserved
    ones are kept; any other is replaced by the percent-escapes of its UTF-8
    bytes (one byte below U+0080, two from there on). *)
Definition unreserved (c : ascii) : bool :=
  let n := nat_of_ascii c in
  ((65 <=? n) && (n <=? 90))%nat || ((97 <=? n) && (n <=? 122))%nat
  || ((48 <=? n) && (n <=? 57))%nat
  || existsb (Ascii.eqb c) ["-"; "_"; "."; "!"; "~"; "*"; "'"; "("; ")"]%char.

Definition hex_digit (n : nat) : ascii :=
  nth n ["0"; "1"; "2"; "3"; "4"; "5"; "6"; "7"; "8"; "9"; "A"; "B"; "C"; "D"; "E"; "F"]%char
      "0"%char.

Definition percent (byte : nat) : list ascii :=
  ["%"%char; hex_digit (byte / 16); hex_digit (byte mod 16)].

Definition encode_unit (c : ascii) : list ascii :=
  let n := nat_of_ascii c in
  if unreserved c then [c]
  else if (n <? 128)%nat then percent n
  else percent (192 + n / 64) ++ percent (128 + n mod 64).

Definition encode_string (s : string) : string :=
  string_of_list_ascii (flat_map encode_unit (list_ascii_of_string s)).

(** A character an encoded component may hold. *)
Definition plain (c : ascii) : bool := unreserved c || Ascii.eqb c "%"%char.

(** [encodeURIComponent(v)] *)
Definition encodeURIComponent (rt : runtime) (v : value) : string :=
  encode_string (ToString rt v).

(** [s.includes(t)], [s.startsWith(t)] *)
Definition includes (s t : string) : bool := contains t s.
Definition startsWith (s t : string) : bool := String.prefix t s.

(** An optional string argument, as [if (arg)] tests it. *)
Definition given (arg : option string) : bool :=
  match arg with
  | Some s => negb (String.eqb s "")
  | None => false
  end.

(** [if (arg) queryParams.push(`name=${arg}`)] *)
Definition bound (name : string) (arg : option string) : list string :=
  match arg with
  | Some s => if negb (String.eqb s "") then [tpl [name; "="; s]] else []
  | None => []
  end.

(** [if (timeseries && !from && !to) push(`name=${timeseries}`);
     else if (!from && !to && !timeseries && also) push(`name=fallback`)] *)
Definition count_param (name : string) (fallback : nat) (also : bool)
  (from to : option string) (timeseries : option positive) : list string :=
  match timeseries with
  | Some n =>
      if negb (given from) && negb (given to)
      then [tpl [name; "="; dec (Pos.to_nat n)]] else []
  | None =>
      if negb (given from) && negb (given to) && also
      then [tpl [name; "="; dec fallback]] else []
  end.

(** [interval.toLowerCase() === "daily"], with the default interval *)
Definition is_daily (interval : option string) : bool :=
  String.eqb (toLowerCase (default "daily" interval)) "daily".

(** The path of the price series, before any query. *)
Definition series_path (symbol : string) (interval : option string) : string :=
  if is_daily interval
  then tpl ["/historical-price-full/"; encode_string symbol]
  else tpl ["/historical-chart/"; encode_string (default "daily" interval); "/";
            encode_string symbol].

(** *** The request of historical_stock_data

    [timeseries] is a positive integer when given (below 10^21, where a
    template prints its decimal digits). *)
Definition historical_endpoint (symbol : string) (interval from to : option string)
  (timeseries : option positive) : string :=
  let interval := default "daily" interval in
  let isDaily := String.eqb (toLowerCase interval) "daily" in
  let path :=
    if isDaily
    then tpl ["/historical-price-full/"; encode_string symbol]
    else tpl ["/historical-chart/"; encode_string interval; "/"; encode_string symbol] in
  let queryParams :=
    bound "from" from ++ bound "to" to
    ++ (if isDaily then count_param "timeseries" 90 true from to timeseries
        else count_param "last" 100 (negb (String.eqb interval "daily"))
               from to timeseries) in
  if (0 <? List.length queryParams)%nat
  then tpl [path; "?"; join "&" queryParams]
  else path.

(** [`${BASE_URL}${endpoint}${endpoint.includes("?") ? "&" : "?"}apikey=${API_KEY}`] *)
Definition with_key (endpoint key : string) : string :=
  tpl [BASE_URL; endpoint; if includes endpoint "?" then "&" else "?"; "apikey="; key].

Definition historical_url (key symbol : string) (interval from to : option string)
  (timeseries : option positive) : string :=
  with_key (historical_endpoint symbol interval from to timeseries) key.

(** The query parameters of that request, in the order they are pushed. *)
Definition historical_query (interval from to : option string)
  (timeseries : option positive) : list string :=
  bound "from" from ++ bound "to" to
  ++ (if is_daily interval then count_param "timeseries" 90 true from to timeseries
      else count_param "last" 100 (negb (String.eqb (default "daily" interval) "daily"))
             from to timeseries).

(** *** The request of earnings_calendar

    [if (symbol) queryParams.push(`symbol=${encodeURIComponent(symbol)}`)],
    then [from] and [to]; the [limit] argument is not read. *)
Definition earnings_query (symbol from_date to_date : option string) : list string :=
  match symbol with
  | Some s => if negb (String.eqb s "") then [tpl ["symbol="; encode_string s]] else []
  | None => []
  end
  ++ bound "from" from_date ++ bound "to" to_date.

Definition earnings_endpoint (symbol from_date to_date : option string) : string :=
  let queryParams := earnings_query symbol from_date to_date in
  tpl ["/earning_calendar";
       if (0 <? List.length queryParams)%nat then tpl ["?"; join "&" queryParams] else ""].

Definition earnings_url (key : string) (symbol from_date to_date : option string)
  : string :=
  with_key (earnings_endpoint symbol from_date to_date) key.

(** *** The table-driven server *)
Record tool : Type := mk_tool {
  tool_name : string;
  tool_endpoint : runtime -> value -> exc string
}.

(** [`${lead}${encodeURIComponent(args[field])}`] *)
Definition by_field (lead field : string) (rt : runtime) (args : value) : exc string :=
  v <- get args field ;; Ret (tpl [lead; encodeURIComponent rt v]).

(** [`${lead}${encodeURIComponent(args.symbol)}?period=${args.period}`] *)
Definition by_period (lead : string) (rt : runtime) (args : value) : exc string :=
  symbol <- get args "symbol" ;;
  period <- get args "period" ;;
  Ret (tpl [lead; encodeURIComponent rt symbol; "?period="; ToString rt period]).

(** [`${lead}?from=${args.from}&to=${args.to}`] *)
Definition by_dates (lead : string) (rt : runtime) (args : value) : exc string :=
  from <- get args "from" ;;
  to <- get args "to" ;;
  Ret (tpl [lead; "?from="; ToString rt from; "&to="; ToString rt to]).

Definition fixed (path : string) (rt : runtime) (args : value) : exc string := Ret path.

Definition historical_price_endpoint (rt : runtime) (args : value) : exc string :=
  symbol <- get args "symbol" ;;
  from <- get args "from" ;;
  to <- get args "to" ;;
  Ret (tpl ["/historical-price-full/"; encodeURIComponent rt symbol; "?from=";
            ToString rt from; "&to="; ToString rt to]).

(** The filters stock_screener passes on, in the order it tests them. *)
Definition screener_params (rt : runtime)
  (marketCapMoreThan sector priceMoreThan priceLessThan exchange : value) : list string :=
  (if truthy marketCapMoreThan
   then [tpl ["marketCapMoreThan="; ToString rt marketCapMoreThan]] else [])
  ++ (if truthy sector then [tpl ["sector="; encodeURIComponent rt sector]] else [])
  ++ (if truthy priceMoreThan
      then [tpl ["priceMoreThan="; ToString rt priceMoreThan]] else [])
  ++ (if truthy priceLessThan
      then [tpl ["priceLessThan="; ToString rt priceLessThan]] else [])
  ++ (if truthy exchange then [tpl ["exchange="; encodeURIComponent rt exchange]] else []).

Definition stock_screener_endpoint (rt : runtime) (args : value) : exc string :=
  marketCapMoreThan <- get args "marketCapMoreThan" ;;
  sector <- get args "sector" ;;
  priceMoreThan <- get args "priceMoreThan" ;;
  priceLessThan <- get args "priceLessThan" ;;
  exchange <- get args "exchange" ;;
  let params :=
    screener_params rt marketCapMoreThan sector priceMoreThan priceLessThan exchange in
  Ret (tpl ["/stock-screener";
            if (0 <? List.length params)%nat then tpl ["?"; join "&" params] else ""]).

Definition stock_news_endpoint (rt : runtime) (args : value) : exc string :=
  symbol <- get args "symbol" ;;
  limit <- get args "limit" ;;
  Ret (tpl ["/stock_news?tickers="; encodeURIComponent rt symbol;
            if truthy limit then tpl ["&limit="; ToString rt limit] else ""]).

Definition tools : list tool :=
  [ mk_tool "search_symbol" (by_field "/search?query=" "query");
    mk_tool "company_profile" (by_field "/profile/" "symbol");
    mk_tool "quote" (by_field "/quote/" "symbol");
    mk_tool "historical_price" historical_price_endpoint;
    mk_tool "income_statement" (by_period "/income-statement/");
    mk_tool "balance_sheet" (by_period "/balance-sheet-statement/");
    mk_tool "cash_flow" (by_period "/cash-flow-statement/");
    mk_tool "key_metrics" (by_period "/key-metrics/");
    mk_tool "financial_ratios" (by_period "/ratios/");
    mk_tool "enterprise_value" (by_period "/enterprise-values/");
    mk_tool "discounted_cash_flow" (by_field "/discounted-cash-flow/" "symbol");
    mk_tool "earnings_calendar" (by_dates "/earning_calendar");
    mk_tool "ipo_calendar" (by_dates "/ipo_calendar");
    mk_tool "stock_screener" stock_screener_endpoint;
    mk_tool "etf_list" (fixed "/etf/list");
    mk_tool "etf_holdings" (by_field "/etf-holder?symbol=" "symbol");
    mk_tool "mutual_fund_list" (fixed "/mutual-fund/list");
    mk_tool "mutual_fund_holdings" (by_field "/mutual-fund-holder?symbol=" "symbol");
    mk_tool "forex_list" (fixed "/forex");
    mk_tool "crypto_list" (fixed "/cryptocurrencies");
    mk_tool "stock_news" stock_news_endpoint;
    mk_tool "insider_trades" (by_field "/insider-trading?symbol=" "symbol");
    mk_tool "sec_filings" (by_field "/sec_filings/" "symbol");
    mk_tool "analyst_estimates" (by_field "/analyst-estimates/" "symbol");
    mk_tool "ratings" (by_field "/rating/" "symbol") ].

(** [t.name === name] *)
Definition is_named (name : value) (t : tool) : bool :=
  match name with
  | VStr s => String.eqb (tool_name t) s
  | _ => false
  end.

(** The upstream provider: what [axios.get(url)] yields, [response.data]
    or the error thrown. *)
Definition provider : Type := string -> exc value.

(** What both raw dispatchers do with a URL. *)
Definition relay (fetch : provider) (url : string) : exc tool_result :=
  data <- fetch url ;; Ret (json data).

Definition report (error : js_error) : tool_result :=
  say (tpl ["Error: "; message error]).

(** The [call_tool] handler of the table-driven server *)
Definition call_tool (rt : runtime) (fetch : provider) (FMP_API_KEY : string)
  (name args : value) : tool_result :=
  match find (is_named name) tools with
  | None => say "Unknown tool"
  | Some t =>
      try_catch
        (built <- tool_endpoint t rt args ;;
         let endpoint := if negb (startsWith built "/") then tpl ["/"; built] else built in
         relay fetch (with_key endpoint FMP_API_KEY))
        report
  end.

(** The [call_tool] handler of the three-tool server: the key is always
    attached with [&]. *)
Definition call_tool_three (rt : runtime) (fetch : provider) (API_KEY : string)
  (name args : value) : tool_result :=
  try_catch
    (match (match name with
            | VStr "search_symbol" => Some (by_field "/search?query=" "query")
            | VStr "company_profile" => Some (by_field "/profile/" "symbol")
            | VStr "quote" => Some (by_field "/quote/" "symbol")
            | _ => None
            end) with
     | None => Ret (say "Unknown tool")
     | Some build =>
         endpoint <- build rt args ;;
         relay fetch (tpl [BASE_URL; endpoint; "&apikey="; API_KEY])
     end)
    report.

(** A provider that answers every request with the URL it was asked. *)
Definition echo : provider := fun url => Ret (VStr url).

(** The tools of the table whose endpoint is a path ending in the encoded
    symbol, with the path's lead. *)
Definition path_tools : list (string * string) :=
  [("company_profile", "/profile/"); ("quote", "/quote/");
   ("discounted_cash_flow", "/discounted-cash-flow/"); ("sec_filings", "/sec_filings/");
   ("analyst_estimates", "/analyst-estimates/"); ("ratings", "/rating/")].

(** What a raw dispatcher answers once the request is made. *)
Definition relayed (outcome : exc value) : tool_result :=
  match outcome with
  | Ret data => json data
  | Throw error => report error
  end.

End Requests.

(** ** Further shapes of input, and the error sentences *)
Module Inputs.
Import Js Tools Curated.

(** A body of named groups, each an array of records (as multi-group
    intraday data comes). *)
Definition grouped (groups : list (string * list record)) : value :=
  VObj (map (fun kg => (fst kg, records (snd kg))) groups).

Definition all_points (groups : list (string * list record)) : list record :=
  List.concat (map snd groups).

(** The same call when its request (the first one, for analyst_estimates)
    throws [error]. *)
Definition with_failed_request (error : js_error) (i : invocation) : invocation :=
  let failed := Throw error in
  match i with
  | call_search_symbol _ => call_search_symbol failed
  | call_company_profile _ => call_company_profile failed
  | call_quote _ => call_quote failed
  | call_historical_stock_data detail _ => call_historical_stock_data detail failed
  | call_technical_indicator symbol interval indicator_type period _ =>
      call_technical_indicator symbol interval indicator_type period failed
  | call_analyst_estimates symbol _ other => call_analyst_estimates symbol failed other
  | call_stock_news detail _ => call_stock_news detail failed
  | call_earnings_calendar symbol _ => call_earnings_calendar symbol failed
  | call_financial_ratios_ttm symbol _ => call_financial_ratios_ttm symbol failed
  | call_key_metrics_ttm symbol _ => call_key_metrics_ttm symbol failed
  | call_dcf_valuation symbol _ => call_dcf_valuation symbol failed
  | call_dividend_calendar symbol limit _ => call_dividend_calendar symbol limit failed
  end.

(** The sentence each tool's catch block builds from [error.message]. *)
Definition error_sentence (error : js_error) (i : invocation) : string :=
  match i with
  | call_search_symbol _ => tpl ["Error in search_symbol: "; message error]
  | call_company_profile _ => tpl ["Error in company_profile: "; message error]
  | call_quote _ => tpl ["Error in quote: "; message error]
  | call_historical_stock_data _ _ =>
      tpl ["Error fetching historical_stock_data: "; message error]
  | call_technical_indicator _ _ _ _ _ =>
      tpl ["Error in technical_indicator: "; message error]
  | call_analyst_estimates _ _ _ => tpl ["Error in analyst_estimates: "; message error]
  | call_stock_news _ _ => tpl ["Error fetching stock_news: "; message error]
  | call_earnings_calendar _ _ => tpl ["Error in earnings_calendar: "; message error]
  | call_financial_ratios_ttm _ _ => tpl ["Error in financial_ratios_ttm: "; message error]
  | call_key_metrics_ttm _ _ => tpl ["Error in key_metrics_ttm: "; message error]
  | call_dcf_valuation symbol _ =>
      tpl ["Error in dcf_valuation for "; symbol; ": "; message error;
           ". This could be due to data unavailability for the symbol (e.g., non-US stock, financial institution, or new IPO)."]
  | call_dividend_calendar symbol _ _ =>
      tpl ["Error fetching dividend data for "; symbol; ": "; message error]
  end.

(** The provider's own message in the body of a failed response:
    [error.response.data["Error Message"]], when truthy. *)
Definition provider_message (error : js_error) : option value :=
  match response_data error with
  | VObj body =>
      match lookup "Error Message" body with
      | Some m => if truthy m then Some m else None
      | None => None
      end
  | _ => None
  end.

Definition is_some {A : Type} (o : option A) : bool :=
  match o with Some _ => true | None => false end.

(** The two tools whose catch block looks for the provider's message. *)
Definition reads_provider_message (i : invocation) : bool :=
  match i with
  | call_dcf_valuation _ _ | call_dividend_calendar _ _ _ => true
  | _ => false
  end.

(** The properties of a printed object: [printed] on an object, property
    by property. *)
Fixpoint print_props (ps : list (string * value)) : list (string * value) :=
  match ps with
  | [] => []
  | (_, VUndefined) :: rest => print_props rest
  | (k, x) :: rest => (k, printed x) :: print_props rest
  end.

Definition is_undefined (v : value) : bool :=
  match v with VUndefined => true | _ => false end.

(** A property value that is a string, a number or a boolean. *)
Definition plain_scalar (v : value) : bool :=
  match v with
  | VStr _ | VNum _ | VBool _ => true
  | _ => false
  end.

(** A provider's error answer, as a body. *)
Definition error_body (sentence : string) : list (string * value) :=
  [("Error Message", VStr sentence)].

(** The keys of a TTM dictionary, in the order the loop writes them. *)
Definition dictionary_keys (r : record) (names : list string) (extra : string)
  : list string :=
  filter (fun k => is_some (present r k)) names
  ++ (if truthy (own r extra) then [extra] else []).

(** Worked inputs *)
Definition symbol_match (symbol name : string) : record :=
  [("symbol", VStr symbol); ("name", VStr name); ("currency", VStr "USD");
   ("stockExchange", VStr "NASDAQ Global Select"); ("exchangeShortName", VStr "NASDAQ")].

Definition six_matches : list record :=
  [symbol_match "AAPL" "Apple Inc."; symbol_match "APLE" "Apple Hospitality REIT";
   symbol_match "AAPL.NE" "Apple CDR"; symbol_match "APLY" "YieldMax AAPL";
   symbol_match "AAPD" "Direxion Bear"; symbol_match "AAPU" "Direxion Bull"].

Definition two_groups : list (string * list record) :=
  [("AAPL", [Examples.bar "2024-01-02" 10; Examples.bar "2024-01-03" 11]);
   ("MSFT", [Examples.bar "2024-01-02" 20])].

(** Screener arguments: a sector and a minimum price given, the market
    cap given as 0 and the exchange as the empty string. *)
Definition some_filters : list (string * value) :=
  [("marketCapMoreThan", VNum 0); ("sector", VStr "Real Estate");
   ("priceMoreThan", VNum 10); ("exchange", VStr "")].

(** A quote the provider sends with two of the fields, and one with none
    of them. *)
Definition partial_quote : record :=
  [("symbol", VStr "AAPL"); ("price", VNum 190); ("exchange", VStr "NASDAQ")].

Definition foreign_record : record := [("Error Message", VStr "Limit Reach.")].

(** A failed response that carries the provider's message. *)
Definition invalid_key : js_error :=
  {| message := "Request failed with status code 401";
     response_data := VObj [("Error Message", VStr "Invalid API KEY.")] |}.

Definition negative_price_dcf : record :=
  [("symbol", VStr "XYZ"); ("dcf", VNum 12); ("Stock Price", VNum (-1))].

End Inputs.

(** ** What the builtins do on records *)
Module Facts.
Import Js Tools Curated.

Lemma mapM_ret {A B : Type} (f : A -> exc B) (g : A -> B) (l : list A) :
  (forall x, In x l -> f x = Ret (g x)) -> mapM f l = Ret (map g l).
Proof.
  induction l as [|x xs IH]; intros Hf; simpl.
  - reflexivity.
  - rewrite (Hf x (or_introl eq_refl)); simpl.
    rewrite IH by (intros y Hy; apply Hf; right; exact Hy).
    reflexivity.
Qed.

Lemma mapM_records (f : value -> exc value) (g : record -> value) (recs : list record) :
  (forall r, In r recs -> f (VObj r) = Ret (g r)) ->
  mapM f (map VObj recs) = Ret (map g recs).
Proof.
  intros Hf. rewrite (mapM_ret f (fun v => match v with VObj r => g r | _ => v end)).
  - rewrite map_map. reflexivity.
  - intros x Hx. apply in_map_iff in Hx. destruct Hx as [r [<- Hr]]. apply Hf, Hr.
Qed.

Lemma picks_record (fields : list (string * string)) (r : record) :
  picks fields (VObj r) = Ret (map (fun kf => (fst kf, own r (snd kf))) fields).
Proof.
  unfold picks. apply mapM_ret. intros kf _. reflexivity.
Qed.

Lemma pick_record (fields : list (string * string)) (r : record) :
  pick fields (VObj r) = Ret (project fields r).
Proof. unfold pick. rewrite picks_record. reflexivity. Qed.

(** *** Sorting *)
Section Sorting.
Variable cmp : value -> value -> exc (option Z).

Lemma insert_total (x : value) (s : list value) :
  (forall y, In y s -> exists c, SortCompare cmp x y = Ret c) ->
  exists s', insert cmp x s = Ret s' /\ Permutation s' (x :: s).
Proof.
  induction s as [|y ys IH]; intros Hc; simpl.
  - exists [x]. split; [reflexivity | apply Permutation_refl].
  - destruct (Hc y (or_introl eq_refl)) as [c Hy]. rewrite Hy; simpl.
    destruct (0 <? c)%Z.
    + destruct IH as [s' [Hs' Hp]].
      { intros z Hz. apply Hc. right. exact Hz. }
      rewrite Hs'; simpl. exists (y :: s'). split; [reflexivity|].
      eapply Permutation_trans; [apply perm_skip, Hp | apply perm_swap].
    + exists (x :: y :: ys). split; [reflexivity | apply Permutation_refl].
Qed.

Lemma sort_total (l : list value) :
  (forall x y, In x l -> In y l -> exists c, SortCompare cmp x y = Ret c) ->
  exists s, sort cmp l = Ret s /\ Permutation s l.
Proof.
  induction l as [|x xs IH]; intros Hc; simpl.
  - exists []. split; [reflexivity | apply perm_nil].
  - destruct IH as [s [Hs Hp]].
    { intros a b Ha Hb. apply Hc; right; assumption. }
    rewrite Hs; simpl.
    destruct (insert_total x s) as [s' [Hs' Hp']].
    { intros y Hy. apply Hc; [left; reflexivity | right].
      eapply Permutation_in; [exact Hp | exact Hy]. }
    exists s'. split; [exact Hs'|].
    eapply Permutation_trans; [exact Hp' | apply perm_skip, Hp].
Qed.

(** When the comparator is the difference of an integer key, the sort is
    the insertion sort by that key. *)
Variable key : value -> Z.

Lemma insert_by_perm (x : value) (s : list value) :
  Permutation (insert_by key x s) (x :: s).
Proof.
  induction s as [|y ys IH]; simpl.
  - apply Permutation_refl.
  - destruct (0 <? key x - key y)%Z.
    + eapply Permutation_trans; [apply perm_skip, IH | apply perm_swap].
    + apply Permutation_refl.
Qed.

Lemma sort_by_perm (l : list value) : Permutation (sort_by key l) l.
Proof.
  induction l as [|x xs IH]; simpl.
  - apply perm_nil.
  - eapply Permutation_trans; [apply insert_by_perm | apply perm_skip, IH].
Qed.

Lemma insert_by_sorted (x : value) (s : list value) :
  StronglySorted (key_le key) s -> StronglySorted (key_le key) (insert_by key x s).
Proof.
  induction s as [|y ys IH]; intros Hs; simpl.
  - constructor; [constructor | constructor].
  - inversion Hs as [|? ? Hys Hall]; subst.
    destruct (0 <? key x - key y)%Z eqn:E.
    + apply Z.ltb_lt in E. constructor; [apply IH, Hys|].
      apply Forall_forall. intros z Hz.
      apply (Permutation_in _ (insert_by_perm x ys)) in Hz.
      destruct Hz as [<- | Hz].
      * unfold key_le. lia.
      * rewrite Forall_forall in Hall. apply Hall, Hz.
    + apply Z.ltb_ge in E. constructor; [exact Hs|].
      constructor; [unfold key_le; lia|].
      rewrite Forall_forall in Hall |- *. intros z Hz.
      specialize (Hall z Hz). unfold key_le in *. lia.
Qed.

Lemma sort_by_sorted (l : list value) : StronglySorted (key_le key) (sort_by key l).
Proof.
  induction l as [|x xs IH]; simpl.
  - constructor.
  - apply insert_by_sorted, IH.
Qed.

Lemma insert_keyed (x : value) (s : list value) :
  (forall y, In y s -> SortCompare cmp x y = Ret (key x - key y)%Z) ->
  insert cmp x s = Ret (insert_by key x s).
Proof.
  induction s as [|y ys IH]; intros Hc; simpl.
  - reflexivity.
  - rewrite (Hc y (or_introl eq_refl)); simpl.
    destruct (0 <? key x - key y)%Z.
    + rewrite IH by (intros z Hz; apply Hc; right; exact Hz). reflexivity.
    + reflexivity.
Qed.

Lemma sort_keyed (l : list value) :
  (forall x y, In x l -> In y l -> SortCompare cmp x y = Ret (key x - key y)%Z) ->
  sort cmp l = Ret (sort_by key l).
Proof.
  induction l as [|x xs IH]; intros Hc; simpl.
  - reflexivity.
  - rewrite IH by (intros a b Ha Hb; apply Hc; right; assumption). simpl.
    apply insert_keyed. intros y Hy. apply Hc; [left; reflexivity | right].
    eapply Permutation_in; [apply sort_by_perm | exact Hy].
Qed.
End Sorting.

(** *** Strings *)
Lemma length_append (s t : string) :
  String.length (s ++ t)%string = String.length s + String.length t.
Proof. induction s as [|c s IH]; simpl; [reflexivity | rewrite IH; reflexivity]. Qed.

Lemma length_substring0 (n : nat) (s : string) :
  String.length (substring 0 n s) = Nat.min n (String.length s).
Proof.
  revert n. induction s as [|c s IH]; intros [|n]; simpl; try reflexivity.
  rewrite IH. reflexivity.
Qed.

(** *** The truncation expression on scalars *)
Lemma truncated_scalar (rt : runtime) (maxLen : nat) (marker : string) (t : value) :
  is_scalar t = true -> truncated rt maxLen marker t = Ret (truncate maxLen marker t).
Proof.
  intros Hs. unfold truncated, truncate.
  destruct t as [| |b|x|s|items|props]; try discriminate Hs; simpl.
  - reflexivity.
  - reflexivity.
  - destruct b; reflexivity.
  - destruct (negb _); reflexivity.
  - destruct s as [|c s]; simpl; [reflexivity|].
    destruct (maxLen <? S (String.length s))%nat; reflexivity.
Qed.

Lemma own_scalar (r : record) (k : string) :
  scalar_record r -> is_scalar (own r k) = true.
Proof.
  unfold scalar_record, own. induction r as [|[k' v] r IH]; intros Hr; simpl.
  - reflexivity.
  - inversion Hr as [|? ? Hv Hrest]; subst. destruct (k =? k')%string.
    + exact Hv.
    + apply IH, Hrest.
Qed.

Lemma article_summary_record (rt : runtime) (a : record) :
  is_scalar (own a "text") = true ->
  article_summary rt (VObj a) = Ret (article_record a).
Proof.
  intros Hs. unfold article_summary. rewrite picks_record. simpl bind.
  rewrite (truncated_scalar _ _ _ _ Hs). reflexivity.
Qed.

(** *** Sorting records by date *)
Lemma date_diff_records (rt : runtime) (a b : record) :
  date_diff rt (VObj a) (VObj b) =
  Ret (match Date_time rt (own a "date"), Date_time rt (own b "date") with
       | Some ta, Some tb => Some (ta - tb)%Z
       | _, _ => None
       end).
Proof. reflexivity. Qed.

Lemma sort_records_total (cmp : value -> value -> exc (option Z)) (recs : list record) :
  (forall a b, exists c, cmp (VObj a) (VObj b) = Ret c) ->
  exists pts, sort cmp (map VObj recs) = Ret (map VObj pts) /\ Permutation pts recs.
Proof.
  intros Hcmp.
  destruct (sort_total cmp (map VObj recs)) as [s [Hs Hp]].
  - intros x y Hx Hy. apply in_map_iff in Hx, Hy.
    destruct Hx as [a [<- _]]. destruct Hy as [b [<- _]].
    destruct (Hcmp a b) as [c Hc]. simpl. rewrite Hc. simpl. eexists. reflexivity.
  - destruct (Permutation_map_inv _ _ Hp) as [pts [-> Hpts]].
    exists pts. split; [exact Hs | apply Permutation_sym, Hpts].
Qed.

Lemma newest_first_total (rt : runtime) (a b : record) :
  exists c, newest_first rt (VObj a) (VObj b) = Ret c.
Proof. unfold newest_first. rewrite date_diff_records. eexists. reflexivity. Qed.

Lemma stamp_valid (rt : runtime) (r : record) :
  valid_date rt r -> Date_time rt (own r "date") = Some (stamp rt (VObj r)).
Proof.
  unfold valid_date, stamp. destruct (Date_time rt (own r "date")); [reflexivity | congruence].
Qed.

(** With valid dates the newest-first sort is the insertion sort on the
    negated time value, the oldest-first sort the one on the time value. *)
Lemma sort_newest_valid (rt : runtime) (recs : list record) :
  Forall (valid_date rt) recs ->
  sort (newest_first rt) (map VObj recs)
  = Ret (sort_by (fun v => (- stamp rt v)%Z) (map VObj recs)).
Proof.
  intros Hv. apply sort_keyed. intros x y Hx Hy.
  apply in_map_iff in Hx, Hy. destruct Hx as [a [<- Ha]]. destruct Hy as [b [<- Hb]].
  rewrite Forall_forall in Hv.
  unfold SortCompare, newest_first. rewrite date_diff_records.
  rewrite (stamp_valid rt a (Hv a Ha)), (stamp_valid rt b (Hv b Hb)). simpl.
  f_equal. lia.
Qed.

Lemma sort_oldest_valid (rt : runtime) (recs : list record) :
  Forall (valid_date rt) recs ->
  sort (oldest_first rt) (map VObj recs) = Ret (sort_by (stamp rt) (map VObj recs)).
Proof.
  intros Hv. apply sort_keyed. intros x y Hx Hy.
  apply in_map_iff in Hx, Hy. destruct Hx as [a [<- Ha]]. destruct Hy as [b [<- Hb]].
  rewrite Forall_forall in Hv.
  unfold SortCompare, oldest_first. rewrite date_diff_records.
  rewrite (stamp_valid rt a (Hv a Ha)), (stamp_valid rt b (Hv b Hb)). reflexivity.
Qed.

(** *** historical_stock_data on a fetched series *)
Lemma ohlcv_records (pts : list record) :
  mapM ohlcv (map VObj pts) = Ret (map ohlcv_point pts).
Proof. apply mapM_records. intros r _. apply pick_record. Qed.

Lemma historical_on_series (rt : runtime) (detail : option DetailTier) (data : value)
  (recs : list record) :
  recs <> [] ->
  fetched_series data recs ->
  historical_stock_data rt detail (Ret data)
  = try_catch
      (dataPoints <- sort (newest_first rt) (map VObj recs) ;;
       summarize_points rt (default summary detail) dataPoints)
      (fun error => say (tpl ["Error fetching historical_stock_data: "; message error])).
Proof.
  intros Hne Hf. destruct recs as [|r recs]; [congruence|].
  unfold historical_stock_data. cbv zeta.
  destruct Hf as [-> | [props [-> Hl]]].
  - reflexivity.
  - cbn [bind get]. unfold own. rewrite Hl. reflexivity.
Qed.

Lemma In_firstn {A : Type} (n : nat) (l : list A) (x : A) :
  In x (firstn n l) -> In x l.
Proof.
  intros H. rewrite <- (firstn_skipn n l). apply in_or_app. left. exact H.
Qed.

(** *** The collection handlers on arrays of records *)
Lemma technical_indicator_records (rt : runtime) (symbol interval indicator_type : string)
  (period : nat) (vals : list record) :
  vals <> [] ->
  technical_indicator rt symbol interval indicator_type period (Ret (records vals))
  = json (if (List.length vals <=? 3)%nat
          then VArr (map (indicator_value indicator_type) (firstn 3 vals))
          else VObj
            [("message",
              VStr (tpl ["Showing "; dec (List.length (firstn 3 vals)); " most recent ";
                         indicator_type; " values of "; dec (List.length vals);
                         " fetched. Full series available via API."]));
             ("indicator", VStr indicator_type);
             ("values", VArr (map (indicator_value indicator_type) (firstn 3 vals)))]).
Proof.
  intros Hne. destruct vals as [|v vals]; [congruence|].
  unfold technical_indicator, records. cbn [bind truthy negb orb map].
  change (VObj v :: map VObj vals) with (map VObj (v :: vals)).
  rewrite firstn_map.
  rewrite (mapM_records _ (indicator_value indicator_type)) by (intros r _; reflexivity).
  cbn [bind]. rewrite !length_map.
  destruct (List.length (v :: vals) <=? 3)%nat; reflexivity.
Qed.

Lemma stock_news_records (rt : runtime) (detail : option DetailTier) (articles : list record) :
  articles <> [] ->
  Forall (fun a => is_scalar (own a "text") = true) articles ->
  stock_news rt detail (Ret (records articles))
  = json (news_payload (default summary detail) articles).
Proof.
  intros Hne Hs. destruct articles as [|a articles]; [congruence|].
  unfold stock_news, records. cbv zeta.
  set (d := default summary detail). set (as_ := a :: articles) in *.
  cbn [bind]. unfold missing_or_empty.
  change (map VObj as_) with (VObj a :: map VObj articles).
  cbn [truthy negb bind get_length len_is List.length Nat.eqb sliceable].
  change (VObj a :: map VObj articles) with (map VObj as_).
  change (S (List.length (map VObj articles))) with (List.length (map VObj as_)).
  rewrite length_map.
  replace (if is_full d then Nat.min (List.length as_) ARTICLES_FOR_FULL_DETAIL
           else Nat.min (List.length as_) ARTICLES_FOR_SUMMARY)
    with (news_count d (List.length as_)) by (unfold news_count; destruct d; reflexivity).
  rewrite firstn_map.
  rewrite (mapM_records _ article_record).
  2:{ intros r Hr. apply article_summary_record.
      rewrite Forall_forall in Hs. apply Hs.
      exact (In_firstn _ _ _ Hr). }
  cbn [bind]. unfold news_payload, news_shown. cbv zeta.
  assert (Hle : (news_count d (List.length as_) <=? List.length as_)%nat = true).
  { apply Nat.leb_le. unfold news_count. apply Nat.le_min_l. }
  rewrite Hle, andb_true_r.
  destruct ((List.length (map article_record (firstn (news_count d (List.length as_)) as_))
             <? List.length as_)%nat || is_full d); [|reflexivity].
  unfold news_message. destruct d; reflexivity.
Qed.

Lemma earnings_calendar_records (rt : runtime) (symbol : option string) (items : list record) :
  items <> [] ->
  earnings_calendar rt symbol (Ret (records items)) = json (earnings_payload symbol items).
Proof.
  intros Hne. destruct items as [|i items]; [congruence|].
  unfold earnings_calendar, records, earnings_payload. cbv zeta.
  set (its := i :: items) in *.
  cbn [bind]. unfold missing_or_empty.
  change (map VObj its) with (VObj i :: map VObj items).
  cbn [truthy negb bind get_length len_is len_gt List.length Nat.eqb sliceable].
  change (VObj i :: map VObj items) with (map VObj its).
  change (S (List.length (map VObj items))) with (List.length (map VObj its)).
  rewrite length_map. fold (symbol_given symbol).
  destruct (negb (symbol_given symbol) && (10 <? List.length its)%nat).
  - cbn [bind sliceable]. rewrite firstn_map.
    rewrite (mapM_records _ earnings_brief) by (intros r _; apply pick_record).
    reflexivity.
  - cbn [bind sliceable]. rewrite firstn_map.
    rewrite (mapM_records _ earnings_detail) by (intros r _; apply pick_record).
    reflexivity.
Qed.

Lemma StronglySorted_map_inv {A B : Type} (R : B -> B -> Prop) (f : A -> B) (l : list A) :
  StronglySorted R (map f l) -> StronglySorted (fun a b => R (f a) (f b)) l.
Proof.
  induction l as [|x xs IH]; intros H; simpl in H.
  - constructor.
  - inversion H as [|? ? Hs Hall]; subst. constructor; [apply IH, Hs|].
    rewrite Forall_forall in Hall |- *. intros y Hy. apply Hall, in_map, Hy.
Qed.

Lemma StronglySorted_impl {A : Type} (R S : A -> A -> Prop) (l : list A) :
  (forall a b, R a b -> S a b) -> StronglySorted R l -> StronglySorted S l.
Proof.
  intros HRS. induction 1 as [|x xs Hs IH Hall]; constructor; [exact IH|].
  eapply Forall_impl; [|exact Hall]. intros y. apply HRS.
Qed.

(** With valid dates, the newest-first sort of an array of records
    returns them newest first. *)
Lemma sort_newest_records (rt : runtime) (recs : list record) :
  Forall (valid_date rt) recs ->
  exists sorted,
    sort (newest_first rt) (map VObj recs) = Ret (map VObj sorted)
    /\ Permutation sorted recs
    /\ newest_first_order rt sorted.
Proof.
  intros Hv. pose proof (sort_newest_valid rt recs Hv) as Hs.
  set (key := fun v => (- stamp rt v)%Z) in *.
  destruct (Permutation_map_inv _ _ (sort_by_perm key (map VObj recs))) as [sorted [E Hp]].
  exists sorted. rewrite Hs, E. split; [reflexivity|]. split; [apply Permutation_sym, Hp|].
  pose proof (sort_by_sorted key (map VObj recs)) as Hsorted. rewrite E in Hsorted.
  apply StronglySorted_map_inv in Hsorted.
  unfold newest_first_order. eapply StronglySorted_impl; [|exact Hsorted].
  intros a b. unfold key_le, key. lia.
Qed.

Lemma dividend_calendar_records (rt : runtime) (symbol : string) (limit : option nat)
  (props : list (string * value)) (divs sorted : list record) :
  divs <> [] ->
  lookup "historical" props = Some (records divs) ->
  sort (newest_first rt) (map VObj divs) = Ret (map VObj sorted) ->
  Permutation sorted divs ->
  dividend_calendar rt symbol limit (Ret (VObj props))
  = json (dividend_payload symbol (default 10 limit) (List.length divs) sorted).
Proof.
  intros Hne Hl Hs Hp. destruct divs as [|d divs]; [congruence|].
  unfold dividend_calendar. cbv zeta. cbn [bind get]. unfold own. rewrite Hl.
  unfold records, missing_or_empty. set (ds := d :: divs) in *.
  change (map VObj ds) with (VObj d :: map VObj divs).
  cbn [truthy negb bind get_length len_is len_gt len_show List.length Nat.eqb spread].
  change (VObj d :: map VObj divs) with (map VObj ds).
  change (S (List.length (map VObj divs))) with (List.length (map VObj ds)).
  rewrite Hs. cbn [bind]. rewrite firstn_map.
  rewrite (mapM_records _ dividend_record) by (intros r _; apply pick_record).
  cbn [bind]. unfold dividend_payload. cbv zeta. rewrite !length_map.
  destruct (List.length (firstn (default 10 limit) sorted) <? List.length ds)%nat;
    reflexivity.
Qed.

(** *** The digest branch *)
Lemma StronglySorted_last {A : Type} (R : A -> A -> Prop) (l : list A) (z : A) :
  StronglySorted R (l ++ [z]) -> Forall (fun x => R x z) l.
Proof.
  induction l as [|x xs IH]; intros H; simpl in H.
  - constructor.
  - inversion H as [|? ? Hs Hall]; subst. constructor.
    + rewrite Forall_forall in Hall. apply Hall, in_or_app. right. left. reflexivity.
    + apply IH, Hs.
Qed.

Lemma get_records (k : string) (recs : list record) :
  mapM (fun p => get p k) (map VObj recs) = Ret (map (fun r => own r k) recs).
Proof. apply mapM_records. intros r _. reflexivity. Qed.

(** With valid dates, the oldest-first copy starts at a record of least
    time value and ends at one of greatest. *)
Lemma chronological_ends (rt : runtime) (pts : list record) :
  pts <> [] ->
  Forall (valid_date rt) pts ->
  exists chron first last,
    sort (oldest_first rt) (map VObj pts) = Ret (map VObj chron)
    /\ Permutation chron pts
    /\ nth 0 (map VObj chron) VUndefined = VObj first
    /\ nth (List.length (map VObj chron) - 1) (map VObj chron) VUndefined = VObj last
    /\ In first pts /\ In last pts
    /\ Forall (fun r => (stamp rt (VObj first) <= stamp rt (VObj r)
                         /\ stamp rt (VObj r) <= stamp rt (VObj last))%Z) pts.
Proof.
  intros Hne Hv. pose proof (sort_oldest_valid rt pts Hv) as Hs.
  destruct (Permutation_map_inv _ _ (sort_by_perm (stamp rt) (map VObj pts)))
    as [chron [E Hp]].
  pose proof (sort_by_sorted (stamp rt) (map VObj pts)) as Hsorted.
  rewrite E in Hsorted. apply StronglySorted_map_inv in Hsorted.
  assert (Hc : chron <> []).
  { intros ->. apply Permutation_sym, Permutation_nil in Hp. congruence. }
  destruct (exists_last Hc) as [front [last Hfl]].
  destruct chron as [|first rest]; [congruence|].
  exists (first :: rest), first, last. rewrite Hs, E.
  split; [reflexivity|]. split; [apply Permutation_sym, Hp|]. split; [reflexivity|].
  assert (Hin_last : In last (first :: rest)).
  { rewrite Hfl. apply in_or_app. right. left. reflexivity. }
  split.
  - rewrite length_map, Hfl, length_app, map_app. cbn [List.length map].
    replace (List.length front + 1 - 1)%nat with (List.length (map VObj front))
      by (rewrite length_map; lia).
    rewrite nth_middle. reflexivity.
  - split; [eapply Permutation_in; [apply Permutation_sym, Hp | left; reflexivity]|].
    split; [eapply Permutation_in; [apply Permutation_sym, Hp | exact Hin_last]|].
    apply Forall_forall. intros r Hr.
    apply (Permutation_in _ Hp) in Hr. split.
    + inversion Hsorted as [|? ? _ Hall]; subst.
      destruct Hr as [<- | Hr]; [apply Z.le_refl|].
      rewrite Forall_forall in Hall. apply (Hall r Hr).
    + rewrite Hfl in Hsorted, Hr. apply StronglySorted_last in Hsorted.
      apply in_app_or in Hr. destruct Hr as [Hr | [<- | []]]; [|apply Z.le_refl].
      rewrite Forall_forall in Hsorted. apply (Hsorted r Hr).
Qed.

Lemma summarize_digest (rt : runtime) (pts chronological : list record)
  (first last : record) :
  POINTS_THRESHOLD_FOR_SUMMARY < List.length pts ->
  sort (oldest_first rt) (map VObj pts) = Ret (map VObj chronological) ->
  nth 0 (map VObj chronological) VUndefined = VObj first ->
  nth (List.length (map VObj chronological) - 1) (map VObj chronological) VUndefined
  = VObj last ->
  summarize_points rt summary (map VObj pts)
  = Ret (json (VObj
      [("message",
        VStr (tpl ["Summarized "; dec (List.length pts); " data points from ";
                   ToString rt (own first "date"); " to "; ToString rt (own last "date");
                   ". Showing "; dec RECENT_POINTS_TO_SHOW_WITH_SUMMARY;
                   " most recent points. Request 'full' detail for more data points (up to ";
                   dec MAX_POINTS_FOR_FULL_DETAIL; ")."]));
       ("periodStartDate", own first "date");
       ("periodEndDate", own last "date");
       ("startPrice", own first "close");
       ("endPrice", own last "close");
       ("periodHigh", VNum (Math_max rt (map (fun r => own r "high") chronological)));
       ("periodLow", VNum (Math_min rt (map (fun r => own r "low") chronological)));
       ("priceChangePercent", priceChangePercent rt (own first "close") (own last "close"));
       ("recentData",
        VArr (map ohlcv_point (firstn RECENT_POINTS_TO_SHOW_WITH_SUMMARY pts)))])).
Proof.
  intros Hgt Hs Hfirst Hlast. unfold summarize_points. rewrite length_map.
  replace (List.length pts =? 0)%nat with false
    by (symmetry; apply Nat.eqb_neq; unfold POINTS_THRESHOLD_FOR_SUMMARY in Hgt; lia).
  cbn [is_full].
  replace (POINTS_THRESHOLD_FOR_SUMMARY <? List.length pts)%nat with true
    by (symmetry; apply Nat.ltb_lt; exact Hgt).
  rewrite Hs. cbn [bind]. cbv zeta. rewrite Hfirst, Hlast, !get_records.
  cbn [bind get]. rewrite firstn_map, ohlcv_records. reflexivity.
Qed.

Lemma valid_dates_check (rt : runtime) (recs : list record) :
  forallb (has_date rt) recs = true -> Forall (valid_date rt) recs.
Proof.
  intros H. apply Forall_forall. intros r Hr.
  rewrite forallb_forall in H. specialize (H r Hr).
  unfold has_date in H. unfold valid_date.
  destruct (Date_time rt (own r "date")); [discriminate | discriminate H].
Qed.

(** *** Dictionaries *)
Lemma lookup_obj_set (out : list (string * value)) (k key : string) (v : value) :
  lookup k (obj_set out key v) = if String.eqb k key then Some v else lookup k out.
Proof.
  induction out as [|[k' v'] out IH]; simpl.
  - reflexivity.
  - destruct (String.eqb key k') eqn:E; simpl.
    + apply String.eqb_eq in E. subst k'. destruct (String.eqb k key); reflexivity.
    + destruct (String.eqb k k') eqn:E'.
      * apply String.eqb_eq in E'. subst k'.
        rewrite String.eqb_sym, E. reflexivity.
      * exact IH.
Qed.

Lemma copy_present_record (r : record) (names : list string) (out : list (string * value)) :
  has_own r "hasOwnProperty" = false ->
  copy_present (VObj r) names out = Ret (curated_entries r names out).
Proof.
  intros Hno. revert out. induction names as [|key rest IH]; intros out; simpl.
  - reflexivity.
  - rewrite Hno. cbn [bind]. unfold has_own, own, present.
    destruct (lookup key r) as [v|]; cbn [andb is_nullish negb].
    + destruct (is_nullish v); cbn [negb]; apply IH.
    + apply IH.
Qed.

Lemma lookup_curated_entries (r : record) (names : list string) (out : list (string * value))
  (k : string) :
  lookup k (curated_entries r names out)
  = if mem k names
    then match present r k with Some v => Some v | None => lookup k out end
    else lookup k out.
Proof.
  revert out. unfold mem.
  induction names as [|key rest IH]; intros out; cbn [curated_entries existsb].
  - reflexivity.
  - destruct (String.eqb k key) eqn:E; cbn [orb].
    + apply String.eqb_eq in E. subst key.
      destruct (present r k) as [v|] eqn:P; rewrite IH.
      * rewrite lookup_obj_set, String.eqb_refl. destruct (existsb _ rest); reflexivity.
      * destruct (existsb _ rest); reflexivity.
    + destruct (present r key) as [v|]; rewrite IH.
      * rewrite lookup_obj_set, E. reflexivity.
      * reflexivity.
Qed.

Lemma present_not_nullish (r : record) (k : string) (v : value) :
  present r k = Some v -> lookup k r = Some v /\ is_nullish v = false.
Proof.
  unfold present. destruct (lookup k r) as [w|]; [|discriminate].
  destruct (is_nullish w) eqn:E; [discriminate|].
  intros H. inversion H; subst. split; [reflexivity | exact E].
Qed.

(** What a dictionary holds under each key, and that it holds no null. *)
Lemma lookup_curated_dictionary (r : record) (names : list string) (extra k : string) :
  mem extra names = false ->
  lookup k (curated_dictionary r names extra)
  = if mem k names then present r k
    else if String.eqb k extra
         then (if truthy (own r extra) then Some (own r extra) else None)
         else None.
Proof.
  intros Hextra. unfold curated_dictionary. cbv zeta.
  destruct (truthy (own r extra)) eqn:T.
  - rewrite lookup_obj_set. destruct (String.eqb k extra) eqn:E.
    + apply String.eqb_eq in E. subst k. rewrite Hextra. reflexivity.
    + rewrite lookup_curated_entries. cbn [lookup].
      destruct (mem k names); [destruct (present r k)|]; reflexivity.
  - rewrite lookup_curated_entries. cbn [lookup].
    destruct (mem k names); [destruct (present r k); reflexivity|].
    destruct (String.eqb k extra); reflexivity.
Qed.

Lemma curated_dictionary_no_null (r : record) (names : list string) (extra k : string)
  (v : value) :
  mem extra names = false ->
  lookup k (curated_dictionary r names extra) = Some v -> is_nullish v = false.
Proof.
  intros Hextra. rewrite (lookup_curated_dictionary r names extra k Hextra).
  destruct (mem k names).
  - intros H. apply present_not_nullish in H. apply H.
  - destruct (String.eqb k extra); [|discriminate].
    destruct (truthy (own r extra)) eqn:T; [|discriminate].
    intros H. inversion H; subst. destruct (own r extra); try reflexivity; discriminate T.
Qed.

(** *** The single-record handlers *)
Lemma missing_or_no_keys_record (r : record) :
  r <> [] -> missing_or_no_keys (VObj r) = Ret false.
Proof. intros Hne. destruct r; [congruence | reflexivity]. Qed.

Lemma quote_record (data : value) (r : record) :
  first_if_array data = VObj r ->
  r <> [] ->
  quote (Ret data) = json (project quote_copied r).
Proof.
  intros Hdata Hne. unfold quote. cbn [bind]. rewrite Hdata.
  rewrite (missing_or_no_keys_record r Hne). cbn [bind].
  unfold quote_copied. rewrite pick_record. reflexivity.
Qed.

Lemma financial_ratios_ttm_record (symbol : string) (data : value) (r : record) :
  first_if_array data = VObj r ->
  r <> [] ->
  has_own r "hasOwnProperty" = false ->
  financial_ratios_ttm symbol (Ret data)
  = json (VObj
      [("symbol", or_else (own r "symbol") (VStr symbol));
       ("date", own r "date");
       ("sourceMessage",
        VStr (tpl ["Showing a curated list of TTM financial ratios. ";
                   dec (List.length r); " total ratios fetched."]));
       ("ratios", VObj (curated_dictionary r keyRatioNames "priceFairValueTTM"))]).
Proof.
  intros Hdata Hne Hno. unfold financial_ratios_ttm. cbn [bind]. rewrite Hdata.
  rewrite (missing_or_no_keys_record r Hne). cbn [bind get Object_keys].
  rewrite (copy_present_record r _ _ Hno). cbn [bind].
  unfold copy_if_truthy. cbn [bind get]. rewrite length_map. reflexivity.
Qed.

Lemma key_metrics_ttm_record (symbol : string) (data : value) (r : record) :
  first_if_array data = VObj r ->
  r <> [] ->
  has_own r "hasOwnProperty" = false ->
  key_metrics_ttm symbol (Ret data)
  = json (VObj
      [("symbol", or_else (own r "symbol") (VStr symbol));
       ("date", own r "date");
       ("sourceMessage",
        VStr (tpl ["Showing a curated list of TTM key metrics. ";
                   dec (List.length r); " total metrics fetched."]));
       ("metrics", VObj (curated_dictionary r keyMetricNames "bookValuePerShareTTM"))]).
Proof.
  intros Hdata Hne Hno. unfold key_metrics_ttm. cbn [bind]. rewrite Hdata.
  rewrite (missing_or_no_keys_record r Hne). cbn [bind get Object_keys].
  rewrite (copy_present_record r _ _ Hno). cbn [bind].
  unfold copy_if_truthy. cbn [bind get]. rewrite length_map. reflexivity.
Qed.

Lemma dcf_valuation_record (rt : runtime) (symbol : string) (data : value) (r : record) :
  first_if_array data = VObj r ->
  r <> [] ->
  truthy (own r "dcf") = true ->
  dcf_valuation rt symbol (Ret data)
  = let stockPrice := or_else (own r "Stock Price") (own r "stockPrice") in
    let potentialUpsidePercent := potentialUpside rt stockPrice (own r "dcf") in
    json (VObj
      [("symbol", or_else (own r "symbol") (VStr symbol));
       ("date", own r "date");
       ("stockPrice", stockPrice);
       ("dcfValue", own r "dcf");
       ("currency", VStr "USD");
       ("potentialUpsidePercent", upside_field rt potentialUpsidePercent);
       ("message", VStr (upside_message rt potentialUpsidePercent))]).
Proof.
  intros Hdata Hne Hdcf. unfold dcf_valuation. cbn [bind]. rewrite Hdata.
  rewrite (missing_or_no_keys_record r Hne). cbn [bind get]. rewrite Hdcf.
  reflexivity.
Qed.

End Facts.

(** ** Properties of the handlers, against the design document *)
Module Claims.
Import Js Tools Curated Facts.
Local Open Scope nat_scope.

Lemma settles_bind {A : Type} (m : exc A) (k : A -> exc tool_result) :
  (forall a, settles (k a)) -> settles (bind m k).
Proof. intros H. destruct m as [a|e]; simpl; [apply H | exact I]. Qed.

Lemma settles_reply (t : text_body) : settles (Ret (reply t)).
Proof. simpl. exists t. reflexivity. Qed.

Lemma try_catch_one_text (body : exc tool_result) (handler : js_error -> tool_result) :
  settles body -> (forall e, one_text (handler e)) -> one_text (try_catch body handler).
Proof. intros Hb Hh. destruct body as [r|e]; simpl; [exact Hb | apply Hh]. Qed.

Lemma one_text_say (sentence : string) : one_text (say sentence).
Proof. exists (Plain sentence). reflexivity. Qed.

(** Walks a handler body: every branch ends in a reply or has thrown. *)
Ltac settle :=
  repeat first
    [ apply settles_reply
    | apply settles_bind; intros
    | progress cbv zeta
    | match goal with
      | |- settles (if ?c then _ else _) => destruct c
      | |- settles (match ?x with _ => _ end) => destruct x
      | |- settles (say _) => apply settles_reply
      | |- settles (Ret (say _)) => apply settles_reply
      | |- settles (Ret (json _)) => apply settles_reply
      end ].

Ltac caught :=
  intros; cbv zeta;
  repeat match goal with
         | |- one_text (if ?c then _ else _) => destruct c
         end;
  apply one_text_say.

Lemma company_profile_record (rt : runtime) (data : value) (profile : record) :
  first_if_array data = VObj profile ->
  profile <> [] ->
  is_scalar (own profile "description") = true ->
  company_profile rt (Ret data) =
  json (VObj
    (map (fun kf => (fst kf, own profile (snd kf)))
         (same_name ["symbol"; "companyName"; "price"; "currency";
                     "exchangeShortName"; "industry"; "sector"; "website"])
     ++ [("description", truncate 300 "... (truncated)" (own profile "description"))]
     ++ map (fun kf => (fst kf, own profile (snd kf)))
            [("ceo", "ceo"); ("marketCap", "mktCap"); ("beta", "beta");
             ("volAvg", "volAvg"); ("lastDiv", "lastDiv"); ("range", "range");
             ("isActivelyTrading", "isActivelyTrading")])).
Proof.
  intros Hdata Hne Hs. unfold company_profile. simpl bind. rewrite Hdata.
  destruct profile as [|kv rest]; [congruence|].
  unfold missing_or_no_keys. cbn [truthy negb Object_keys bind map List.length Nat.eqb].
  rewrite !picks_record. cbn [bind get].
  rewrite (truncated_scalar _ _ _ _ Hs). reflexivity.
Qed.

Lemma nonempty_length {A : Type} (l : list A) :
  l <> [] -> (List.length l =? 0)%nat = false.
Proof. destruct l; [congruence | reflexivity]. Qed.

Lemma summarize_full (rt : runtime) (pts : list record) :
  pts <> [] ->
  summarize_points rt full (map VObj pts)
  = Ret (json (VObj
      [("message",
        VStr (tpl ["Showing "; dec (Nat.min MAX_POINTS_FOR_FULL_DETAIL (List.length pts));
                   " of "; dec (List.length pts);
                   " fetched data points (full detail requested, capped at ";
                   dec MAX_POINTS_FOR_FULL_DETAIL; ")."]));
       ("data", VArr (map ohlcv_point (firstn MAX_POINTS_FOR_FULL_DETAIL pts)))])).
Proof.
  intros Hne. unfold summarize_points. rewrite length_map.
  rewrite (nonempty_length pts Hne). cbn [is_full].
  rewrite firstn_map, ohlcv_records. cbn [bind].
  rewrite length_map, length_firstn. reflexivity.
Qed.

Lemma summarize_small (rt : runtime) (pts : list record) :
  pts <> [] ->
  List.length pts <= POINTS_THRESHOLD_FOR_SUMMARY ->
  summarize_points rt summary (map VObj pts)
  = Ret (json (VObj
      [("message",
        VStr (tpl ["Showing all "; dec (List.length pts);
                   " fetched data points (below summary threshold)."]));
       ("data", VArr (map ohlcv_point pts))])).
Proof.
  intros Hne Hle. unfold summarize_points. rewrite length_map.
  rewrite (nonempty_length pts Hne). cbn [is_full].
  replace (POINTS_THRESHOLD_FOR_SUMMARY <? List.length pts)%nat with false
    by (symmetry; apply Nat.ltb_ge; exact Hle).
  rewrite ohlcv_records. cbn [bind]. rewrite length_map. reflexivity.
Qed.

(** C1. For a fetched price series of N >= 1 points (the bare array or the
    array under [historical]): with detail full the payload is the envelope
    whose [data] holds the OHLCV projections of the first 150 points of the
    re-sorted series (a permutation of the fetched one), min(N, 150) of
    them; with detail summary (given or defaulted) and N <= 60 the payload
    is the envelope whose [data] holds the projections of all N points, and
    it has none of the digest's fields.  (N = 0 is answered by the no-data
    sentence, see C8.) *)
Theorem C1_price_series_sizes (rt : runtime) (data : value) (recs : list record) :
  recs <> [] ->
  fetched_series data recs ->
  exists pts,
    Permutation pts recs
    /\ historical_stock_data rt (Some full) (Ret data)
       = json (VObj
           [("message",
             VStr (tpl ["Showing "; dec (Nat.min 150 (List.length recs)); " of ";
                        dec (List.length recs);
                        " fetched data points (full detail requested, capped at 150)."]));
            ("data", VArr (map ohlcv_point (firstn 150 pts)))])
    /\ List.length (map ohlcv_point (firstn 150 pts)) = Nat.min (List.length recs) 150
    /\ (List.length recs <= 60 ->
        forall detail, detail = None \/ detail = Some summary ->
        exists payload,
          historical_stock_data rt detail (Ret data) = json payload
          /\ payload
             = VObj [("message",
                      VStr (tpl ["Showing all "; dec (List.length recs);
                                 " fetched data points (below summary threshold)."]));
                     ("data", VArr (map ohlcv_point pts))]
          /\ List.length (map ohlcv_point pts) = List.length recs
          /\ Forall (fun k => field payload k = VUndefined) digest_fields).
Proof.
  intros Hne Hf.
  destruct (sort_records_total (newest_first rt) recs (newest_first_total rt))
    as [pts [Hs Hp]].
  assert (Hlen : List.length pts = List.length recs) by (apply Permutation_length, Hp).
  assert (Hpts : pts <> []).
  { intros ->. destruct recs; [congruence | discriminate Hlen]. }
  exists pts. split; [exact Hp|]. split; [|split].
  - rewrite (historical_on_series rt _ data recs Hne Hf), Hs. cbn [bind default].
    rewrite (summarize_full rt pts Hpts), Hlen. reflexivity.
  - rewrite length_map, length_firstn, Hlen. apply Nat.min_comm.
  - intros Hsmall detail Hd. eexists. split; [|split; [reflexivity|split]].
    + rewrite (historical_on_series rt _ data recs Hne Hf), Hs. cbn [bind].
      replace (default summary detail) with summary by (destruct Hd as [-> | ->]; reflexivity).
      rewrite (summarize_small rt pts Hpts) by (rewrite Hlen; exact Hsmall).
      rewrite Hlen. reflexivity.
    + rewrite length_map. exact Hlen.
    + repeat constructor.
Qed.

Lemma C1_witness :
  Examples.three_bars <> []
  /\ fetched_series (records Examples.three_bars) Examples.three_bars
  /\ exists pts,
       Permutation pts Examples.three_bars
       /\ List.length (map ohlcv_point (firstn 150 pts)) = 3
       /\ historical_stock_data Sample.rt None (Ret (records Examples.three_bars))
          = json (VObj
              [("message",
                VStr "Showing all 3 fetched data points (below summary threshold).");
               ("data", VArr (map ohlcv_point pts))]).
Proof.
  assert (Hne : Examples.three_bars <> []) by discriminate.
  assert (Hf : fetched_series (records Examples.three_bars) Examples.three_bars)
    by (left; reflexivity).
  split; [exact Hne|]. split; [exact Hf|].
  destruct (C1_price_series_sizes Sample.rt (records Examples.three_bars)
              Examples.three_bars Hne Hf)
    as [pts [Hp [_ [Hlen Hsmall]]]].
  exists pts. split; [exact Hp|]. split; [exact Hlen|].
  destruct (Hsmall (proj1 (Nat.leb_le 3 60) eq_refl) None (or_introl eq_refl))
    as [payload [Hr [Hpayload _]]].
  rewrite Hr, Hpayload. reflexivity.
Defined.

(** C2, as the code has it.  For N > 60 points with valid dates, in
    summary tier (given or defaulted), the digest is computed over a first
    point of least and a last point of greatest time value; its
    priceChangePercent is (last.close - first.close) / first.close * 100
    whenever both closes are numbers that are neither 0 nor NaN, and null
    whenever first.close is falsy (null, absent, 0) or last.close is null or
    absent; the message is the 'Summarized N data points from ... to ...'
    sentence in every case. *)
Theorem C2_digest_price_change (rt : runtime) (detail : option DetailTier) (data : value)
  (recs : list record) :
  60 < List.length recs ->
  fetched_series data recs ->
  Forall (valid_date rt) recs ->
  detail = None \/ detail = Some summary ->
  exists first last payload,
    In first recs /\ In last recs
    /\ Forall (fun r => (stamp rt (VObj first) <= stamp rt (VObj r)
                         /\ stamp rt (VObj r) <= stamp rt (VObj last))%Z) recs
    /\ historical_stock_data rt detail (Ret data) = json payload
    /\ field payload "message"
       = VStr (tpl ["Summarized "; dec (List.length recs); " data points from ";
                    ToString rt (own first "date"); " to "; ToString rt (own last "date");
                    ". Showing 5 most recent points. Request 'full' detail for more data points (up to 150)."])
    /\ (forall a b,
          own first "close" = VNum a -> own last "close" = VNum b ->
          truthy (VNum a) = true -> truthy (VNum b) = true ->
          field payload "priceChangePercent" = VNum (((b - a) / a) * 100)%float)
    /\ (truthy (own first "close") = false \/ is_nullish (own last "close") = true ->
        field payload "priceChangePercent" = VNull).
Proof.
  intros Hgt Hf Hvalid Hd.
  assert (Hne : recs <> []) by (intros ->; simpl in Hgt; lia).
  destruct (sort_records_total (newest_first rt) recs (newest_first_total rt))
    as [pts [Hs Hp]].
  assert (Hlen : List.length pts = List.length recs) by (apply Permutation_length, Hp).
  assert (Hpts : pts <> []) by (intros ->; simpl in Hlen; lia).
  assert (Hvpts : Forall (valid_date rt) pts).
  { eapply Permutation_Forall; [apply Permutation_sym, Hp | exact Hvalid]. }
  destruct (chronological_ends rt pts Hpts Hvpts)
    as [chron [first [last [Hc [_ [Hfirst [Hlast [Hin1 [Hin2 Hends]]]]]]]]].
  exists first, last. eexists.
  split; [eapply Permutation_in; [exact Hp | exact Hin1]|].
  split; [eapply Permutation_in; [exact Hp | exact Hin2]|].
  split; [eapply Permutation_Forall; [exact Hp | exact Hends]|].
  split.
  - rewrite (historical_on_series rt _ data recs Hne Hf), Hs. cbn [bind].
    replace (default summary detail) with summary by (destruct Hd as [-> | ->]; reflexivity).
    rewrite (summarize_digest rt pts chron first last) by
      (try exact Hc; try exact Hfirst; try exact Hlast;
       unfold POINTS_THRESHOLD_FOR_SUMMARY; lia).
    reflexivity.
  - cbn [field own lookup String.eqb Ascii.eqb Bool.eqb]. rewrite Hlen.
    split; [reflexivity|]. split.
    + intros a b Ha Hb Hta Htb. unfold priceChangePercent.
      rewrite Ha, Hb, Hta, Htb. reflexivity.
    + intros [H | H]; unfold priceChangePercent.
      * rewrite H, andb_false_r. reflexivity.
      * destruct (own last "close"); try discriminate H; reflexivity.
Qed.

Lemma C2_witness :
  60 < List.length (Examples.yearly_bars 10)
  /\ Forall (valid_date Sample.rt) (Examples.yearly_bars 10)
  /\ exists first last,
       In first (Examples.yearly_bars 10) /\ In last (Examples.yearly_bars 10)
       /\ Forall (fun r => (stamp Sample.rt (VObj first) <= stamp Sample.rt (VObj r)
                            /\ stamp Sample.rt (VObj r) <= stamp Sample.rt (VObj last))%Z)
            (Examples.yearly_bars 10).
Proof.
  assert (H60 : 60 < List.length (Examples.yearly_bars 10))
    by (apply Nat.ltb_lt; vm_compute; reflexivity).
  assert (Hv : Forall (valid_date Sample.rt) (Examples.yearly_bars 10))
    by (apply valid_dates_check; vm_compute; reflexivity).
  split; [exact H60|]. split; [exact Hv|].
  destruct (C2_digest_price_change Sample.rt None (records (Examples.yearly_bars 10))
              (Examples.yearly_bars 10) H60 (or_introl eq_refl) Hv (or_introl eq_refl))
    as [first [last [payload [H1 [H2 [H3 _]]]]]].
  exists first, last. split; [exact H1|]. split; [exact H2 | exact H3].
Defined.

(** C2 as stated fails on the message: for sixty-one yearly bars whose
    first close is 0, priceChangePercent is null and the message is the
    usual 'Summarized ...' sentence, with no 'could not calculate' in it. *)
Lemma C2_counterexample :
  exists payload message,
    historical_stock_data Sample.rt (Some summary)
      (Ret (records (Examples.yearly_bars 0))) = json payload
    /\ field payload "periodStartDate" = VStr "1960-01-01"
    /\ field payload "startPrice" = VNum 0
    /\ field payload "priceChangePercent" = VNull
    /\ field payload "message" = VStr message
    /\ message = "Summarized 61 data points from 1960-01-01 to 2020-01-01. Showing 5 most recent points. Request 'full' detail for more data points (up to 150)."
    /\ mentions "could not calculate" message = false.
Proof.
  exists Examples.flat_start_digest. eexists.
  split; [vm_compute; reflexivity|].
  split; [reflexivity|]. split; [reflexivity|]. split; [reflexivity|].
  split; [reflexivity|]. split; [reflexivity | vm_compute; reflexivity].
Qed.

(** C3, as the code has it.  dividend_calendar re-sorts the fetched
    records newest first by date comparison before it slices: with valid
    dates the dividends surfaced are the first [limit] of an ordering of the
    fetched records in which every record is at least as recent as those
    after it, whatever order they arrived in.  stock_news and
    technical_indicator do not re-sort: they surface the first K entries of
    the upstream array, in the order received (for technical_indicator:
    the projections of the first 3 entries, for an indicator type that is a
    data key, that is ASCII and in neither case form the name of an
    inherited member such as constructor). *)
Theorem C3_recency_by_family (rt : runtime) (symbol interval indicator_type : string)
  (period : nat) (limit : option nat) (detail : option DetailTier)
  (body : list (string * value)) (divs articles vals : list record) :
  divs <> [] ->
  lookup "historical" body = Some (records divs) ->
  Forall (valid_date rt) divs ->
  articles <> [] ->
  Forall (fun a => is_scalar (own a "text") = true) articles ->
  vals <> [] ->
  (exists sorted payload,
      Permutation sorted divs
      /\ newest_first_order rt sorted
      /\ dividend_calendar rt symbol limit (Ret (VObj body)) = json payload
      /\ listing "dividends" payload = map dividend_record (firstn (default 10 limit) sorted))
  /\ (exists payload,
        stock_news rt detail (Ret (records articles)) = json payload
        /\ listing "articles" payload
           = map article_record
               (firstn (news_count (default summary detail) (List.length articles)) articles))
  /\ (data_key indicator_type = true ->
      exists payload,
        technical_indicator rt symbol interval indicator_type period (Ret (records vals))
        = json payload
        /\ listing "values" payload = map (indicator_value indicator_type) (firstn 3 vals)).
Proof.
  intros Hdivs Hbody Hvalid Harts Hscalar Hvals. split; [|split].
  - destruct (sort_newest_records rt divs Hvalid) as [sorted [Hs [Hp Ho]]].
    exists sorted. eexists. split; [exact Hp|]. split; [exact Ho|]. split.
    + apply (dividend_calendar_records rt symbol limit body divs sorted Hdivs Hbody Hs Hp).
    + reflexivity.
  - eexists. split; [apply (stock_news_records rt detail articles Harts Hscalar)|].
    unfold news_payload. cbv zeta. fold (news_shown (default summary detail) articles).
    destruct (_ || _)%bool; reflexivity.
  - intros _. eexists. split; [apply (technical_indicator_records rt _ _ _ _ vals Hvals)|].
    destruct (List.length vals <=? 3); reflexivity.
Qed.

Lemma C3_witness :
  (exists sorted,
      Permutation sorted Examples.three_dividends
      /\ newest_first_order Sample.rt sorted
      /\ listing "articles"
           (news_payload summary Examples.four_articles)
         = map article_record [Examples.monday; Examples.tuesday; Examples.wednesday])
  /\ (exists payload,
        technical_indicator Sample.rt "AAPL" "daily" "SMA" 10
          (Ret (records Examples.four_sma_points))
        = json payload
        /\ listing "values" payload
           = map (indicator_value "SMA") (firstn 3 Examples.four_sma_points)).
Proof.
  destruct (C3_recency_by_family Sample.rt "AAPL" "daily" "SMA" 10 (Some 2) None
              Examples.dividend_body Examples.three_dividends Examples.four_articles
              Examples.four_sma_points)
    as [[sorted [_ [Hp [Ho _]]]] [_ Hind]].
  - discriminate.
  - reflexivity.
  - repeat constructor; discriminate.
  - discriminate.
  - repeat constructor.
  - discriminate.
  - split.
    + exists sorted. split; [exact Hp|]. split; [exact Ho|]. reflexivity.
    + apply Hind. reflexivity.
Defined.

(** C3 as stated fails for news: from four articles received oldest
    first, the summary surfaces the three oldest and leaves out the article
    with the latest date. *)
Lemma C3_counterexample :
  stock_news Sample.rt None (Ret (records Examples.four_articles))
  = json (VObj
      [("message",
        VStr "Displaying summaries for the 3 most recent of 4 articles fetched. Request 'full' detail for more.");
       ("articles",
        VArr (map article_record [Examples.monday; Examples.tuesday; Examples.wednesday]))])
  /\ In Examples.thursday Examples.four_articles
  /\ Forall (fun a => exists t latest,
                 Examples.published a = Some t
                 /\ Examples.published Examples.thursday = Some latest
                 /\ (t < latest)%Z)
       [Examples.monday; Examples.tuesday; Examples.wednesday]
  /\ ~ In (article_record Examples.thursday)
         (map article_record [Examples.monday; Examples.tuesday; Examples.wednesday]).
Proof.
  split; [reflexivity|]. split; [simpl; tauto|]. split.
  - repeat constructor; eexists; eexists;
      (split; [reflexivity | split; [reflexivity | reflexivity]]).
  - intros [H | [H | [H | []]]]; discriminate H.
Qed.

(** C4, as the code has it.  The number of records shown is min(|items|,
    tier count) for news (3 in summary, 10 in full) and min(|items|, 10) for
    the earnings calendar.  News in summary tier carries the K-of-N message
    with the request-'full' hint exactly when fewer are shown than fetched,
    and otherwise is the bare array with no message; in full tier the
    K-of-N message (capped-at-10 note, no upgrade hint) is always there.
    The earnings calendar carries its K-of-N message with the narrowing hint
    exactly when no symbol was given and more than 10 events were fetched;
    otherwise it is the bare array with no message. *)
Theorem C4_caps_and_messages (rt : runtime) (detail : option DetailTier)
  (symbol : option string) (articles items : list record) :
  articles <> [] ->
  Forall (fun a => is_scalar (own a "text") = true) articles ->
  items <> [] ->
  (exists payload shown,
      stock_news rt detail (Ret (records articles)) = json payload
      /\ shown = List.length (listing "articles" payload)
      /\ shown = Nat.min (List.length articles)
                   (match default summary detail with full => 10 | summary => 3 end)
      /\ message_of payload
         = match default summary detail with
           | full =>
               Some (VStr (tpl ["Displaying "; dec shown; " of "; dec (List.length articles);
                                " fetched articles (full detail requested, capped at 10):"]))
           | summary =>
               if shown <? List.length articles
               then Some (VStr (tpl ["Displaying summaries for the "; dec shown;
                                     " most recent of "; dec (List.length articles);
                                     " articles fetched. Request 'full' detail for more."]))
               else None
           end)
  /\ (exists payload,
        earnings_calendar rt symbol (Ret (records items)) = json payload
        /\ List.length (listing "earningsEvents" payload) = Nat.min (List.length items) 10
        /\ message_of payload
           = if negb (symbol_given symbol) && (10 <? List.length items)
             then Some (VStr (tpl ["Displaying first 10 of "; dec (List.length items);
                                   " earnings events. Specify a symbol or a tighter date range for more targeted results."]))
             else None).
Proof.
  intros Harts Hscalar Hitems. split.
  - eexists. eexists. split; [apply (stock_news_records rt detail articles Harts Hscalar)|].
    assert (Hl : List.length (listing "articles" (news_payload (default summary detail) articles))
                 = news_count (default summary detail) (List.length articles)).
    { unfold news_payload. cbv zeta.
      destruct (_ || _)%bool; cbn [listing lookup String.eqb Ascii.eqb Bool.eqb];
        unfold news_shown; rewrite length_map, length_firstn;
        unfold news_count; lia. }
    split; [reflexivity|]. rewrite Hl. split.
    + unfold news_count. destruct (default summary detail); reflexivity.
    + unfold news_payload. cbv zeta. unfold news_shown at 1.
      rewrite length_map, length_firstn.
      replace (Nat.min (news_count (default summary detail) (List.length articles))
                 (List.length articles))
        with (news_count (default summary detail) (List.length articles))
        by (unfold news_count; lia).
      unfold news_shown. rewrite length_map, length_firstn.
      replace (Nat.min (news_count (default summary detail) (List.length articles))
                 (List.length articles))
        with (news_count (default summary detail) (List.length articles))
        by (unfold news_count; lia).
      destruct (default summary detail); cbn [is_full].
      * rewrite orb_false_r.
        destruct (news_count summary (List.length articles) <? List.length articles);
          reflexivity.
      * rewrite orb_true_r. reflexivity.
  - eexists. split; [apply (earnings_calendar_records rt symbol items Hitems)|].
    unfold earnings_payload.
    destruct (negb (symbol_given symbol) && (10 <? List.length items))%bool;
      cbn [listing lookup String.eqb Ascii.eqb Bool.eqb message_of];
      (split; [rewrite length_map, length_firstn; apply Nat.min_comm | reflexivity]).
Qed.

Lemma C4_witness :
  exists payload,
    stock_news Sample.rt (Some full) (Ret (records Examples.four_articles)) = json payload
    /\ message_of payload
       = Some (VStr "Displaying 4 of 4 fetched articles (full detail requested, capped at 10):").
Proof.
  destruct (C4_caps_and_messages Sample.rt (Some full) None
              Examples.four_articles Examples.two_events)
    as [[payload [shown [Hr [Hs [Hm Hmsg]]]]] _].
  - discriminate.
  - repeat constructor.
  - discriminate.
  - exists payload. split; [exact Hr|]. rewrite Hmsg, Hm. reflexivity.
Defined.

(** C4 as stated fails when everything fetched is shown in summary tier:
    for two articles the payload is the bare array of both, and no message
    states the count found. *)
Lemma C4_counterexample :
  exists payload,
    stock_news Sample.rt (Some summary) (Ret (records Examples.two_articles)) = json payload
    /\ List.length (listing "articles" payload) = List.length Examples.two_articles
    /\ payload = VArr (map article_record Examples.two_articles)
    /\ message_of payload = None.
Proof.
  eexists. split; [reflexivity|]. split; [reflexivity|]. split; reflexivity.
Qed.

(** C5, as the code has it.  The ratios and metrics dictionaries of the
    TTM tools hold, under each allow-listed key, the raw record's value when
    the record has that key with a value other than null and undefined, and
    nothing otherwise (plus priceFairValueTTM, respectively
    bookValuePerShareTTM, when truthy): no entry of these dictionaries is
    null or undefined.  company_profile and quote copy each output field
    from its one source key (marketCap from mktCap) whatever it holds: a
    null is copied as null, and an absent key leaves the field undefined.
    dcf_valuation takes stockPrice from "Stock Price" when that is truthy
    and from stockPrice otherwise. *)
Theorem C5_projection_by_family (rt : runtime) (symbol : string)
  (profile quoted ratios metrics dcf : record) :
  profile <> [] -> is_scalar (own profile "description") = true ->
  quoted <> [] ->
  ratios <> [] -> has_own ratios "hasOwnProperty" = false ->
  metrics <> [] -> has_own metrics "hasOwnProperty" = false ->
  dcf <> [] -> truthy (own dcf "dcf") = true ->
  (exists dictionary,
      field_of (financial_ratios_ttm symbol (Ret (records [ratios]))) "ratios"
      = VObj dictionary
      /\ (forall k, lookup k dictionary
                    = if mem k keyRatioNames then present ratios k
                      else if String.eqb k "priceFairValueTTM"
                           then (if truthy (own ratios k) then Some (own ratios k) else None)
                           else None)
      /\ (forall k v, lookup k dictionary = Some v -> is_nullish v = false))
  /\ (exists dictionary,
        field_of (key_metrics_ttm symbol (Ret (records [metrics]))) "metrics"
        = VObj dictionary
        /\ (forall k, lookup k dictionary
                      = if mem k keyMetricNames then present metrics k
                        else if String.eqb k "bookValuePerShareTTM"
                             then (if truthy (own metrics k) then Some (own metrics k)
                                   else None)
                             else None)
        /\ (forall k v, lookup k dictionary = Some v -> is_nullish v = false))
  /\ (forall k f, In (k, f) profile_copied ->
        field_of (company_profile rt (Ret (records [profile]))) k = own profile f)
  /\ (forall k f, In (k, f) quote_copied ->
        field_of (quote (Ret (records [quoted]))) k = own quoted f)
  /\ field_of (dcf_valuation rt symbol (Ret (VObj dcf))) "stockPrice"
     = or_else (own dcf "Stock Price") (own dcf "stockPrice").
Proof.
  intros Hp Hdesc Hq Hr Hrno Hm Hmno Hd Hdcf.
  split; [|split; [|split; [|split]]].
  - rewrite (financial_ratios_ttm_record symbol (records [ratios]) ratios eq_refl Hr Hrno).
    eexists. split; [reflexivity|]. split.
    + intros k. rewrite lookup_curated_dictionary by reflexivity.
      destruct (String.eqb k "priceFairValueTTM") eqn:E; [|reflexivity].
      apply String.eqb_eq in E. subst k. reflexivity.
    + intros k v. apply curated_dictionary_no_null. reflexivity.
  - rewrite (key_metrics_ttm_record symbol (records [metrics]) metrics eq_refl Hm Hmno).
    eexists. split; [reflexivity|]. split.
    + intros k. rewrite lookup_curated_dictionary by reflexivity.
      destruct (String.eqb k "bookValuePerShareTTM") eqn:E; [|reflexivity].
      apply String.eqb_eq in E. subst k. reflexivity.
    + intros k v. apply curated_dictionary_no_null. reflexivity.
  - intros k f Hin.
    rewrite (company_profile_record rt (records [profile]) profile eq_refl Hp Hdesc).
    unfold profile_copied in Hin. cbn [same_name map app] in Hin.
    repeat (destruct Hin as [Hin | Hin]; [inversion Hin; subst; reflexivity|]).
    destruct Hin.
  - intros k f Hin. rewrite (quote_record (records [quoted]) quoted eq_refl Hq).
    unfold quote_copied in Hin. cbn [same_name map] in Hin.
    repeat (destruct Hin as [Hin | Hin]; [inversion Hin; subst; reflexivity|]).
    destruct Hin.
  - rewrite (dcf_valuation_record rt symbol (VObj dcf) dcf eq_refl Hd Hdcf). reflexivity.
Qed.

Lemma C5_witness :
  field_of (company_profile Sample.rt (Ret (records [Examples.profile_without_ceo]))) "ceo"
  = VNull
  /\ field_of (dcf_valuation Sample.rt "AAPL" (Ret (VObj Examples.some_dcf))) "stockPrice"
     = VNum 100.
Proof.
  destruct (C5_projection_by_family Sample.rt "AAPL" Examples.profile_without_ceo
              Examples.some_quote Examples.some_ratios Examples.some_ratios Examples.some_dcf)
    as [_ [_ [Hprofile [_ Hdcf]]]];
    try discriminate; try reflexivity.
  split.
  - exact (Hprofile "ceo" "ceo" (or_intror (or_intror (or_intror (or_intror (or_intror
             (or_intror (or_intror (or_intror (or_introl eq_refl)))))))))).
  - exact Hdcf.
Defined.

(** C5 as stated fails for the profile: a [ceo] the provider reports as
    null is copied, and the printed document carries ["ceo": null] (while
    the fields the record lacks are left out of the print). *)
Lemma C5_counterexample :
  exists payload,
    company_profile Sample.rt (Ret (records [Examples.profile_without_ceo])) = json payload
    /\ field payload "ceo" = VNull
    /\ printed payload
       = VObj [("symbol", VStr "AAPL"); ("companyName", VStr "Apple Inc.");
               ("price", VNum 190); ("description", VStr "Designs phones.");
               ("ceo", VNull)].
Proof.
  eexists. split; [reflexivity|]. split; [reflexivity | vm_compute; reflexivity].
Qed.

(** C6, at the input where it fails: with dcf = 100 and "Stock Price" =
    100 the stock price is positive and the dcf present, the unrounded
    percentage is 0, and the payload carries potentialUpsidePercent null
    (not 0.00) beside the message of a 0.00% downside. *)
Theorem C6_equal_prices_give_null (rt : runtime) (symbol : string) :
  potentialUpside rt (VNum 100) (VNum 100) = Some 0%float
  /\ dcf_valuation rt symbol
       (Ret (VObj [("symbol", VStr "AAPL"); ("dcf", VNum 100); ("Stock Price", VNum 100)]))
     = json (VObj
         [("symbol", VStr "AAPL"); ("date", VUndefined); ("stockPrice", VNum 100);
          ("dcfValue", VNum 100); ("currency", VStr "USD");
          ("potentialUpsidePercent", VNull);
          ("message", VStr "DCF suggests a potential downside of 0.00%.")]).
Proof. split; vm_compute; reflexivity. Qed.

(** The three worked cases of the design on dcf_valuation. *)
Example dcf_upside (rt : runtime) :
  dcf_valuation rt "AAPL" (Ret (VObj [("dcf", VNum 150); ("Stock Price", VNum 100)]))
  = json (VObj
      [("symbol", VStr "AAPL"); ("date", VUndefined); ("stockPrice", VNum 100);
       ("dcfValue", VNum 150); ("currency", VStr "USD");
       ("potentialUpsidePercent", VNum 50);
       ("message", VStr "DCF suggests a potential upside of 50.00%.")]).
Proof. vm_compute. reflexivity. Qed.

Example dcf_downside (rt : runtime) :
  dcf_valuation rt "AAPL" (Ret (VObj [("dcf", VNum 80); ("stockPrice", VNum 100)]))
  = json (VObj
      [("symbol", VStr "AAPL"); ("date", VUndefined); ("stockPrice", VNum 100);
       ("dcfValue", VNum 80); ("currency", VStr "USD");
       ("potentialUpsidePercent", VNum (-20));
       ("message", VStr "DCF suggests a potential downside of 20.00%.")]).
Proof. vm_compute. reflexivity. Qed.

Example dcf_zero_price (rt : runtime) :
  dcf_valuation rt "AAPL" (Ret (VObj [("dcf", VNum 80); ("stockPrice", VNum 0)]))
  = json (VObj
      [("symbol", VStr "AAPL"); ("date", VUndefined); ("stockPrice", VNum 0);
       ("dcfValue", VNum 80); ("currency", VStr "USD");
       ("potentialUpsidePercent", VNull);
       ("message", VStr "Could not calculate potential upside.")]).
Proof. vm_compute. reflexivity. Qed.

(** C7. The description company_profile returns is the raw description
    truncated at 300 characters with the marker "... (truncated)", and the
    snippet of every article stock_news surfaces is the article text
    truncated at 200 characters with the marker "...", where truncation
    turns a text longer than maxLen into its first maxLen characters
    followed by the marker (so maxLen + length(marker) characters long),
    leaves a text of at most maxLen characters as it is, and passes null and
    undefined through. *)
Theorem C7_truncated_text (rt : runtime) (detail : option DetailTier) (profile : record)
  (articles : list record) :
  profile <> [] ->
  scalar_record profile ->
  articles <> [] ->
  Forall scalar_record articles ->
  field_of (company_profile rt (Ret (records [profile]))) "description"
  = truncate 300 "... (truncated)" (own profile "description")
  /\ (exists payload,
        stock_news rt detail (Ret (records articles)) = json payload
        /\ map (fun shown => field shown "snippet") (listing "articles" payload)
           = map (fun a => truncate 200 "..." (own a "text"))
               (firstn (news_count (default summary detail) (List.length articles))
                  articles))
  /\ (forall maxLen marker s,
        (maxLen < String.length s ->
         truncate maxLen marker (VStr s) = VStr (substring 0 maxLen s ++ marker)
         /\ String.length (substring 0 maxLen s ++ marker)
            = maxLen + String.length marker)
        /\ (String.length s <= maxLen -> truncate maxLen marker (VStr s) = VStr s)
        /\ truncate maxLen marker VNull = VNull
        /\ truncate maxLen marker VUndefined = VUndefined).
Proof.
  intros Hp Hsp Ha Hsa. split; [|split].
  - rewrite (company_profile_record rt (records [profile]) profile eq_refl Hp
               (own_scalar profile "description" Hsp)).
    reflexivity.
  - eexists. split.
    + apply (stock_news_records rt detail articles Ha).
      eapply Forall_impl; [|exact Hsa]. intros a Hs. apply own_scalar, Hs.
    + unfold news_payload. cbv zeta.
      assert (E : map (fun shown => field shown "snippet")
                    (news_shown (default summary detail) articles)
                  = map (fun a => truncate 200 "..." (own a "text"))
                      (firstn (news_count (default summary detail) (List.length articles))
                         articles)).
      { unfold news_shown. rewrite map_map. reflexivity. }
      destruct (_ || _)%bool; exact E.
  - intros maxLen marker s. split; [|split; [|split]].
    + intros Hlong. unfold truncate.
      replace (maxLen <? String.length s) with true
        by (symmetry; apply Nat.ltb_lt; exact Hlong).
      split; [reflexivity|].
      rewrite length_append, length_substring0, Nat.min_l by lia. reflexivity.
    + intros Hshort. unfold truncate.
      replace (maxLen <? String.length s) with false
        by (symmetry; apply Nat.ltb_ge; exact Hshort).
      reflexivity.
    + reflexivity.
    + reflexivity.
Qed.

Lemma C7_witness :
  exists cut,
    field_of (company_profile Sample.rt (Ret (records [Examples.long_profile])))
      "description" = VStr cut
    /\ String.length cut = 315.
Proof.
  destruct (C7_truncated_text Sample.rt None Examples.long_profile Examples.four_articles)
    as [Hd _].
  - discriminate.
  - repeat constructor.
  - discriminate.
  - repeat constructor.
  - eexists. split; [exact Hd | vm_compute; reflexivity].
Defined.

(** C8. Whatever the arguments and whatever the upstream request
    produced (a body of any shape, or a thrown error), each of the twelve
    tools returns a result whose content is one item of type "text"; and
    when the provider answers with an empty array, that item is the tool's
    plain no-data sentence. *)
Theorem C8_every_result_is_one_text_item (rt : runtime) (i : invocation) :
  one_text (run rt i)
  /\ run rt (with_empty_upstream i) = say (no_data_sentence i).
Proof.
  split.
  - destruct i; simpl run;
      [ unfold search_symbol | unfold company_profile | unfold quote
      | unfold historical_stock_data, summarize_points | unfold technical_indicator
      | unfold analyst_estimates | unfold stock_news | unfold earnings_calendar
      | unfold financial_ratios_ttm | unfold key_metrics_ttm | unfold dcf_valuation
      | unfold dividend_calendar ];
      cbv zeta; (apply try_catch_one_text; [settle | caught]).
  - destruct i; reflexivity.
Qed.

(** C9, as the code has it.  When both requests succeed and exactly one
    sub-source is absent (an empty array or null), the other sub-section is
    curated and returned and the absent one is left out; when both are
    absent the tool says no data was found.  When either request fails, the
    whole call is answered by the error sentence, whatever the other
    request produced. *)
Theorem C9_composite_degradation (rt : runtime) (symbol : string)
  (estimates : list record) (target : record) (none_e none_t : value) :
  estimates <> [] ->
  target <> [] ->
  absent none_e ->
  absent none_t ->
  analyst_estimates rt symbol (Ret none_e) (Ret (records [target]))
  = json (VObj (analyst_header symbol
                ++ [("priceTargetSummary", price_target_summary target)]))
  /\ analyst_estimates rt symbol (Ret (records estimates)) (Ret none_t)
     = json (VObj (analyst_header symbol
                   ++ [("recentEstimates", VArr (map estimate_summary (firstn 2 estimates)));
                       ("recommendationInfo", recommendation_note)]))
  /\ analyst_estimates rt symbol (Ret none_e) (Ret none_t)
     = say "No analyst estimates or price target data found for the symbol."
  /\ (forall error other,
        analyst_estimates rt symbol (Throw error) other
        = say (tpl ["Error in analyst_estimates: "; message error]))
  /\ (forall error fetched,
        analyst_estimates rt symbol (Ret fetched) (Throw error)
        = say (tpl ["Error in analyst_estimates: "; message error])).
Proof.
  intros He Ht Hne Hnt. split; [|split; [|split; [|split]]].
  - destruct target as [|kv target]; [congruence|].
    destruct Hne as [-> | ->]; reflexivity.
  - destruct estimates as [|e estimates]; [congruence|].
    unfold analyst_estimates, records.
    set (es := e :: estimates).
    change (map VObj es) with (VObj e :: map VObj estimates).
    cbn [bind]. unfold missing_or_empty.
    cbn [truthy negb bind get_length len_is len_gt List.length Nat.eqb Nat.ltb Nat.leb
         andb sliceable].
    change (VObj e :: map VObj estimates) with (map VObj es).
    destruct Hnt as [-> | ->]; cbn [first_if_array nth truthy bind];
      rewrite firstn_map;
      rewrite (mapM_records _ estimate_summary) by (intros r _; apply pick_record);
      reflexivity.
  - destruct Hne as [-> | ->]; destruct Hnt as [-> | ->]; reflexivity.
  - intros error other. reflexivity.
  - intros error fetched. reflexivity.
Qed.

Lemma C9_witness :
  analyst_estimates Sample.rt "AAPL" (Ret (VArr [])) (Ret (records [Examples.price_target]))
  = json (VObj
      [("symbol", VStr "AAPL");
       ("sourceMessage",
        VStr "Summarized analyst estimates. More historical/detailed data might be available via direct API.");
       ("priceTargetSummary",
        VObj [("lastUpdated", VStr "2024-01-02"); ("targetHigh", VNum 250);
              ("targetLow", VNum 160); ("targetConsensus", VNum 205);
              ("targetMedian", VNum 210); ("numberOfAnalysts", VUndefined)])]).
Proof.
  refine (proj1 (C9_composite_degradation Sample.rt "AAPL" Examples.three_estimates
                   Examples.price_target (VArr []) VNull _ _ _ _)).
  - discriminate.
  - discriminate.
  - left. reflexivity.
  - right. reflexivity.
Defined.

(** C9 as stated fails when a request fails: with the estimates request
    failing and the price-target summary fetched, and likewise with the
    estimates fetched and the price-target request failing, the result is
    the error sentence alone, with no sub-section of the source that did
    arrive. *)
Lemma C9_counterexample :
  analyst_estimates Sample.rt "AAPL" (Throw Examples.server_error)
    (Ret (records [Examples.price_target]))
  = say "Error in analyst_estimates: Request failed with status code 500"
  /\ analyst_estimates Sample.rt "AAPL" (Ret (records Examples.three_estimates))
       (Throw Examples.server_error)
     = say "Error in analyst_estimates: Request failed with status code 500"
  /\ payload_of (say "Error in analyst_estimates: Request failed with status code 500")
     = None.
Proof. split; [reflexivity | split; reflexivity]. Qed.



(** C10 as stated fails for the empty array: it has 3 or fewer entries,
    and the answer is the no-data sentence, not a bare array. *)
Lemma C10_counterexample :
  List.length (@nil (list (string * value))) <= 3
  /\ technical_indicator Sample.rt "AAPL" "daily" "SMA" 10 (Ret (records []))
     = say "No SMA data found for AAPL with period 10 on daily interval."
  /\ payload_of (technical_indicator Sample.rt "AAPL" "daily" "SMA" 10 (Ret (records [])))
     = None
  /\ payload_of (json (VArr [])) = Some (VArr []).
Proof.
  split; [apply Nat.le_0_l|]. split; [reflexivity|]. split; reflexivity.
Qed.

End Claims.

(** ** Further properties: requests and the raw dispatchers *)
Module RequestFacts.
Import Js Tools Curated Requests.
Local Open Scope nat_scope.

Lemma encode_unit_plain (c : ascii) : forallb plain (encode_unit c) = true.
Proof. destruct c as [[] [] [] [] [] [] [] []]; vm_compute; reflexivity. Qed.

Lemma forallb_flat_map {A B : Type} (p : B -> bool) (f : A -> list B) (l : list A) :
  (forall x, forallb p (f x) = true) -> forallb p (flat_map f l) = true.
Proof.
  intros H. induction l as [|x xs IH]; simpl; [reflexivity|].
  rewrite forallb_app, H, IH. reflexivity.
Qed.

Lemma encode_string_plain (s : string) :
  forallb plain (list_ascii_of_string (encode_string s)) = true.
Proof.
  unfold encode_string. rewrite list_ascii_of_string_of_list_ascii.
  apply forallb_flat_map, encode_unit_plain.
Qed.

Lemma append_assoc (s t u : string) : ((s ++ t) ++ u = s ++ (t ++ u))%string.
Proof. induction s as [|c s IH]; simpl; [reflexivity | rewrite IH; reflexivity]. Qed.

Lemma list_ascii_of_append (s t : string) :
  list_ascii_of_string (s ++ t)%string = list_ascii_of_string s ++ list_ascii_of_string t.
Proof. induction s as [|c s IH]; simpl; [reflexivity | rewrite IH; reflexivity]. Qed.

Lemma prefix_char (c : ascii) (s : string) :
  String.prefix (String c "") s
  = match s with String a _ => Ascii.eqb c a | EmptyString => false end.
Proof.
  destruct s as [|a rest]; simpl; [reflexivity|].
  destruct (ascii_dec c a) as [->|Hne].
  - rewrite Ascii.eqb_refl. destruct rest; reflexivity.
  - symmetry. apply Ascii.eqb_neq, Hne.
Qed.

(** [s.includes(c)] for a one-character [c] *)
Lemma includes_char (c : ascii) (s : string) :
  includes s (String c "") = existsb (Ascii.eqb c) (list_ascii_of_string s).
Proof.
  unfold includes. induction s as [|a rest IH].
  - reflexivity.
  - change (contains (String c "") (String a rest))
      with (String.prefix (String c "") (String a rest) || contains (String c "") rest)%bool.
    rewrite prefix_char, IH. reflexivity.
Qed.

Lemma plain_excludes (c : ascii) (l : list ascii) :
  plain c = false -> forallb plain l = true -> existsb (Ascii.eqb c) l = false.
Proof.
  intros Hc. induction l as [|a l IH]; simpl; [reflexivity|].
  intros H. apply andb_prop in H. destruct H as [Ha Hl].
  rewrite (IH Hl), orb_false_r. apply Ascii.eqb_neq. intros ->. congruence.
Qed.

(** An encoded component holds none of the URL delimiters. *)
Lemma encoded_has_no (c : ascii) (s : string) :
  plain c = false -> includes (encode_string s) (String c "") = false.
Proof.
  intros Hc. rewrite includes_char. apply plain_excludes; [exact Hc|].
  apply encode_string_plain.
Qed.

Lemma includes_append (c : ascii) (s t : string) :
  includes (s ++ t)%string (String c "")
  = (includes s (String c "") || includes t (String c ""))%bool.
Proof. rewrite !includes_char, list_ascii_of_append, existsb_app. reflexivity. Qed.

(** *** Query strings *)

Lemma append_empty (s : string) : (s ++ "")%string = s.
Proof. induction s as [|c s IH]; simpl; [reflexivity | rewrite IH; reflexivity]. Qed.

Lemma join_snoc (sep x : string) (q : list string) :
  q <> [] -> join sep (q ++ [x]) = (join sep q ++ sep ++ x)%string.
Proof.
  unfold join. induction q as [|a q IH]; intros Hq; [congruence|].
  destruct q as [|b q].
  - reflexivity.
  - change (String.concat sep ((a :: b :: q) ++ [x]))
      with (a ++ sep ++ String.concat sep ((b :: q) ++ [x]))%string.
    rewrite IH by discriminate.
    change (String.concat sep (a :: b :: q))
      with (a ++ sep ++ String.concat sep (b :: q))%string.
    rewrite !append_assoc. reflexivity.
Qed.

Lemma with_key_query (path key : string) (q : list string) :
  includes path "?" = false ->
  with_key (if (0 <? List.length q)%nat then tpl [path; "?"; join "&" q] else path) key
  = tpl [BASE_URL; path; "?"; join "&" (q ++ [tpl ["apikey="; key]])].
Proof.
  intros Hpath. unfold with_key. destruct q as [|a q].
  - cbn [List.length Nat.ltb Nat.leb app]. rewrite Hpath. reflexivity.
  - cbn [List.length Nat.ltb Nat.leb].
    replace (includes (tpl [path; "?"; join "&" (a :: q)]) "?") with true
      by (unfold tpl; cbn [String.concat]; rewrite !includes_append;
          rewrite orb_true_r; reflexivity).
    rewrite join_snoc by discriminate.
    unfold tpl. cbn [String.concat]. rewrite !append_assoc. reflexivity.
Qed.

End RequestFacts.

Module Extras.
Import Js Tools Curated Requests Inputs Facts RequestFacts.
Local Open Scope nat_scope.

Ltac ran H :=
  repeat match type of H with
         | bind ?m _ = Ret _ => destruct m eqn:?; cbn [bind] in H; [|discriminate H]
         end;
  inversion H; subst; clear H.

Lemma relay_relayed (fetch : provider) (url : string) :
  try_catch (relay fetch url) report = relayed (fetch url).
Proof. unfold relay, relayed. destruct (fetch url); reflexivity. Qed.

Lemma call_tool_found (rt : runtime) (fetch : provider) (key : string)
  (name args : value) (t : tool) (built : string) :
  find (is_named name) tools = Some t ->
  tool_endpoint t rt args = Ret built ->
  startsWith built "/" = true ->
  call_tool rt fetch key name args = relayed (fetch (with_key built key)).
Proof.
  intros Hfind Hbuilt Hs.
  unfold call_tool. rewrite Hfind, Hbuilt. cbn [bind]. rewrite Hs. cbn [negb].
  apply relay_relayed.
Qed.

(** X1. In the table-driven server, whenever the named tool is in the
    table and its endpoint builder returns, the endpoint starts with "/" (the
    leading-slash repair never changes it), exactly one request is made, to
    BASE + endpoint + ("&" or "?") + "apikey=" + key, and the answer is the
    provider's body printed as it came, or "Error: " followed by the
    message of the error the request threw. *)
Theorem X1_call_tool_relays (rt : runtime) (fetch : provider) (key : string)
  (name args : value) (t : tool) (built : string) :
  find (is_named name) tools = Some t ->
  tool_endpoint t rt args = Ret built ->
  startsWith built "/" = true
  /\ call_tool rt fetch key name args = relayed (fetch (with_key built key)).
Proof.
  intros Hfind Hbuilt.
  assert (Hs : startsWith built "/" = true).
  { apply find_some in Hfind. destruct Hfind as [Hin _].
    unfold tools in Hin. cbn [In] in Hin.
    repeat (destruct Hin as [<- | Hin];
            [cbn [tool_endpoint] in Hbuilt;
             unfold by_field, by_period, by_dates, fixed, historical_price_endpoint,
               stock_screener_endpoint, stock_news_endpoint in Hbuilt;
             ran Hbuilt; reflexivity|]).
    destruct Hin. }
  split; [exact Hs|].
  apply (call_tool_found rt fetch key name args t built Hfind Hbuilt Hs).
Qed.

Lemma X1_witness :
  call_tool Sample.rt echo "KEY" (VStr "income_statement")
    (VObj [("symbol", VStr "BRK B"); ("period", VStr "annual")])
  = json (VStr "https://financialmodelingprep.com/api/v3/income-statement/BRK%20B?period=annual&apikey=KEY").
Proof.
  exact (proj2 (X1_call_tool_relays Sample.rt echo "KEY" (VStr "income_statement")
                  (VObj [("symbol", VStr "BRK B"); ("period", VStr "annual")])
                  (mk_tool "income_statement" (by_period "/income-statement/"))
                  "/income-statement/BRK%20B?period=annual" eq_refl eq_refl)).
Defined.

(** X2. Both raw dispatchers answer every call, whatever the name, the
    arguments and the provider do, with exactly one content item of type
    "text". *)
Theorem X2_raw_dispatchers_one_text_item (rt : runtime) (fetch : provider) (key : string)
  (name args : value) :
  one_text (call_tool rt fetch key name args)
  /\ one_text (call_tool_three rt fetch key name args).
Proof.
  split.
  - unfold call_tool. destruct (find (is_named name) tools) as [t|].
    + apply Claims.try_catch_one_text.
      * apply Claims.settles_bind. intros built. cbv zeta. unfold relay.
        apply Claims.settles_bind. intros data. apply Claims.settles_reply.
      * intros e. apply Claims.one_text_say.
    + apply Claims.one_text_say.
  - unfold call_tool_three. apply Claims.try_catch_one_text.
    + match goal with
      | |- settles (match ?o with _ => _ end) => destruct o as [build|]
      end.
      * apply Claims.settles_bind. intros endpoint. unfold relay.
        apply Claims.settles_bind. intros data. apply Claims.settles_reply.
      * apply Claims.settles_reply.
    + intros e. apply Claims.one_text_say.
Qed.



(** X4. For the six tools whose endpoint is a path ending in the symbol
    (company_profile, quote, discounted_cash_flow, sec_filings,
    analyst_estimates, ratings), the encoded symbol holds no "?", so the
    table-driven server always attaches the key as the first query
    parameter: the request goes to BASE + lead + encoded symbol + "?apikey="
    + key, whatever characters the symbol has. *)
Theorem X4_path_tools_key_after_question_mark (rt : runtime) (fetch : provider)
  (key name lead : string) (args : list (string * value)) :
  In (name, lead) path_tools ->
  call_tool rt fetch key (VStr name) (VObj args)
  = relayed (fetch (tpl [BASE_URL; lead; encodeURIComponent rt (own args "symbol");
                         "?apikey="; key])).
Proof.
  intros Hin.
  assert (Hno : includes (lead ++ encodeURIComponent rt (own args "symbol"))%string "?"
                = false).
  { rewrite includes_append. unfold encodeURIComponent.
    rewrite (encoded_has_no "?"%char) by reflexivity.
    unfold path_tools in Hin. cbn [In] in Hin.
    repeat (destruct Hin as [Hin|Hin]; [inversion Hin; subst; reflexivity|]).
    destruct Hin. }
  assert (Hcall : call_tool rt fetch key (VStr name) (VObj args)
                  = relayed (fetch (with_key
                      (tpl [lead; encodeURIComponent rt (own args "symbol")]) key))).
  { unfold path_tools in Hin. cbn [In] in Hin.
    repeat (destruct Hin as [Hin|Hin];
            [inversion Hin; subst; eapply call_tool_found; reflexivity|]).
    destruct Hin. }
  rewrite Hcall. unfold with_key.
  change (tpl [lead; encodeURIComponent rt (own args "symbol")])
    with (lead ++ "" ++ encodeURIComponent rt (own args "symbol"))%string.
  cbn [append]. rewrite Hno. unfold tpl. cbn [String.concat].
  rewrite !append_assoc. reflexivity.
Qed.

Lemma X4_witness :
  call_tool Sample.rt echo "KEY" (VStr "quote") (VObj [("symbol", VStr "A?b=1&c")])
  = json (VStr "https://financialmodelingprep.com/api/v3/quote/A%3Fb%3D1%26c?apikey=KEY").
Proof.
  exact (X4_path_tools_key_after_question_mark Sample.rt echo "KEY" "quote" "/quote/"
           [("symbol", VStr "A?b=1&c")] (or_intror (or_introl eq_refl))).
Defined.

(** X5. The three-tool server attaches the key with "&" in every
    request.  For company_profile and quote the endpoint is a path with the
    encoded symbol, so the URL it requests, BASE + lead + encoded symbol +
    "&apikey=" + key, has no "?" before the key: the key is sent as part of
    the path, not as a query parameter. *)
Theorem X5_three_tool_server_key_in_path (rt : runtime) (fetch : provider)
  (key name lead : string) (args : list (string * value)) :
  In (name, lead) [("company_profile", "/profile/"); ("quote", "/quote/")] ->
  call_tool_three rt fetch key (VStr name) (VObj args)
  = relayed (fetch (tpl [BASE_URL; lead; encodeURIComponent rt (own args "symbol");
                         "&apikey="; key]))
  /\ includes (tpl [BASE_URL; lead; encodeURIComponent rt (own args "symbol")]) "?"
     = false.
Proof.
  intros Hin. cbn [In] in Hin.
  destruct Hin as [Hin | [Hin | []]]; inversion Hin; subst; split;
    try (unfold call_tool_three, by_field; cbn [bind get]; apply relay_relayed);
    unfold tpl; cbn [String.concat]; rewrite !includes_append;
    unfold encodeURIComponent; rewrite (encoded_has_no "?"%char) by reflexivity;
    reflexivity.
Qed.

Lemma X5_witness :
  call_tool_three Sample.rt echo "KEY" (VStr "quote") (VObj [("symbol", VStr "AAPL")])
  = json (VStr "https://financialmodelingprep.com/api/v3/quote/AAPL&apikey=KEY").
Proof.
  exact (proj1 (X5_three_tool_server_key_in_path Sample.rt echo "KEY" "quote" "/quote/"
                  [("symbol", VStr "AAPL")] (or_intror (or_introl eq_refl)))).
Defined.

(** X6. stock_screener of the table-driven server requests BASE +
    "/stock-screener?" followed by the filters and the key joined by "&":
    marketCapMoreThan, sector (encoded), priceMoreThan, priceLessThan and
    exchange (encoded), in this order, each as name=value and only when its
    value is truthy (an absent filter, 0 and the empty string are left
    out), and apikey=key last. *)
Theorem X6_screener_filters (rt : runtime) (fetch : provider) (key : string)
  (args : list (string * value)) :
  let shown (name : string) (text : value -> string) : list string :=
    if truthy (own args name) then [(name ++ "=" ++ text (own args name))%string] else [] in
  call_tool rt fetch key (VStr "stock_screener") (VObj args)
  = relayed (fetch
      ("https://financialmodelingprep.com/api/v3/stock-screener?"
       ++ join "&" (shown "marketCapMoreThan" (ToString rt)
                    ++ shown "sector" (fun v => encode_string (ToString rt v))
                    ++ shown "priceMoreThan" (ToString rt)
                    ++ shown "priceLessThan" (ToString rt)
                    ++ shown "exchange" (fun v => encode_string (ToString rt v))
                    ++ [("apikey=" ++ key)%string]))%string).
Proof.
  cbv zeta.
  set (params := screener_params rt (own args "marketCapMoreThan") (own args "sector")
                   (own args "priceMoreThan") (own args "priceLessThan")
                   (own args "exchange")).
  assert (Hcall : call_tool rt fetch key (VStr "stock_screener") (VObj args)
                  = relayed (fetch (with_key
                      (tpl ["/stock-screener";
                            if 0 <? List.length params
                            then tpl ["?"; join "&" params] else ""]) key))).
  { eapply call_tool_found; reflexivity. }
  rewrite Hcall.
  replace (tpl ["/stock-screener";
                if 0 <? List.length params then tpl ["?"; join "&" params] else ""])
    with (if 0 <? List.length params
          then tpl ["/stock-screener"; "?"; join "&" params] else "/stock-screener")
    by (destruct (0 <? List.length params); reflexivity).
  rewrite (with_key_query "/stock-screener" key params) by reflexivity.
  unfold params, screener_params, encodeURIComponent.
  destruct (truthy (own args "marketCapMoreThan")), (truthy (own args "sector")),
    (truthy (own args "priceMoreThan")), (truthy (own args "priceLessThan")),
    (truthy (own args "exchange")); reflexivity.
Qed.

Lemma X6_witness :
  call_tool Sample.rt echo "KEY" (VStr "stock_screener") (VObj some_filters)
  = json (VStr "https://financialmodelingprep.com/api/v3/stock-screener?sector=Real%20Estate&priceMoreThan=10&apikey=KEY").
Proof.
  rewrite (X6_screener_filters Sample.rt echo "KEY" some_filters).
  vm_compute. reflexivity.
Defined.

(** X7. The request of historical_stock_data.  With neither from nor to
    given (or given empty), the query is exactly one count parameter:
    timeseries for a daily interval, last for any other, holding the
    caller's timeseries or else 90 (daily) or 100 (intraday).  With from or
    to given, the timeseries argument never reaches the request. *)
Theorem X7_historical_request_parameters (symbol : string) (interval from to : option string)
  (timeseries : option positive) :
  (given from = false -> given to = false ->
   historical_endpoint symbol interval from to timeseries
   = tpl [series_path symbol interval; "?";
          if is_daily interval then "timeseries" else "last"; "=";
          dec (match timeseries with
               | Some n => Pos.to_nat n
               | None => if is_daily interval then 90 else 100
               end)])
  /\ (given from = true \/ given to = true ->
      forall other,
        historical_endpoint symbol interval from to timeseries
        = historical_endpoint symbol interval from to other).
Proof.
  split.
  - intros Hf Ht.
    assert (Bf : bound "from" from = []).
    { unfold bound, given in *. destruct from as [s|]; [|reflexivity].
      rewrite Hf. reflexivity. }
    assert (Bt : bound "to" to = []).
    { unfold bound, given in *. destruct to as [s|]; [|reflexivity].
      rewrite Ht. reflexivity. }
    unfold historical_endpoint, series_path, is_daily. cbv zeta.
    rewrite Bf, Bt. cbn [app]. unfold count_param. rewrite Hf, Ht. cbn [negb andb].
    destruct (String.eqb (toLowerCase (default "daily" interval)) "daily") eqn:D.
    + destruct timeseries; cbn [List.length Nat.ltb Nat.leb];
        unfold tpl, join; cbn [String.concat]; rewrite !append_assoc; reflexivity.
    + assert (N : String.eqb (default "daily" interval) "daily" = false).
      { destruct (String.eqb (default "daily" interval) "daily") eqn:E; [|reflexivity].
        apply String.eqb_eq in E. rewrite E in D. discriminate D. }
      rewrite N. cbn [negb].
      destruct timeseries; cbn [List.length Nat.ltb Nat.leb];
        unfold tpl, join; cbn [String.concat]; rewrite !append_assoc; reflexivity.
  - intros Hb other. unfold historical_endpoint. cbv zeta.
    assert (C : forall name fallback also ts,
               count_param name fallback also from to ts = []).
    { intros name fallback also ts. unfold count_param.
      destruct Hb as [-> | ->]; cbn [negb andb]; [|rewrite andb_false_r];
        destruct ts; reflexivity. }
    rewrite !C. reflexivity.
Qed.

Lemma X7_witness :
  historical_url "KEY" "AAPL" None None None None
  = "https://financialmodelingprep.com/api/v3/historical-price-full/AAPL?timeseries=90&apikey=KEY"
  /\ historical_endpoint "AAPL" (Some "5min") (Some "2024-01-02") None (Some 30%positive)
     = historical_endpoint "AAPL" (Some "5min") (Some "2024-01-02") None None.
Proof.
  split.
  - unfold historical_url.
    rewrite (proj1 (X7_historical_request_parameters "AAPL" None None None None)
               eq_refl eq_refl).
    reflexivity.
  - exact (proj2 (X7_historical_request_parameters "AAPL" (Some "5min")
                    (Some "2024-01-02") None (Some 30%positive))
                 (or_introl eq_refl) None).
Defined.

(** *** The curated handlers, beyond their sizes *)

Lemma search_symbol_records (items : list record) :
  items <> [] ->
  search_symbol (Ret (records items))
  = json (let matches :=
            map (project (same_name ["symbol"; "name"; "currency"; "exchangeShortName"]))
                (firstn 5 items) in
          if 5 <? List.length items
          then VObj [("message",
                      VStr (tpl ["Displaying top "; dec 5; " of "; dec (List.length items);
                                 " symbols fetched. Be more specific if your target is not listed."]));
                     ("matches", VArr matches)]
          else VArr matches).
Proof.
  intros Hne. destruct items as [|i items]; [congruence|].
  unfold search_symbol, records. set (its := i :: items).
  cbn [bind]. unfold missing_or_empty.
  change (map VObj its) with (VObj i :: map VObj items).
  cbn [truthy negb bind get_length len_is List.length Nat.eqb sliceable].
  change (VObj i :: map VObj items) with (map VObj its).
  change (S (List.length (map VObj items))) with (List.length (map VObj its)).
  cbv zeta. rewrite firstn_map, length_map.
  rewrite (mapM_records _ (project (same_name ["symbol"; "name"; "currency";
                                               "exchangeShortName"])))
    by (intros r _; apply pick_record).
  cbn [bind]. destruct (5 <? List.length its); reflexivity.
Qed.

(** X8. search_symbol on a non-empty array of matches surfaces the first
    min(N, 5), each reduced to symbol, name, currency and exchangeShortName.
    With more than 5 fetched the payload is the envelope whose message
    states "top 5 of N"; with 5 or fewer it is the bare array. *)
Theorem X8_search_symbol_top_five (items : list record) :
  items <> [] ->
  exists payload,
    search_symbol (Ret (records items)) = json payload
    /\ listing "matches" payload
       = map (project (same_name ["symbol"; "name"; "currency"; "exchangeShortName"]))
           (firstn 5 items)
    /\ List.length (listing "matches" payload) = Nat.min 5 (List.length items)
    /\ message_of payload
       = if 5 <? List.length items
         then Some (VStr (tpl ["Displaying top 5 of "; dec (List.length items);
                               " symbols fetched. Be more specific if your target is not listed."]))
         else None.
Proof.
  intros Hne. eexists. split; [apply (search_symbol_records items Hne)|].
  cbv zeta. destruct (5 <? List.length items);
    cbn [listing message_of lookup String.eqb Ascii.eqb Bool.eqb];
    (split; [reflexivity|]); (split; [|reflexivity]);
    rewrite length_map, length_firstn; reflexivity.
Qed.

Lemma X8_witness :
  exists payload,
    search_symbol (Ret (records six_matches)) = json payload
    /\ List.length (listing "matches" payload) = 5
    /\ message_of payload
       = Some (VStr "Displaying top 5 of 6 symbols fetched. Be more specific if your target is not listed.").
Proof.
  destruct (X8_search_symbol_top_five six_matches) as [payload [Hr [_ [Hl Hm]]]].
  - discriminate.
  - exists payload. split; [exact Hr|]. split; [exact Hl | exact Hm].
Defined.

(** *** Price points, newest first *)

(** X9. With valid dates, historical_stock_data lists its points newest
    first whatever order they were fetched in: there is an ordering of the
    fetched points, each at least as recent as those after it, of which the
    full tier shows the first 150, the summary tier all points when N <= 60,
    and the digest's recentData the first 5 when N > 60. *)
Theorem X9_price_points_newest_first (rt : runtime) (data : value) (recs : list record) :
  recs <> [] ->
  fetched_series data recs ->
  Forall (valid_date rt) recs ->
  exists sorted,
    Permutation sorted recs
    /\ newest_first_order rt sorted
    /\ field_of (historical_stock_data rt (Some full) (Ret data)) "data"
       = VArr (map ohlcv_point (firstn 150 sorted))
    /\ (forall detail, detail = None \/ detail = Some summary ->
        (List.length recs <= 60 ->
         field_of (historical_stock_data rt detail (Ret data)) "data"
         = VArr (map ohlcv_point sorted))
        /\ (60 < List.length recs ->
            field_of (historical_stock_data rt detail (Ret data)) "recentData"
            = VArr (map ohlcv_point (firstn 5 sorted))
            /\ List.length (firstn 5 sorted) = 5)).
Proof.
  intros Hne Hf Hv.
  destruct (sort_newest_records rt recs Hv) as [sorted [Hs [Hp Ho]]].
  assert (Hsne : sorted <> []).
  { intros ->. apply Permutation_nil in Hp. congruence. }
  pose proof (Permutation_length Hp) as Hlen.
  exists sorted. split; [exact Hp|]. split; [exact Ho|]. split.
  - rewrite (historical_on_series rt (Some full) data recs Hne Hf), Hs.
    cbn [bind default]. rewrite (Claims.summarize_full rt sorted Hsne). reflexivity.
  - intros detail Hd.
    rewrite (historical_on_series rt detail data recs Hne Hf), Hs. cbn [bind].
    replace (default summary detail) with summary
      by (destruct Hd as [-> | ->]; reflexivity).
    split; intros Hn.
    + rewrite (Claims.summarize_small rt sorted Hsne)
        by (unfold POINTS_THRESHOLD_FOR_SUMMARY; lia).
      reflexivity.
    + assert (Hvs : Forall (valid_date rt) sorted).
      { apply (Permutation_Forall (Permutation_sym Hp)), Hv. }
      destruct (chronological_ends rt sorted Hsne Hvs)
        as [chron [first [last [Hc [_ [Hfirst [Hlast _]]]]]]].
      rewrite (summarize_digest rt sorted chron first last)
        by (try assumption; unfold POINTS_THRESHOLD_FOR_SUMMARY; lia).
      split; [reflexivity|]. rewrite length_firstn. lia.
Qed.

Lemma X9_witness :
  exists sorted,
    Permutation sorted Examples.three_bars
    /\ newest_first_order Sample.rt sorted
    /\ field_of (historical_stock_data Sample.rt None (Ret (records Examples.three_bars)))
         "data"
       = VArr (map ohlcv_point sorted).
Proof.
  destruct (X9_price_points_newest_first Sample.rt (records Examples.three_bars)
              Examples.three_bars) as [sorted [Hp [Ho [_ Hs]]]].
  - discriminate.
  - left. reflexivity.
  - apply valid_dates_check. vm_compute. reflexivity.
  - exists sorted. split; [exact Hp|]. split; [exact Ho|].
    apply (Hs None); [left; reflexivity | cbn; lia].
Defined.

(** *** Grouped series *)

Lemma lookup_groups (k : string) (groups : list (string * list record)) :
  Forall (fun kg => fst kg <> k) groups ->
  lookup k (map (fun kg => (fst kg, records (snd kg))) groups) = None.
Proof.
  induction 1 as [|[name g] groups Hk _ IH]; cbn [map lookup fst snd].
  - reflexivity.
  - cbn [fst] in Hk. destruct (String.eqb k name) eqn:E.
    + apply String.eqb_eq in E. congruence.
    + exact IH.
Qed.

Lemma flat_groups (groups : list (string * list record)) :
  flat (map (fun kg => records (snd kg)) groups) = map VObj (all_points groups).
Proof.
  unfold flat, all_points.
  induction groups as [|g groups IH]; cbn [map flat_map List.concat].
  - reflexivity.
  - rewrite IH, map_app. reflexivity.
Qed.

Lemma historical_on_groups (rt : runtime) (detail : option DetailTier)
  (groups : list (string * list record)) :
  groups <> [] ->
  Forall (fun kg => fst kg <> "historical") groups ->
  historical_stock_data rt detail (Ret (grouped groups))
  = try_catch
      (dataPoints <- sort (newest_first rt) (map VObj (all_points groups)) ;;
       summarize_points rt (default summary detail) dataPoints)
      (fun error => say (tpl ["Error fetching historical_stock_data: "; message error])).
Proof.
  intros Hne Hnames. unfold historical_stock_data, grouped. cbv zeta.
  cbn [bind get]. unfold own. rewrite (lookup_groups "historical" groups Hnames).
  cbn [or_else truthy]. unfold history_missing.
  cbn [truthy negb Object_keys Object_values bind].
  rewrite !map_map, !length_map. cbn [fst snd].
  rewrite (Claims.nonempty_length groups Hne). cbn [bind].
  rewrite flat_groups. reflexivity.
Qed.

(** X10. A body that is an object of named groups of points (none named
    historical) is treated as the one array of all the groups' points, in
    group order: the answer is the one the handler gives for that array.
    When every group is empty the answer is the sentence 'No historical
    data points found after processing.' *)
Theorem X10_grouped_series_is_flattened (rt : runtime) (detail : option DetailTier)
  (groups : list (string * list record)) :
  groups <> [] ->
  Forall (fun kg => fst kg <> "historical") groups ->
  (all_points groups <> [] ->
   historical_stock_data rt detail (Ret (grouped groups))
   = historical_stock_data rt detail (Ret (records (all_points groups))))
  /\ (all_points groups = [] ->
      historical_stock_data rt detail (Ret (grouped groups))
      = say "No historical data points found after processing.").
Proof.
  intros Hne Hnames. rewrite (historical_on_groups rt detail groups Hne Hnames).
  split; intros Hall.
  - rewrite (historical_on_series rt detail _ (all_points groups) Hall)
      by (left; reflexivity).
    reflexivity.
  - rewrite Hall. destruct detail as [[|]|]; reflexivity.
Qed.

Lemma X10_witness :
  historical_stock_data Sample.rt None (Ret (grouped two_groups))
  = historical_stock_data Sample.rt None (Ret (records (all_points two_groups))).
Proof.
  apply (X10_grouped_series_is_flattened Sample.rt None two_groups).
  - discriminate.
  - repeat constructor; discriminate.
  - discriminate.
Defined.

(** *** Dividends *)

(** X11. dividend_calendar on N >= 1 fetched records (dates valid or
    not) lists min(limit, N) of them, limit being 10 when not given; the
    message is 'Displaying limit most recent of N ...' exactly when
    limit < N, and 'Found N dividend records ...' otherwise. *)
Theorem X11_dividend_count_and_message (rt : runtime) (symbol : string)
  (limit : option nat) (body : list (string * value)) (divs : list record) :
  divs <> [] ->
  lookup "historical" body = Some (records divs) ->
  exists payload,
    dividend_calendar rt symbol limit (Ret (VObj body)) = json payload
    /\ List.length (listing "dividends" payload)
       = Nat.min (default 10 limit) (List.length divs)
    /\ message_of payload
       = Some (VStr (if (default 10 limit <? List.length divs)%nat
                     then tpl ["Displaying "; dec (default 10 limit); " most recent of ";
                               dec (List.length divs); " dividend records fetched for ";
                               symbol; "."]
                     else tpl ["Found "; dec (List.length divs);
                               " dividend records for "; symbol; "."])).
Proof.
  intros Hne Hl.
  destruct (sort_records_total (newest_first rt) divs (newest_first_total rt))
    as [sorted [Hs Hp]].
  exists (dividend_payload symbol (default 10 limit) (List.length divs) sorted).
  split; [apply (dividend_calendar_records rt symbol limit body divs sorted Hne Hl Hs Hp)|].
  pose proof (Permutation_length Hp) as Hlen.
  unfold dividend_payload. cbv zeta.
  cbn [listing message_of lookup String.eqb Ascii.eqb Bool.eqb].
  rewrite !length_map, !length_firstn, Hlen. split; [reflexivity|].
  destruct (Nat.ltb_spec (default 10 limit) (List.length divs)) as [Hlt | Hge].
  - rewrite (Nat.min_l _ _ (Nat.lt_le_incl _ _ Hlt)).
    rewrite (proj2 (Nat.ltb_lt _ _) Hlt). reflexivity.
  - rewrite (Nat.min_r _ _ Hge). rewrite Nat.ltb_irrefl. reflexivity.
Qed.

Lemma X11_witness :
  exists payload,
    dividend_calendar Sample.rt "KO" (Some 2) (Ret (VObj Examples.dividend_body))
    = json payload
    /\ List.length (listing "dividends" payload) = 2
    /\ message_of payload
       = Some (VStr "Displaying 2 most recent of 3 dividend records fetched for KO.").
Proof.
  destruct (X11_dividend_count_and_message Sample.rt "KO" (Some 2) Examples.dividend_body
              Examples.three_dividends) as [payload [Hr [Hn Hm]]].
  - discriminate.
  - reflexivity.
  - exists payload. split; [exact Hr|]. split; [exact Hn | exact Hm].
Defined.

(** *** Failed requests *)

Lemma caught_provider_message (error : js_error) :
  let caught :=
    let body := response_data error in
    if truthy body
    then match get body "Error Message" with Ret m => m | Throw _ => VUndefined end
    else VUndefined in
  match provider_message error with
  | Some m => caught = m /\ truthy m = true
  | None => truthy caught = false
  end.
Proof.
  unfold provider_message. destruct error as [msg body]. cbn [response_data]. cbv zeta.
  destruct body as [| |b|x|s|items|props]; try reflexivity.
  - destruct b; reflexivity.
  - destruct (truthy (VNum x)); reflexivity.
  - destruct (truthy (VStr s)); reflexivity.
  - cbn [truthy get]. unfold own. destruct (lookup "Error Message" props) as [m|];
      [|reflexivity].
    destruct (truthy m) eqn:T; [split; [reflexivity | exact T] | reflexivity].
Qed.

Lemma dcf_valuation_failed (rt : runtime) (symbol : string) (error : js_error) :
  dcf_valuation rt symbol (Throw error)
  = say (match provider_message error with
         | Some m => tpl ["Error fetching DCF for "; symbol; ": "; ToString rt m]
         | None => error_sentence error (call_dcf_valuation symbol (Throw error))
         end).
Proof.
  pose proof (caught_provider_message error) as H.
  unfold dcf_valuation. cbn [bind try_catch]. cbv zeta in H |- *.
  destruct (provider_message error) as [m|].
  - destruct H as [-> ->]. reflexivity.
  - rewrite H. reflexivity.
Qed.

Lemma dividend_calendar_failed (rt : runtime) (symbol : string) (limit : option nat)
  (error : js_error) :
  dividend_calendar rt symbol limit (Throw error)
  = say (match provider_message error with
         | Some m => tpl ["Error fetching dividend data for "; symbol; ": "; ToString rt m]
         | None => error_sentence error (call_dividend_calendar symbol limit (Throw error))
         end).
Proof.
  pose proof (caught_provider_message error) as H.
  unfold dividend_calendar. cbn [bind try_catch]. cbv zeta in H |- *.
  destruct (provider_message error) as [m|].
  - destruct H as [-> ->]. reflexivity.
  - rewrite H. reflexivity.
Qed.

(** X12. When the request of dcf_valuation or dividend_calendar fails and
    the failed response's body is an object with a truthy "Error Message",
    the answer is the tool's 'Error fetching ...' sentence ending in that
    message, and the error's own message is not shown. *)
Theorem X12_provider_message_preferred (rt : runtime) (symbol : string)
  (limit : option nat) (error : js_error) (body : list (string * value)) (m : value) :
  response_data error = VObj body ->
  lookup "Error Message" body = Some m ->
  truthy m = true ->
  dcf_valuation rt symbol (Throw error)
  = say (tpl ["Error fetching DCF for "; symbol; ": "; ToString rt m])
  /\ dividend_calendar rt symbol limit (Throw error)
     = say (tpl ["Error fetching dividend data for "; symbol; ": "; ToString rt m]).
Proof.
  intros Hbody Hl Hm.
  assert (Hp : provider_message error = Some m).
  { unfold provider_message. rewrite Hbody, Hl, Hm. reflexivity. }
  rewrite dcf_valuation_failed, dividend_calendar_failed, Hp. split; reflexivity.
Qed.

Lemma X12_witness :
  dcf_valuation Sample.rt "AAPL" (Throw invalid_key)
  = say "Error fetching DCF for AAPL: Invalid API KEY."
  /\ dividend_calendar Sample.rt "AAPL" None (Throw invalid_key)
     = say "Error fetching dividend data for AAPL: Invalid API KEY.".
Proof.
  apply (X12_provider_message_preferred Sample.rt "AAPL" None invalid_key
           [("Error Message", VStr "Invalid API KEY.")] (VStr "Invalid API KEY."));
    reflexivity.
Defined.

(** X13. A failed request is answered by the tool's error sentence, which
    carries the error's message verbatim, whatever the arguments were (for
    analyst_estimates: whatever the second request produced).  For
    dcf_valuation and dividend_calendar this is so when the failed response
    has no provider message. *)
Theorem X13_failed_request_sentence (rt : runtime) (error : js_error) (i : invocation) :
  (reads_provider_message i = true -> provider_message error = None) ->
  run rt (with_failed_request error i) = say (error_sentence error i).
Proof.
  intros Hp. destruct i; try reflexivity; cbn [run with_failed_request].
  - rewrite dcf_valuation_failed, (Hp eq_refl). reflexivity.
  - rewrite dividend_calendar_failed, (Hp eq_refl). reflexivity.
Qed.

Lemma X13_witness :
  run Sample.rt (with_failed_request Examples.server_error
                   (call_dcf_valuation "AAPL" (Ret VNull)))
  = say (error_sentence Examples.server_error (call_dcf_valuation "AAPL" (Ret VNull))).
Proof.
  apply (X13_failed_request_sentence Sample.rt Examples.server_error
           (call_dcf_valuation "AAPL" (Ret VNull))).
  intros _. reflexivity.
Defined.

(** *** Single-record tools *)

Lemma own_projected (names : list string) (r : record) (k : string) :
  In k names ->
  own (map (fun kf => (fst kf, own r (snd kf))) (same_name names)) k = own r k.
Proof.
  unfold same_name. rewrite map_map. cbn [fst snd].
  induction names as [|n names IH]; intros Hin; [destruct Hin|].
  unfold own at 1. cbn [map lookup]. destruct (String.eqb k n) eqn:E.
  - apply String.eqb_eq in E. subst n. reflexivity.
  - destruct Hin as [-> | Hin]; [rewrite String.eqb_refl in E; discriminate E|].
    apply (IH Hin).
Qed.

(** *** What a printed document reads back as *)

Lemma value_induction (P : value -> Prop) :
  P VUndefined -> P VNull -> (forall b, P (VBool b)) -> (forall x, P (VNum x)) ->
  (forall s, P (VStr s)) ->
  (forall items, Forall P items -> P (VArr items)) ->
  (forall props, Forall (fun kv => P (snd kv)) props -> P (VObj props)) ->
  forall v, P v.
Proof.
  intros Hu Hn Hb Hx Hs Ha Ho. fix IH 1. intros [| |b|x|s|items|props].
  - exact Hu.
  - exact Hn.
  - apply Hb.
  - apply Hx.
  - apply Hs.
  - apply Ha. induction items as [|i items IHi]; constructor; [apply IH | exact IHi].
  - apply Ho. induction props as [|[k x] props IHp]; constructor; [apply IH | exact IHp].
Qed.

Lemma printed_object (props : list (string * value)) :
  printed (VObj props) = VObj (print_props props).
Proof.
  induction props as [|[k x] props IH]; [reflexivity|].
  destruct x; (reflexivity || (cbn [printed print_props] in *; injection IH as <-; reflexivity)).
Qed.

Lemma print_props_cons (k : string) (x : value) (rest : list (string * value)) :
  print_props ((k, x) :: rest)
  = if is_undefined x then print_props rest else (k, printed x) :: print_props rest.
Proof. destruct x; reflexivity. Qed.

Lemma printed_defined (v : value) : is_undefined (printed v) = is_undefined v.
Proof.
  destruct v as [| |b|x|s|items|props]; try reflexivity.
  cbn [printed]. destruct (PrimFloat.is_finite x); [|reflexivity].
  destruct (is_neg_zero x); reflexivity.
Qed.

Lemma printed_idempotent (v : value) : printed (printed v) = printed v.
Proof.
  induction v as [| |b|x|s|items IH|props IH] using value_induction; try reflexivity.
  - cbn [printed]. destruct (PrimFloat.is_finite x) eqn:F; [|reflexivity].
    destruct (is_neg_zero x) eqn:Z; [reflexivity|].
    cbn [printed]. rewrite F, Z. reflexivity.
  - cbn [printed]. f_equal. rewrite map_map. apply map_ext_in. intros i Hi.
    rewrite Forall_forall in IH. specialize (IH i Hi).
    destruct (is_undefined i) eqn:U; [destruct i; try discriminate U; reflexivity|].
    replace (match i with VUndefined => VNull | _ => printed i end) with (printed i)
      by (destruct i; try discriminate U; reflexivity).
    pose proof (printed_defined i) as D. rewrite U in D.
    destruct (printed i); try discriminate D; exact IH.
  - rewrite !printed_object. f_equal.
    induction props as [|[k x] props IHp]; [reflexivity|].
    inversion IH as [|? ? Hx Hrest]; subst. cbn [snd] in Hx.
    rewrite print_props_cons. destruct (is_undefined x) eqn:U; [apply IHp, Hrest|].
    rewrite print_props_cons, printed_defined, U, Hx, (IHp Hrest). reflexivity.
Qed.

Lemma lookup_absent (k : string) (l : list (string * value)) :
  ~ In k (map fst l) -> lookup k l = None.
Proof.
  induction l as [|[k' v] l IH]; intros Hk; cbn [lookup]; [reflexivity|].
  cbn [map fst In] in Hk. destruct (String.eqb k k') eqn:E.
  - apply String.eqb_eq in E. subst k'. exfalso. apply Hk. left. reflexivity.
  - apply IH. intros H. apply Hk. right. exact H.
Qed.

Lemma print_props_keys (k : string) (l : list (string * value)) :
  In k (map fst (print_props l)) -> In k (map fst l).
Proof.
  induction l as [|[k' v] l IH]; [intros []|].
  rewrite print_props_cons. cbn [map fst In].
  destruct (is_undefined v); cbn [map fst In]; intros H.
  - right. apply IH, H.
  - destruct H as [H | H]; [left; exact H | right; apply IH, H].
Qed.

(** A property of the printed object is the print of the property. *)
Lemma own_print_props (k : string) (l : list (string * value)) :
  NoDup (map fst l) -> own (print_props l) k = printed (own l k).
Proof.
  unfold own. induction l as [|[k' v] l IH]; intros Hnd; [reflexivity|].
  cbn [map fst] in Hnd. inversion Hnd as [|? ? Hk' Hnd']; subst.
  rewrite print_props_cons. cbn [lookup].
  destruct (String.eqb k k') eqn:E.
  - apply String.eqb_eq in E. subst k'. destruct (is_undefined v) eqn:U.
    + rewrite lookup_absent by (intros H; apply Hk', print_props_keys, H).
      destruct v; try discriminate U. reflexivity.
    + cbn [lookup]. rewrite String.eqb_refl. reflexivity.
  - destruct (is_undefined v); [|cbn [lookup]; rewrite E]; apply IH, Hnd'.
Qed.

Lemma print_props_printed (f : string * string -> value) (fields : list (string * string)) :
  print_props (map (fun kf => (fst kf, printed (f kf))) fields)
  = print_props (map (fun kf => (fst kf, f kf)) fields).
Proof.
  induction fields as [|kf fields IH]; [reflexivity|].
  cbn [map]. rewrite !print_props_cons, printed_defined, printed_idempotent, IH.
  reflexivity.
Qed.

Lemma quote_copied_distinct : NoDup (map fst quote_copied).
Proof.
  unfold quote_copied, same_name. rewrite map_map. cbn [map fst].
  repeat (constructor; [cbn [In]; intros H;
    repeat (destruct H as [H|H]; [discriminate H|]); exact H|]).
  constructor.
Qed.

(** X14. quote and the document it prints.  For a non-empty record, take
    what a JSON parser reads back from the text quote printed (the fields
    the record lacks are not in it) and give it to quote as the provider's
    answer.  If it holds at least one field, quote prints the same document
    again; if it is the empty object, quote answers 'No quote data found
    for the symbol.' *)
Theorem X14_quote_print_round_trip (data : value) (r : record) :
  first_if_array data = VObj r ->
  r <> [] ->
  exists curated,
    quote (Ret data) = json curated
    /\ (printed curated = VObj [] ->
        quote (Ret (printed curated)) = say "No quote data found for the symbol.")
    /\ (printed curated <> VObj [] ->
        exists again,
          quote (Ret (printed curated)) = json again
          /\ printed again = printed curated).
Proof.
  intros Hdata Hne. exists (project quote_copied r).
  split; [apply (quote_record data r Hdata Hne)|].
  set (l := map (fun kf => (fst kf, own r (snd kf))) quote_copied).
  assert (Hpr : printed (project quote_copied r) = VObj (print_props l))
    by apply printed_object.
  rewrite !Hpr. clear Hpr.
  assert (Hkeys : map fst l = map fst quote_copied).
  { unfold l. rewrite map_map. reflexivity. }
  split.
  - intros E. rewrite E. reflexivity.
  - intros Hq. assert (Hq' : print_props l <> []) by congruence.
    exists (project quote_copied (print_props l)).
    split; [apply (quote_record (VObj (print_props l)) (print_props l) eq_refl Hq')|].
    unfold project. rewrite printed_object. f_equal.
    transitivity (print_props (map (fun kf => (fst kf, printed (own r (snd kf))))
                                 quote_copied));
      [|apply (print_props_printed (fun kf => own r (snd kf)) quote_copied)].
    f_equal. apply map_ext_in. intros kf Hkf. f_equal.
    rewrite own_print_props by (rewrite Hkeys; apply quote_copied_distinct).
    f_equal. unfold l, quote_copied in *. apply in_map_iff in Hkf.
    destruct Hkf as [k [<- Hk]]. apply (own_projected _ r k Hk).
Qed.

Lemma X14_witness :
  (exists again,
      quote (Ret (VObj [("symbol", VStr "AAPL"); ("price", VNum 190)])) = json again
      /\ printed again = VObj [("symbol", VStr "AAPL"); ("price", VNum 190)])
  /\ quote (Ret (VObj [])) = say "No quote data found for the symbol.".
Proof.
  split.
  - destruct (X14_quote_print_round_trip (VObj partial_quote) partial_quote eq_refl)
      as [curated [Hc [_ Hagain]]]; [discriminate|].
    assert (E : curated = project quote_copied partial_quote).
    { pose proof (quote_record (VObj partial_quote) partial_quote eq_refl) as Hq.
      rewrite Hq in Hc by discriminate. injection Hc as <-. reflexivity. }
    subst curated. apply Hagain. vm_compute. discriminate.
  - destruct (X14_quote_print_round_trip (VObj foreign_record) foreign_record eq_refl)
      as [curated [Hc [Hempty _]]]; [discriminate|].
    assert (E : curated = project quote_copied foreign_record).
    { pose proof (quote_record (VObj foreign_record) foreign_record eq_refl) as Hq.
      rewrite Hq in Hc by discriminate. injection Hc as <-. reflexivity. }
    subst curated. apply Hempty. vm_compute. reflexivity.
Defined.

Lemma obj_set_fresh (out : list (string * value)) (k : string) (v : value) :
  ~ In k (map fst out) -> obj_set out k v = out ++ [(k, v)].
Proof.
  induction out as [|[k' v'] out IH]; intros Hk; cbn [obj_set app].
  - reflexivity.
  - cbn [map fst In] in Hk. destruct (String.eqb k k') eqn:E.
    + apply String.eqb_eq in E. subst k'. exfalso. apply Hk. left. reflexivity.
    + rewrite IH; [reflexivity|]. intros H. apply Hk. right. exact H.
Qed.

Lemma curated_entries_keys (r : record) (names : list string)
  (out : list (string * value)) :
  NoDup names ->
  (forall k, In k names -> ~ In k (map fst out)) ->
  map fst (curated_entries r names out)
  = map fst out ++ filter (fun k => is_some (present r k)) names.
Proof.
  intros Hnd. revert out.
  induction Hnd as [|key rest Hkey Hnd IH]; intros out Hout; cbn [curated_entries filter].
  - rewrite app_nil_r. reflexivity.
  - destruct (present r key) as [v|]; cbn [is_some].
    + rewrite IH.
      * rewrite (obj_set_fresh out key v) by (apply Hout; left; reflexivity).
        rewrite map_app, <- app_assoc. reflexivity.
      * intros k Hk. rewrite (obj_set_fresh out key v) by (apply Hout; left; reflexivity).
        rewrite map_app, in_app_iff. cbn [map fst In]. intros [H | [H | []]].
        -- apply (Hout k); [right; exact Hk | exact H].
        -- subst k. apply Hkey, Hk.
    + apply IH. intros k Hk. apply Hout. right. exact Hk.
Qed.

Lemma curated_dictionary_keys (r : record) (names : list string) (extra : string) :
  NoDup names ->
  ~ In extra names ->
  map fst (curated_dictionary r names extra) = dictionary_keys r names extra
  /\ NoDup (dictionary_keys r names extra)
  /\ List.length (dictionary_keys r names extra) <= S (List.length names).
Proof.
  intros Hnd Hextra. unfold curated_dictionary, dictionary_keys. cbv zeta.
  pose proof (curated_entries_keys r names [] Hnd (fun k _ H => H)) as Hk.
  cbn [map app] in Hk.
  set (kept := filter (fun k => is_some (present r k)) names) in *.
  assert (Hin : ~ In extra kept).
  { intros H. apply filter_In in H. apply Hextra, H. }
  assert (Hkept : NoDup kept) by (apply NoDup_filter, Hnd).
  assert (Hlen : List.length kept <= List.length names) by apply filter_length_le.
  destruct (truthy (own r extra)).
  - rewrite obj_set_fresh by (rewrite Hk; exact Hin).
    rewrite map_app, Hk. cbn [map fst]. split; [reflexivity|]. split.
    + apply NoDup_app; [exact Hkept | repeat constructor; intros [] |].
      intros k H [<- | []]. apply Hin, H.
    + rewrite length_app. cbn [List.length]. lia.
  - rewrite app_nil_r. split; [exact Hk|]. split; [exact Hkept | lia].
Qed.

Ltac distinct :=
  repeat (constructor; [cbn [In]; intros H;
    repeat (destruct H as [H|H]; [discriminate H|]); exact H|]);
  constructor.

Ltac not_among :=
  cbn [In]; intros H; repeat (destruct H as [H|H]; [discriminate H|]); exact H.

(** X15. The ratios dictionary of financial_ratios_ttm has as keys the
    allow-listed names the record holds with a value other than null and
    undefined, in allow-list order, followed by priceFairValueTTM when the
    record's value for it is truthy; no key occurs twice and there are at
    most 18.  The same holds for the metrics dictionary of key_metrics_ttm
    with its allow-list and bookValuePerShareTTM (at most 23 keys). *)
Theorem X15_dictionary_keys_in_allow_list_order (symbol : string) (data : value)
  (r : record) :
  first_if_array data = VObj r ->
  r <> [] ->
  has_own r "hasOwnProperty" = false ->
  exists ratios metrics,
    field_of (financial_ratios_ttm symbol (Ret data)) "ratios" = VObj ratios
    /\ map fst ratios = dictionary_keys r keyRatioNames "priceFairValueTTM"
    /\ NoDup (map fst ratios) /\ List.length ratios <= 18
    /\ field_of (key_metrics_ttm symbol (Ret data)) "metrics" = VObj metrics
    /\ map fst metrics = dictionary_keys r keyMetricNames "bookValuePerShareTTM"
    /\ NoDup (map fst metrics) /\ List.length metrics <= 23.
Proof.
  intros Hdata Hne Hno.
  exists (curated_dictionary r keyRatioNames "priceFairValueTTM"),
         (curated_dictionary r keyMetricNames "bookValuePerShareTTM").
  rewrite (financial_ratios_ttm_record symbol data r Hdata Hne Hno).
  rewrite (key_metrics_ttm_record symbol data r Hdata Hne Hno).
  destruct (curated_dictionary_keys r keyRatioNames "priceFairValueTTM")
    as [Hk [Hnd Hlen]]; [unfold keyRatioNames; distinct | unfold keyRatioNames; not_among|].
  destruct (curated_dictionary_keys r keyMetricNames "bookValuePerShareTTM")
    as [Hk' [Hnd' Hlen']];
    [unfold keyMetricNames; distinct | unfold keyMetricNames; not_among|].
  split; [reflexivity|]. split; [exact Hk|]. rewrite <- Hk in Hnd, Hlen.
  split; [exact Hnd|]. split; [rewrite length_map in Hlen; exact Hlen|].
  split; [reflexivity|]. split; [exact Hk'|]. rewrite <- Hk' in Hnd', Hlen'.
  split; [exact Hnd'|]. rewrite length_map in Hlen'. exact Hlen'.
Qed.

Lemma X15_witness :
  exists ratios,
    field_of (financial_ratios_ttm "AAPL" (Ret (records [Examples.some_ratios]))) "ratios"
    = VObj ratios
    /\ map fst ratios
       = dictionary_keys Examples.some_ratios keyRatioNames "priceFairValueTTM".
Proof.
  destruct (X15_dictionary_keys_in_allow_list_order "AAPL"
              (records [Examples.some_ratios]) Examples.some_ratios)
    as [ratios [metrics [H1 [H2 _]]]].
  - reflexivity.
  - discriminate.
  - reflexivity.
  - exists ratios. split; [exact H1 | exact H2].
Defined.

(** X16. dcf_valuation on a record with a truthy dcf whose stock price
    (under "Stock Price", else stockPrice) is missing, falsy or not above
    zero still answers with the record: potentialUpsidePercent is null, the
    message is 'Could not calculate potential upside.' and dcfValue is the
    record's dcf.  A record whose dcf is falsy (absent, null, 0) is
    answered by the no-data sentence. *)
Theorem X16_dcf_without_usable_price (rt : runtime) (symbol : string) (data : value)
  (r : record) :
  first_if_array data = VObj r ->
  r <> [] ->
  (truthy (own r "dcf") = false ->
   dcf_valuation rt symbol (Ret data)
   = say (tpl ["No DCF valuation data found for "; symbol;
               ". This might be due to data availability or the company type."]))
  /\ (truthy (own r "dcf") = true ->
      forall price, price = or_else (own r "Stock Price") (own r "stockPrice") ->
      truthy price = false \/ PrimFloat.ltb 0 (ToNumber rt price) = false ->
      let result := dcf_valuation rt symbol (Ret data) in
      field_of result "potentialUpsidePercent" = VNull
      /\ field_of result "message" = VStr "Could not calculate potential upside."
      /\ field_of result "stockPrice" = price
      /\ field_of result "dcfValue" = own r "dcf").
Proof.
  intros Hdata Hne. split.
  - intros Hdcf. unfold dcf_valuation. cbn [bind]. rewrite Hdata.
    rewrite (missing_or_no_keys_record r Hne). cbn [bind get]. rewrite Hdcf.
    reflexivity.
  - intros Hdcf price -> Hprice. cbv zeta.
    rewrite (dcf_valuation_record rt symbol data r Hdata Hne Hdcf). cbv zeta.
    assert (Hnone : potentialUpside rt (or_else (own r "Stock Price") (own r "stockPrice"))
                      (own r "dcf") = None).
    { unfold potentialUpside. destruct Hprice as [-> | ->].
      - reflexivity.
      - rewrite Bool.andb_false_r. reflexivity. }
    rewrite Hnone. repeat split; reflexivity.
Qed.

Lemma X16_witness :
  let result := dcf_valuation Sample.rt "XYZ" (Ret (VObj negative_price_dcf)) in
  field_of result "potentialUpsidePercent" = VNull
  /\ field_of result "message" = VStr "Could not calculate potential upside.".
Proof.
  destruct (X16_dcf_without_usable_price Sample.rt "XYZ" (VObj negative_price_dcf)
              negative_price_dcf eq_refl) as [_ H].
  - discriminate.
  - destruct (H eq_refl (VNum (-1)) eq_refl) as [H1 [H2 _]].
    + right. vm_compute. reflexivity.
    + split; [exact H1 | exact H2].
Defined.

(** *** analyst_estimates with both sub-sources *)

(** X17. When both requests of analyst_estimates succeed, with N >= 1
    estimates and a price target record (bare or as the first element of an
    array), the payload holds, after symbol and sourceMessage, the six-field
    priceTargetSummary, then recentEstimates (the first min(N, 2) estimates
    in the order received, three fields each), then recommendationInfo. *)
Theorem X17_analyst_both_sources (rt : runtime) (symbol : string)
  (estimates : list record) (priceTarget : value) (target : record) :
  estimates <> [] ->
  first_if_array priceTarget = VObj target ->
  analyst_estimates rt symbol (Ret (records estimates)) (Ret priceTarget)
  = json (VObj (analyst_header symbol
                ++ [("priceTargetSummary", price_target_summary target);
                    ("recentEstimates", VArr (map estimate_summary (firstn 2 estimates)));
                    ("recommendationInfo", recommendation_note)]))
  /\ List.length (map estimate_summary (firstn 2 estimates))
     = Nat.min 2 (List.length estimates).
Proof.
  intros He Ht. split; [|rewrite length_map, length_firstn; reflexivity].
  destruct estimates as [|e estimates]; [congruence|].
  unfold analyst_estimates, records.
  set (es := e :: estimates).
  change (map VObj es) with (VObj e :: map VObj estimates).
  cbn [bind]. unfold missing_or_empty. rewrite Ht.
  cbn [truthy negb bind get_length len_is len_gt List.length Nat.eqb Nat.ltb Nat.leb
       andb sliceable].
  change (VObj e :: map VObj estimates) with (map VObj es).
  rewrite pick_record. cbn [bind]. rewrite firstn_map.
  rewrite (mapM_records _ estimate_summary) by (intros r _; apply pick_record).
  reflexivity.
Qed.

Lemma X17_witness :
  analyst_estimates Sample.rt "AAPL" (Ret (records Examples.three_estimates))
    (Ret (records [Examples.price_target]))
  = json (VObj (analyst_header "AAPL"
                ++ [("priceTargetSummary", price_target_summary Examples.price_target);
                    ("recentEstimates",
                     VArr (map estimate_summary (firstn 2 Examples.three_estimates)));
                    ("recommendationInfo", recommendation_note)])).
Proof.
  apply (X17_analyst_both_sources Sample.rt "AAPL" Examples.three_estimates
           (records [Examples.price_target]) Examples.price_target).
  - discriminate.
  - reflexivity.
Defined.

(** *** Query strings *)

Lemma series_path_plain (symbol : string) (interval : option string) :
  includes (series_path symbol interval) "?" = false.
Proof.
  unfold series_path. destruct (is_daily interval); unfold tpl; cbn [String.concat];
    rewrite !includes_append, !(encoded_has_no "?"%char) by reflexivity; reflexivity.
Qed.

(** X18. The requests of earnings_calendar and historical_stock_data are
    well-formed whatever arguments are given: the URL is BASE, the path, one
    "?", and the query parameters joined by "&" with the key as the last of
    them.  With no parameter the key follows the "?" directly. *)
Theorem X18_query_strings_well_formed (key symbol : string)
  (named interval from to : option string) (timeseries : option positive) :
  earnings_url key named from to
  = tpl [BASE_URL; "/earning_calendar"; "?";
         join "&" (earnings_query named from to ++ [tpl ["apikey="; key]])]
  /\ historical_url key symbol interval from to timeseries
     = tpl [BASE_URL; series_path symbol interval; "?";
            join "&" (historical_query interval from to timeseries
                      ++ [tpl ["apikey="; key]])].
Proof.
  split.
  - rewrite <- (with_key_query "/earning_calendar" key (earnings_query named from to))
      by reflexivity.
    unfold earnings_url, earnings_endpoint. cbv zeta.
    destruct (0 <? List.length (earnings_query named from to))%nat.
    + unfold tpl. cbn [String.concat]. reflexivity.
    + unfold tpl. cbn [String.concat]. reflexivity.
  - rewrite <- (with_key_query (series_path symbol interval) key
                  (historical_query interval from to timeseries))
      by apply series_path_plain.
    reflexivity.
Qed.

(** *** A body that is an object of scalars *)

Lemma flat_scalars (vals : list value) :
  Forall (fun v => plain_scalar v = true) vals -> flat vals = vals.
Proof.
  unfold flat. induction 1 as [|v vals Hv _ IH]; cbn [flat_map]; [reflexivity|].
  rewrite IH. destruct v; try discriminate Hv; reflexivity.
Qed.

Lemma newest_first_scalars (rt : runtime) (x y : value) :
  plain_scalar x = true -> plain_scalar y = true ->
  exists c, SortCompare (newest_first rt) x y = Ret c.
Proof.
  intros Hx Hy. destruct x; try discriminate Hx; destruct y; try discriminate Hy;
    eexists; reflexivity.
Qed.

Lemma ohlcv_scalar (v : value) :
  plain_scalar v = true -> ohlcv v = Ret (ohlcv_point []).
Proof. intros Hv. destruct v; try discriminate Hv; reflexivity. Qed.

(** X19. historical_stock_data takes a body that is an object without a
    truthy historical for an object of groups.  When the properties hold
    strings, numbers or booleans (a provider error answered with status
    200, or a single record), each property is read as one price point: for
    up to 60 properties the payload lists as many points as the body has
    properties, every field of each undefined, and no error is reported. *)
Theorem X19_object_body_read_as_points (rt : runtime) (detail : option DetailTier)
  (body : list (string * value)) :
  body <> [] ->
  truthy (own body "historical") = false ->
  Forall (fun kv => plain_scalar (snd kv) = true) body ->
  List.length body <= 60 ->
  exists payload,
    historical_stock_data rt detail (Ret (VObj body)) = json payload
    /\ listing "data" payload = repeat (ohlcv_point []) (List.length body)
    /\ message_of payload
       = Some (VStr (match default summary detail with
                     | full =>
                         tpl ["Showing "; dec (List.length body); " of ";
                              dec (List.length body);
                              " fetched data points (full detail requested, capped at 150)."]
                     | summary =>
                         tpl ["Showing all "; dec (List.length body);
                              " fetched data points (below summary threshold)."]
                     end)).
Proof.
  intros Hne Hh Hs Hlen.
  assert (Hvals : Forall (fun v => plain_scalar v = true) (map snd body)).
  { apply Forall_map. exact Hs. }
  destruct (sort_total (newest_first rt) (map snd body)) as [pts [Hsort Hp]].
  { rewrite Forall_forall in Hvals. intros x y Hx Hy.
    apply newest_first_scalars; [apply (Hvals x Hx) | apply (Hvals y Hy)]. }
  assert (Hpts : Forall (fun v => plain_scalar v = true) pts).
  { apply (Permutation_Forall (Permutation_sym Hp)), Hvals. }
  assert (Hn : List.length pts = List.length body).
  { rewrite (Permutation_length Hp), length_map. reflexivity. }
  assert (Hblank : forall l, Forall (fun v => plain_scalar v = true) l ->
                     mapM ohlcv l = Ret (repeat (ohlcv_point []) (List.length l))).
  { intros l Hl. rewrite (mapM_ret ohlcv (fun _ => ohlcv_point []) l).
    - rewrite map_const. reflexivity.
    - rewrite Forall_forall in Hl. intros v Hv. apply ohlcv_scalar, (Hl v Hv). }
  unfold historical_stock_data. cbv zeta. cbn [bind get]. unfold or_else. rewrite Hh.
  unfold history_missing. cbn [truthy negb Object_keys Object_values bind].
  rewrite length_map, (Claims.nonempty_length body Hne). cbn [bind].
  rewrite (flat_scalars _ Hvals), Hsort. cbn [bind].
  unfold summarize_points. rewrite Hn, (Claims.nonempty_length body Hne).
  destruct (default summary detail); cbn [is_full].
  - replace (POINTS_THRESHOLD_FOR_SUMMARY <? List.length body)%nat with false
      by (symmetry; apply Nat.ltb_ge; exact Hlen).
    rewrite (Hblank pts Hpts). cbn [bind try_catch]. rewrite repeat_length, Hn.
    eexists. split; [reflexivity|]. split; reflexivity.
  - rewrite firstn_all2 by (unfold MAX_POINTS_FOR_FULL_DETAIL; lia).
    rewrite (Hblank pts Hpts). cbn [bind try_catch]. rewrite repeat_length, Hn.
    eexists. split; [reflexivity|]. split; reflexivity.
Qed.

Lemma X19_witness :
  exists payload,
    historical_stock_data Sample.rt None (Ret (VObj (error_body "Limit Reach.")))
    = json payload
    /\ listing "data" payload = [ohlcv_point []]
    /\ message_of payload
       = Some (VStr "Showing all 1 fetched data points (below summary threshold).").
Proof.
  destruct (X19_object_body_read_as_points Sample.rt None (error_body "Limit Reach."))
    as [payload [Hr [Hl Hm]]].
  - discriminate.
  - reflexivity.
  - repeat constructor.
  - cbn. lia.
  - exists payload. split; [exact Hr|]. split; [exact Hl | exact Hm].
Defined.

End Extras.
